(** * Deforestation_system: the rule-based analysis pipeline and the
    statistics aggregator, embedded from [satellite_processor.py] and
    [app.py].

    Modelling conventions.
    - A Python/numpy float is an exact rational ([Q]) or [NaN]; binary
      rounding error is not modelled.  [round(x, n)] is round-half-even to
      [n] decimals, as Python documents it.  A decimal value exactly
      half-way between two neighbours is a tie here, while its double is
      slightly off and rounds by that error: the statements on the stored
      averages leave such ties out ([App.is_tie]) or are bounds that hold
      either way.
    - A numpy array is its [shape] tuple and its row-major flat [data].
    - A dict with string keys is a [gmap string _].
    - Library calls whose values the repository does not fix
      ([cv2.imread], [cv2.resize], [np.std], [os.listdir]) are fields of
      the [Env] interface.
    - A call returns a value or raises: [Py.result].  Logging, and the
      files [save_results] writes, do not reach any returned value and are
      left out; the statistics file is the [App.disk]. *)

From Stdlib Require Import ZArith QArith Qround Lia Lqa List String Ascii.
From stdpp Require Import base option list gmap strings.

Local Open Scope Z_scope.

(** ** Python numbers *)

Module Py.

(** [round()] on an exact value: nearest integer, ties to the even one. *)
Definition round_half_even (x : Q) : Z :=
  let f := Qfloor x in
  match Qcompare (x - inject_Z f) (1 # 2) with
  | Lt => f
  | Gt => f + 1
  | Eq => if Z.even f then f else f + 1
  end.

Definition pow10 (n : nat) : Z := 10 ^ Z.of_nat n.

(** [round(x, ndigits)] on a finite float. *)
Definition round_q (x : Q) (ndigits : nat) : Q :=
  Qred (inject_Z (round_half_even (x * inject_Z (pow10 ndigits)))
        / inject_Z (pow10 ndigits)).

(** A float: finite, or not-a-number. *)
Inductive float := Fin (q : Q) | NaN.

Definition lift2 (f : Q -> Q -> Q) (a b : float) : float :=
  match a, b with
  | Fin x, Fin y => Fin (f x y)
  | _, _ => NaN
  end.

Definition fadd := lift2 Qplus.
Definition fsub := lift2 Qminus.
Definition fmul := lift2 Qmult.

(** Comparisons with [NaN] are false. *)
Definition flt (a b : float) : bool :=
  match a, b with
  | Fin x, Fin y => negb (Qle_bool y x)
  | _, _ => false
  end.

Definition fge (a b : float) : bool :=
  match a, b with
  | Fin x, Fin y => Qle_bool y x
  | _, _ => false
  end.

(** The builtin [max(a, b)]: [b] replaces [a] only when [b > a]. *)
Definition max (a b : float) : float := if flt a b then b else a.

(** The builtin [min(a, b)]: [b] replaces [a] only when [b < a]. *)
Definition min (a b : float) : float := if flt b a then b else a.

Definition round (x : float) (ndigits : nat) : float :=
  match x with
  | Fin q => Fin (round_q q ndigits)
  | NaN => NaN
  end.

(** Equality of floats up to the representation of the rational. *)
Definition feq (a b : float) : Prop :=
  match a, b with
  | Fin x, Fin y => (x == y)%Q
  | NaN, NaN => True
  | _, _ => False
  end.

(** A number stored in a dict: a Python or numpy integer, or a float. *)
Inductive value := VInt (z : Z) | VFloat (x : float).

(** [float(v)]. *)
Definition float_ (v : value) : float :=
  match v with
  | VInt z => Fin (inject_Z z)
  | VFloat x => x
  end.

(** Exceptions raised along the modelled paths. *)
Inductive exn :=
  | ValueError (msg : string)
  | KeyError (key : string)
  | ZeroDivisionError
  | TypeError (msg : string)
  | Cv2Error (msg : string)
  | OSError (msg : string).

(** [str(e)]. *)
Definition str (e : exn) : string :=
  match e with
  | ValueError msg => msg
  | KeyError key => "'" ++ key ++ "'"
  | ZeroDivisionError => "float division by zero"
  | TypeError msg => msg
  | Cv2Error msg => msg
  | OSError msg => msg
  end.

(** The outcome of a call: a returned value or a raised exception. *)
Inductive result (A : Type) :=
  | Ok (a : A)
  | Raise (e : exn).
Arguments Ok {A} a.
Arguments Raise {A} e.

Definition bind {A B} (m : result A) (k : A -> result B) : result B :=
  match m with
  | Ok a => k a
  | Raise e => Raise e
  end.

(** [str.lower()] on ASCII text. *)
Definition lower_ascii (c : ascii) : ascii :=
  let n := nat_of_ascii c in
  if ((65 <=? n) && (n <=? 90))%nat then ascii_of_nat (n + 32) else c.

Fixpoint lower (s : string) : string :=
  match s with
  | EmptyString => EmptyString
  | String c r => String (lower_ascii c) (lower r)
  end.

(** [s.endswith(suffix)]. *)
Definition endswith (s suffix : string) : bool :=
  let n := String.length s in
  let m := String.length suffix in
  (m <=? n)%nat && String.eqb (substring (n - m) m s) suffix.

Definition startswith (s pre : string) : bool := String.prefix pre s.

Fixpoint has_slash (p : string) : bool :=
  match p with
  | EmptyString => false
  | String c r => Ascii.eqb c "/" || has_slash r
  end.

(** [os.path.join(a, b)], POSIX flavour. *)
Definition path_join (a b : string) : string :=
  if startswith b "/" then b
  else if String.eqb a EmptyString || endswith a "/" then a ++ b
  else a ++ "/" ++ b.

(** [os.path.basename(p)]: what follows the last slash. *)
Fixpoint basename (p : string) : string :=
  match p with
  | EmptyString => EmptyString
  | String c r =>
      if Ascii.eqb c "/" then basename r
      else if has_slash r then basename r else p
  end.

End Py.

#[global] Instance result_ret : MRet Py.result := fun _ a => Py.Ok a.
#[global] Instance result_bind : MBind Py.result :=
  fun _ _ k m => Py.bind m k.


(** ** numpy arrays *)

Module Np.

Record ndarray (A : Type) := mk { shape : list nat; data : list A }.
Arguments mk {A} shape data.
Arguments shape {A} n.
Arguments data {A} n.

(** [a.size]: the product of the dimensions. *)
Definition size {A} (a : ndarray A) : nat := foldr Nat.mul 1%nat (shape a).

(** [len(a.shape)]. *)
Definition ndim {A} (a : ndarray A) : nat := length (shape a).

(** The flat buffer holds exactly [size] elements. *)
Definition wf {A} (a : ndarray A) : Prop := length (data a) = size a.

(** A unary operation applied to every element ([a + s], [a.astype(..) / s]). *)
Definition map {A B} (f : A -> B) (a : ndarray A) : ndarray B :=
  mk (shape a) (List.map f (data a)).

(** A binary operation between two arrays of one shape. *)
Definition zip_with {A B C} (f : A -> B -> C) (a : ndarray A) (b : ndarray B)
  : ndarray C :=
  mk (shape a) (stdpp.base.zip_with f (data a) (data b)).

(** Every [c]-th element of the buffer from offset [k]. *)
Definition take_channel {A} (c k : nat) (d : list A) : list A :=
  omap (fun i => d !! (i * c + k)%nat) (seq 0 (length d / c)).

(** [image[:, :, k]] on a three-dimensional array. *)
Definition channel {A} (k : nat) (a : ndarray A) : ndarray A :=
  match shape a with
  | [h; w; c] => mk [h; w] (take_channel c k (data a))
  | _ => a
  end.

(** [np.expand_dims(a, axis=-1)]. *)
Definition expand_dims_last {A} (a : ndarray A) : ndarray A :=
  mk (shape a ++ [1%nat]) (data a).

(** [np.sum(mask)] of a boolean array: the number of true elements. *)
Definition sum_bool (a : ndarray bool) : Z :=
  Z.of_nat (length (List.filter (fun b : bool => b) (data a))).

(** [np.ones(shape, dtype=np.uint8) * s]. *)
Definition full (sh : list nat) (s : Z) : ndarray Z :=
  mk sh (replicate (foldr Nat.mul 1%nat sh) s).

End Np.

(** ** The library calls the pipeline depends on *)

Class Env := {
  (** [cv2.imread(path)]: the decoded BGR image, or [None]. *)
  cv2_imread : string -> option (Np.ndarray Z);
  (** [cv2.resize(image, dsize)] with [dsize = (width, height)]. *)
  cv2_resize : Np.ndarray Z -> nat * nat -> Py.result (Np.ndarray Z);
  (** [np.std(a)]. *)
  np_std : Np.ndarray Q -> Py.float;
  (** [os.listdir(path)]. *)
  os_listdir : string -> Py.result (list string);
}.

(** ** satellite_processor.py: [SatelliteImageProcessor] *)

Module SatelliteProcessor.

Import Py.

Record batch_entry := {
  file : string;
  result : option (gmap string value);
  status : string;
  error : option string;
}.

Record batch_report := {
  results : list batch_entry;
  total_files : nat;
}.

Definition supported_formats : list string :=
  [".jpg"; ".jpeg"; ".png"; ".bmp"]%string.

Definition default_target_size : nat * nat := (512, 512)%nat.

Definition forest_threshold : Q := 0.3.
Definition deforested_threshold : Q := 0.1.
Definition eps : Q := 1e-8.

Definition Qlt_bool (x y : Q) : bool := negb (Qle_bool y x).

(** Element-wise arithmetic between arrays of one shape, and with a scalar. *)
Definition asub := Np.zip_with Qminus.
Definition aadd := Np.zip_with Qplus.
Definition adiv := Np.zip_with Qdiv.
Definition aadd_s (a : Np.ndarray Q) (s : Q) := Np.map (fun x => x + s)%Q a.

(** Integer true division of numpy scalars: [0 / 0] is [nan], no exception.
    Only counts bounded by the divisor are divided here. *)
Definition true_divide (a b : Z) : float :=
  if b =? 0 then NaN else Fin (inject_Z a / inject_Z b).

(** The three channels of each pixel in reverse order. *)
Fixpoint swap_rb (d : list Z) : list Z :=
  match d with
  | b :: g :: r :: rest => r :: g :: b :: swap_rb rest
  | _ => []
  end.

(** [cv2.cvtColor(image, cv2.COLOR_BGR2RGB)]. *)
Definition cvtColor_BGR2RGB (image : Np.ndarray Z) : Py.result (Np.ndarray Z) :=
  match Np.shape image with
  | [h; w; 3%nat] => Ok (Np.mk [h; w; 3%nat] (swap_rb (Np.data image)))
  | _ => Raise (Cv2Error "Invalid number of channels in input image")
  end.

(** The result returned when no classification is possible. *)
Definition degenerate : gmap string value :=
  <["confidence" := VInt 0]> (<["deforestation_percentage" := VInt 0]> ∅).

Section WithEnv.
Context `{Env}.

Definition load_image (image_path : string) : Py.result (Np.ndarray Z) :=
  match cv2_imread image_path with
  | None => Raise (ValueError ("Could not load image: " ++ image_path))
  | Some image => cvtColor_BGR2RGB image
  end.

Definition preprocess_image (image : Np.ndarray Z) (target_size : nat * nat)
  : Py.result (Np.ndarray Q) :=
  image ←
    (if (Np.ndim image =? 3)%nat then cv2_resize image target_size
     else image ← cv2_resize image target_size;
          mret (Np.expand_dims_last image));
  mret (Np.map (fun v => inject_Z v / 255)%Q image).

(** The order of steps as the specification words it: the channel axis is
    appended to a single-channel source before the resize. *)
Definition preprocess_axis_first (image : Np.ndarray Z) (target_size : nat * nat)
  : Py.result (Np.ndarray Q) :=
  image ←
    (if (Np.ndim image =? 3)%nat then cv2_resize image target_size
     else cv2_resize (Np.expand_dims_last image) target_size);
  mret (Np.map (fun v => inject_Z v / 255)%Q image).

Definition calculate_vegetation_indices (image : Np.ndarray Q)
  : gmap string (Np.ndarray Q) :=
  match Np.shape image with
  | [_; _; c] =>
      if (3 <=? c)%nat then
        let r := Np.channel 0 image in
        let g := Np.channel 1 image in
        let b := Np.channel 2 image in
        let ndvi := adiv (asub g r) (aadd_s (aadd g r) eps) in
        let indices := <["NDVI" := ndvi]> ∅ in
        let gndvi := adiv (asub g r) (aadd_s (aadd g r) eps) in
        let indices := <["GNDVI" := gndvi]> indices in
        let vari := adiv (asub g r) (aadd_s (asub (aadd g r) b) eps) in
        let indices := <["VARI" := vari]> indices in
        let greenness := adiv g (aadd_s (aadd r b) eps) in
        <["Greenness" := greenness]> indices
      else ∅
  | _ => ∅
  end.

Definition detect_deforestation (image : Np.ndarray Q)
    (vegetation_indices : gmap string (Np.ndarray Q)) : gmap string value :=
  if (size vegetation_indices =? 0)%nat then degenerate
  else
    match vegetation_indices !! "NDVI" with
    | Some ndvi =>
        let forest_pixels :=
          Np.sum_bool (Np.map (fun x => Qlt_bool forest_threshold x) ndvi) in
        let deforested_pixels :=
          Np.sum_bool (Np.map (fun x => Qlt_bool x deforested_threshold) ndvi) in
        let total_pixels := Z.of_nat (Np.size ndvi) in
        let deforestation_percentage :=
          fmul (true_divide deforested_pixels total_pixels) (Fin 100) in
        let forest_percentage :=
          fmul (true_divide forest_pixels total_pixels) (Fin 100) in
        let confidence :=
          Py.min (Fin 0.95) (Py.max (Fin 0.5) (fsub (Fin 1) (np_std ndvi))) in
        <["deforestation_percentage" :=
            VFloat (Py.round deforestation_percentage 2)]>
        (<["forest_percentage" := VFloat (Py.round forest_percentage 2)]>
        (<["confidence" := VFloat (Py.round confidence 3)]>
        (<["total_pixels" := VInt total_pixels]>
        (<["forest_pixels" := VInt forest_pixels]>
        (<["deforested_pixels" := VInt deforested_pixels]> ∅)))))
    | None => degenerate
    end.

(** [save_results] only writes files and swallows its own failures; it has
    no effect on what is returned and is left out. *)
Definition process_satellite_image (image_path : string)
  : Py.result (gmap string value * Np.ndarray Z * gmap string (Np.ndarray Q)) :=
  image ← load_image image_path;
  processed_image ← preprocess_image image default_target_size;
  let indices := calculate_vegetation_indices processed_image in
  let results := detect_deforestation processed_image indices in
  let mask := Np.full (take 2 (Np.shape processed_image)) 255 in
  mret (results, mask, indices).

Definition is_supported (filename : string) : bool :=
  existsb (fun fmt => endswith (lower filename) fmt) supported_formats.

(** One pass of the per-file loop body, with its [try]/[except]. *)
Definition process_entry (file_path : string) : batch_entry :=
  match process_satellite_image file_path with
  | Ok (result, mask, indices) =>
      {| file := basename file_path; result := Some result;
         status := "success"; error := None |}
  | Raise e =>
      {| file := basename file_path; result := None;
         status := "error"; error := Some (str e) |}
  end.

Definition batch_process (directory_path : string) : Py.result batch_report :=
  names ← os_listdir directory_path;
  let supported_files :=
    List.map (path_join directory_path) (List.filter is_supported names) in
  let results := List.map process_entry supported_files in
  mret {| results := results; total_files := length supported_files |}.

End WithEnv.

End SatelliteProcessor.

(** ** app.py: the persisted processing statistics *)

Module App.

Import Py.

Record history_entry := {
  filename : string;
  deforestation_percentage : float;
  confidence : float;
  timestamp : string;
}.

(** The statistics dict.  A key that the JSON object lacks is [None]. *)
Record stats := {
  total_processed : option Z;
  total_deforested_images : option Z;
  average_deforestation_percentage : option float;
  average_confidence : option float;
  history : option (list history_entry);
}.

(** [PROCESSING_STATS_FILE] on disk: absent, present but failing to open or
    to parse, or holding a JSON object. *)
Inductive stats_file :=
  | Missing
  | Unreadable
  | Holds (s : stats).

(** The file and whether it can be opened for writing. *)
Record disk := {
  content : stats_file;
  writable : bool;
}.

Definition zero_stats : stats :=
  {| total_processed := Some 0;
     total_deforested_images := Some 0;
     average_deforestation_percentage := Some (Fin 0);
     average_confidence := Some (Fin 0);
     history := Some [] |}.

Definition _read_processing_stats (d : disk) : stats :=
  match content d with
  | Holds s => s
  | Unreadable => zero_stats
  | Missing => zero_stats
  end.

Definition _write_processing_stats (s : stats) (d : disk) : disk :=
  if writable d then {| content := Holds s; writable := true |} else d.

Definition of_int (z : Z) : float := Fin (inject_Z z).

(** [x / n] for a float and an int. *)
Definition fdiv (x : float) (n : Z) : result float :=
  if n =? 0 then Raise ZeroDivisionError
  else Ok (lift2 Qdiv x (of_int n)).

(** [l[-100:]]. *)
Definition last100 {A} (l : list A) : list A := drop (length l - 100) l.

(** [now] is the value of [datetime.now().isoformat()] at the call. *)
Definition _update_processing_stats (filename : string)
    (results : gmap string value) (now : string) (d : disk)
  : disk * result stats :=
  let stats := _read_processing_stats d in
  let prev_total := default 0 (total_processed stats) in
  let new_total := prev_total + 1 in
  let avg_def := default (Fin 0) (average_deforestation_percentage stats) in
  let avg_conf := default (Fin 0) (average_confidence stats) in
  let def_pct :=
    float_ (default (VFloat (Fin 0)) (results !! "deforestation_percentage")) in
  let conf := float_ (default (VFloat (Fin 0)) (results !! "confidence")) in
  let outcome :=
    new_avg_def ← fdiv (fadd (fmul avg_def (of_int prev_total)) def_pct) new_total;
    new_avg_conf ← fdiv (fadd (fmul avg_conf (of_int prev_total)) conf) new_total;
    let deforested :=
      if fge def_pct (Fin 20)
      then Some (default 0 (total_deforested_images stats) + 1)
      else total_deforested_images stats in
    match history stats with
    | None => Raise (KeyError "history")
    | Some h =>
        let h := h ++ [ {| filename := filename;
                           deforestation_percentage := def_pct;
                           confidence := conf;
                           timestamp := now |} ] in
        mret {| total_processed := Some new_total;
                total_deforested_images := deforested;
                average_deforestation_percentage := Some (round new_avg_def 2);
                average_confidence := Some (round new_avg_conf 3);
                history := Some (last100 h) |}
    end in
  match outcome with
  | Ok stats => (_write_processing_stats stats d, Ok stats)
  | Raise e => (d, Raise e)
  end.

(** One [record()] call: file name, classification result, clock reading. *)
Definition call : Type := string * gmap string value * string.

Definition def_pct_of (c : call) : float :=
  float_ (default (VFloat (Fin 0)) (c.1.2 !! "deforestation_percentage")).

Definition conf_of (c : call) : float :=
  float_ (default (VFloat (Fin 0)) (c.1.2 !! "confidence")).

Definition entry_of (c : call) : history_entry :=
  {| filename := c.1.1; deforestation_percentage := def_pct_of c;
     confidence := conf_of c; timestamp := c.2 |}.

(** Calls made one after the other; an exception leaves the disk as it was
    and the next call goes on. *)
Definition record_all (calls : list call) (d : disk) : disk :=
  foldl (fun d c => (_update_processing_stats c.1.1 c.1.2 c.2 d).1) d calls.

(** The arithmetic mean of the finite values of a list. *)
Definition mean (l : list Q) : Q :=
  (foldr Qplus 0 l / inject_Z (Z.of_nat (length l)))%Q.

(** [x] has at most [ndigits] decimals. *)
Definition exact_at (ndigits : nat) (x : Q) : Prop :=
  exists z : Z, (x == inject_Z z / inject_Z (pow10 ndigits))%Q.

(** [x] lies exactly half-way between two neighbouring numbers of
    [ndigits] decimals.  Only there does the result of [round] hang on how
    the binary float represents the decimal value. *)
Definition is_tie (ndigits : nat) (x : Q) : bool :=
  let y := (x * inject_Z (pow10 ndigits))%Q in
  Qeq_bool (y - inject_Z (Qfloor y)) (1 # 2).

(** The mean of every proper, non-empty prefix has at most [ndigits]
    decimals: no stored average before the last one lost anything to
    rounding. *)
Definition prefix_exact (ndigits : nat) (l : list Q) : Prop :=
  forall k : nat, (0 < k < length l)%nat -> exact_at ndigits (mean (take k l)).

(** The incremental formula on finite values:
    [round((old_avg * prev_total + new_value) / (prev_total + 1), ndigits)]. *)
Definition step_average (ndigits : nat) (old_avg : Q) (prev_total : Z)
    (new_value : Q) : Q :=
  round_q ((old_avg * inject_Z prev_total + new_value)
           / inject_Z (prev_total + 1)) ndigits.

(** The formula iterated over [l] from the zeroed record. *)
Definition running_average (ndigits : nat) (l : list Q) : Q :=
  (foldl (fun st v => (step_average ndigits st.1 st.2 v, st.2 + 1)) (0%Q, 0) l).1.

(** A disk whose statistics read as the zeroed record and can be saved. *)
Definition fresh (d : disk) : Prop :=
  _read_processing_stats d = zero_stats /\ writable d = true.

End App.

(** ** The contract of [cv2.resize] *)

Module Cv2.

Definition uint8 (v : Z) : Prop := 0 <= v <= 255.

(** A decoded image: two or three positive dimensions, a buffer of the
    right length, 8-bit samples. *)
Definition raw_shape_ok (sh : list nat) : bool :=
  match sh with
  | [h; w] => (0 <? h)%nat && (0 <? w)%nat
  | [h; w; c] => (0 <? h)%nat && (0 <? w)%nat && (0 <? c)%nat
  | _ => false
  end.

Definition raw_wf (image : Np.ndarray Z) : Prop :=
  raw_shape_ok (Np.shape image) = true /\
  Np.wf image /\
  Forall uint8 (Np.data image).

(** The shape [cv2.resize] returns for [dsize = (width, height)]: rows
    first, and a channel axis of length one is dropped. *)
Definition resized_shape (sh : list nat) (dsize : nat * nat) : list nat :=
  match sh with
  | [_; _; c] =>
      if (c =? 1)%nat then [dsize.2; dsize.1] else [dsize.2; dsize.1; c]
  | _ => [dsize.2; dsize.1]
  end.

(** What the pipeline relies on, whatever the interpolation: a well-formed
    image and a positive size give a well-formed image of the new shape. *)
Definition resize_contract
    (resize : Np.ndarray Z -> nat * nat -> Py.result (Np.ndarray Z)) : Prop :=
  forall image dsize,
    raw_wf image -> (0 < dsize.1)%nat -> (0 < dsize.2)%nat ->
    exists out,
      resize image dsize = Py.Ok out /\
      Np.shape out = resized_shape (Np.shape image) dsize /\
      Np.wf out /\
      Forall uint8 (Np.data out).

End Cv2.

(** ** A concrete environment, for running the model on examples *)

Module Demo.

Import Py.

(** Nearest-neighbour resampling. *)
Definition resize_nearest (image : Np.ndarray Z) (dsize : nat * nat)
  : result (Np.ndarray Z) :=
  if Cv2.raw_shape_ok (Np.shape image) && (0 <? dsize.1)%nat && (0 <? dsize.2)%nat
  then
    let h := nth 0 (Np.shape image) 1%nat in
    let w := nth 1 (Np.shape image) 1%nat in
    let c := nth 2 (Np.shape image) 1%nat in
    let tw := dsize.1 in
    let th := dsize.2 in
    let pick (i : nat) : Z :=
      let y := (i / (tw * c))%nat in
      let x := ((i / c) mod tw)%nat in
      let k := (i mod c)%nat in
      nth (((y * h / th) * w + x * w / tw) * c + k) (Np.data image) 0 in
    Ok (Np.mk (Cv2.resized_shape (Np.shape image) dsize)
              (List.map pick (seq 0 (th * tw * c))))
  else Raise (Cv2Error "resize: empty image or size").

Definition qsum (l : list Q) : Q := foldr Qplus 0%Q l.

(** The square root of a rational: exact when numerator and denominator are
    squares, truncated to twelve decimals otherwise. *)
Definition qsqrt (q : Q) : Q :=
  let r := Qred q in
  let n := Qnum r in
  let d := Z.pos (Qden r) in
  if (Z.sqrt n * Z.sqrt n =? n) && (Z.sqrt d * Z.sqrt d =? d)
  then Qred (inject_Z (Z.sqrt n) / inject_Z (Z.sqrt d))
  else Qred (inject_Z (Z.sqrt (n * 10 ^ 24 / d)) / inject_Z (10 ^ 12)).

(** The population standard deviation, [nan] on an empty array. *)
Definition std (a : Np.ndarray Q) : float :=
  match Np.data a with
  | [] => NaN
  | l =>
      let n := inject_Z (Z.of_nat (length l)) in
      let m := (qsum l / n)%Q in
      Fin (qsqrt (qsum (List.map (fun x => (x - m) * (x - m))%Q l) / n))
  end.

(** One blue-green-red pixel. *)
Definition pixel (b g r : Z) : Np.ndarray Z := Np.mk [1; 1; 3]%nat [b; g; r].

Definition imread (path : string) : option (Np.ndarray Z) :=
  if endswith path "forest.jpg" then Some (pixel 50 180 50)
  else if endswith path "CLEARED.PNG" then Some (pixel 60 60 200)
  else None.

Definition listdir (path : string) : result (list string) :=
  if String.eqb path "tiles"
  then Ok ["forest.jpg"; "notes.txt"; "CLEARED.PNG"; "broken.bmp"]%string
  else Raise (OSError "No such file or directory").

(** A statistics file that does not exist yet, on a writable disk. *)
Definition blank_disk : App.disk :=
  {| App.content := App.Missing; App.writable := true |}.

(** A [record()] call for a result with the given percentage and
    confidence. *)
Definition reading (name : string) (pct conf : Q) (now : string) : App.call :=
  (name,
   <["confidence" := VFloat (Fin conf)]>
     (<["deforestation_percentage" := VFloat (Fin pct)]> ∅),
   now).

(** One image with 0.04 % deforestation followed by eight with none. *)
Definition drifting_calls : list App.call :=
  reading "a.png" 0.04 0.9 "t0"
  :: List.map (fun i => reading "b.png" 0 0.9 "t") (seq 1 8).

(** 105 calls, the i-th reporting i %. *)
Definition calls105 : list App.call :=
  List.map (fun i => reading "tile.png" (inject_Z (Z.of_nat i)) 0.9 "t")
           (seq 0 105).

#[export] Instance env : Env :=
  {| cv2_imread := imread;
     cv2_resize := resize_nearest;
     np_std := std;
     os_listdir := listdir |}.

End Demo.


(** ** app.py: upload validation *)

Module Uploads.

Import Py.

(** [app.config['ALLOWED_EXTENSIONS']]. *)
Definition ALLOWED_EXTENSIONS : list string :=
  ["png"; "jpg"; "jpeg"; "tif"; "tiff"; "bmp"]%string.

(** ['.' in s]. *)
Fixpoint has_dot (s : string) : bool :=
  match s with
  | EmptyString => false
  | String c r => Ascii.eqb c "." || has_dot r
  end.

(** The two sides of the last dot of [s], when it has one. *)
Fixpoint split_last_dot (s : string) : option (string * string) :=
  match s with
  | EmptyString => None
  | String c r =>
      match split_last_dot r with
      | Some (a, b) => Some (String c a, b)
      | None => if Ascii.eqb c "." then Some (EmptyString, r) else None
      end
  end.

(** [s.rsplit('.', 1)]. *)
Definition rsplit_dot (s : string) : list string :=
  match split_last_dot s with
  | Some (a, b) => [a; b]
  | None => [s]
  end.

(** [allowed_file]: the index [1] is only read when there is a dot. *)
Definition allowed_file (filename : string) : bool :=
  has_dot filename &&
  match rsplit_dot filename !! 1%nat with
  | Some ext => existsb (String.eqb (lower ext)) ALLOWED_EXTENSIONS
  | None => false
  end.

End Uploads.

(** ** app.py: the simulated real-time feed *)

Module Realtime.

Import Py.

Record coordinate := {
  lat : Q;
  lng : Q;
  severity : string;
  confidence : Q;
  timestamp : string;
}.

(** [deforestation_data["coordinates"]] at start-up. *)
Definition initial_coordinates : list coordinate :=
  [ {| lat := -23.5505; lng := -46.6333; severity := "high";
       confidence := 0.95; timestamp := "2024-01-15T10:30:00Z" |};
    {| lat := -23.5600; lng := -46.6400; severity := "medium";
       confidence := 0.87; timestamp := "2024-01-15T10:35:00Z" |};
    {| lat := -23.5450; lng := -46.6250; severity := "low";
       confidence := 0.72; timestamp := "2024-01-15T10:40:00Z" |};
    {| lat := -23.5700; lng := -46.6500; severity := "high";
       confidence := 0.91; timestamp := "2024-01-15T10:45:00Z" |};
    {| lat := -23.5350; lng := -46.6200; severity := "medium";
       confidence := 0.83; timestamp := "2024-01-15T10:50:00Z" |} ].

(** What the [random] module returns during one request:
    [uniform(-0.1, 0.1)] twice, [choice(["high", "medium", "low"])] and
    [uniform(0.6, 0.98)]. *)
Record draws := {
  u_lat : Q;
  u_lng : Q;
  picked : string;
  u_conf : Q;
}.

Definition in_range (r : draws) : Prop :=
  (-0.1 <= u_lat r)%Q /\ (u_lat r <= 0.1)%Q /\
  (-0.1 <= u_lng r)%Q /\ (u_lng r <= 0.1)%Q /\
  In (picked r) ["high"; "medium"; "low"]%string /\
  (0.6 <= u_conf r)%Q /\ (u_conf r <= 0.98)%Q.

(** The shared coordinate list goes in and comes out; the response holds
    the new coordinate and [total_coordinates]. *)
Definition real_time_update (r : draws) (now : string)
    (coordinates : list coordinate) : list coordinate * (coordinate * nat) :=
  let new_coord :=
    {| lat := -23.5 + u_lat r;
       lng := -46.6 + u_lng r;
       severity := picked r;
       confidence := round_q (u_conf r) 2;
       timestamp := now |} in
  let coordinates := coordinates ++ [new_coord] in
  let coordinates :=
    if (50 <? length coordinates)%nat
    then drop (length coordinates - 50) coordinates
    else coordinates in
  (coordinates, (new_coord, length coordinates)).

(** [l[-50:]]. *)
Definition last50 {A} (l : list A) : list A := drop (length l - 50) l.

(** Requests served one after the other on the shared list. *)
Definition serve (requests : list (draws * string))
    (coordinates : list coordinate) : list coordinate :=
  foldl (fun cs q => (real_time_update q.1 q.2 cs).1) coordinates requests.

(** The coordinate a request creates. *)
Definition created (q : draws * string) : coordinate :=
  (real_time_update q.1 q.2 []).2.1.

End Realtime.

(** ** app.py: the satellite endpoints *)

Module Routes.

Import Py.

(** The [results] field of the upload response: the classification, or
    [{'error': str(e)}]. *)
Inductive results_field :=
  | ResultDict (r : gmap string value)
  | ErrorDict (error : string).

(** The dict handed to [jsonify]. *)
Inductive payload :=
  | ErrorPayload (error : string)
  | UploadPayload (message filename filepath : string)
      (results : results_field) (stats : App.stats) (timestamp : string)
  | ProcessPayload (message : string) (results : gmap string value)
      (stats : App.stats) (output_directory : string) (timestamp : string)
  | BatchPayload (message : string) (results : SatelliteProcessor.batch_report)
      (stats : App.stats) (timestamp : string).

Record response := {
  body : payload;
  status_code : nat;
}.

(** What the endpoints take from Flask, werkzeug, [uuid], [os] and the
    clock.  [now k] is the [k]-th reading of [datetime.now().isoformat()]
    during a request (a call that raises has not read the clock yet);
    [jsonify_raises] is the exception [jsonify] raises on a payload, if
    any. *)
Class Web := {
  os_path_exists : string -> bool;
  secure_filename : string -> string;
  uuid4_hex : string;
  file_save : string -> result unit;
  jsonify_raises : payload -> option exn;
  now : nat -> string;
}.

Definition UPLOAD_FOLDER : string := "uploads".

(** [satellite_processor.output_dir]. *)
Definition output_dir : string := "processed_images".

(** [os.path.join(app.config['UPLOAD_FOLDER'], 'satellite_images', name)]. *)
Definition satellite_path (name : string) : string :=
  path_join (path_join UPLOAD_FOLDER "satellite_images") name.

(** Truth value of [entry.get('result')]: a non-empty dict. *)
Definition truthy (r : option (gmap string value)) : bool :=
  match r with
  | Some m => negb (size m =? 0)%nat
  | None => false
  end.

Section WithEnv.
Context `{Env} `{Web}.

(** [return jsonify(payload)] inside a [try] whose handler answers 500
    with [prefix] and the error text. *)
Definition respond (prefix : string) (p : payload) : response :=
  match jsonify_raises p with
  | Some e => {| body := ErrorPayload (prefix ++ str e); status_code := 500 |}
  | None => {| body := p; status_code := 200 |}
  end.

Definition fail (code : nat) (error : string) : response :=
  {| body := ErrorPayload error; status_code := code |}.

(** [image] is the file name of [request.files['image']], [None] when the
    part is missing. *)
Definition upload_satellite_image (image : option string) (d : App.disk)
  : App.disk * response :=
  match image with
  | None => (d, fail 400 "No image file provided")
  | Some file_filename =>
      if String.eqb file_filename EmptyString
      then (d, fail 400 "No file selected")
      else if Uploads.allowed_file file_filename then
        let filename := secure_filename file_filename in
        let unique_filename := (uuid4_hex ++ "_" ++ filename)%string in
        let filepath := satellite_path unique_filename in
        match file_save filepath with
        | Raise e => (d, fail 500 ("Upload failed: " ++ str e))
        | Ok _ =>
            let '(d, results, stats, ticks) :=
              match SatelliteProcessor.process_satellite_image filepath with
              | Ok (results, _, _) =>
                  match App._update_processing_stats unique_filename results
                          (now 0) d with
                  | (d, Ok stats) => (d, ResultDict results, stats, 1%nat)
                  | (d, Raise e) =>
                      (d, ErrorDict (str e), App._read_processing_stats d, 0%nat)
                  end
              | Raise e =>
                  (d, ErrorDict (str e), App._read_processing_stats d, 0%nat)
              end in
            (d, respond "Upload failed: "
                  (UploadPayload "Image uploaded and processed successfully"
                     unique_filename filepath results stats (now ticks)))
        end
      else (d, fail 400 "Invalid file type")
  end.

(** [filename] is [data.get('filename')]. *)
Definition process_satellite_image (filename : option string) (d : App.disk)
  : App.disk * response :=
  match filename with
  | None => (d, fail 400 "Filename not provided")
  | Some filename =>
      if String.eqb filename EmptyString
      then (d, fail 400 "Filename not provided")
      else
        let filepath := satellite_path filename in
        if negb (os_path_exists filepath) then (d, fail 404 "File not found")
        else
          match SatelliteProcessor.process_satellite_image filepath with
          | Raise e => (d, fail 500 ("Processing failed: " ++ str e))
          | Ok (results, mask, indices) =>
              match App._update_processing_stats filename results (now 0) d with
              | (d, Raise e) => (d, fail 500 ("Processing failed: " ++ str e))
              | (d, Ok stats) =>
                  (d, respond "Processing failed: "
                        (ProcessPayload "Image processed successfully" results
                           stats output_dir (now 1)))
              end
          end
  end.

(** The loop over [batch_results.get('results', [])]: an entry is recorded
    when its status is [success] and its result is truthy; an exception
    ends the loop.  [tick] counts the clock readings so far. *)
Fixpoint record_entries (entries : list SatelliteProcessor.batch_entry)
    (tick : nat) (d : App.disk) : App.disk * nat * result unit :=
  match entries with
  | [] => (d, tick, Ok tt)
  | entry :: rest =>
      if String.eqb (SatelliteProcessor.status entry) "success"
         && truthy (SatelliteProcessor.result entry)
      then
        match App._update_processing_stats (SatelliteProcessor.file entry)
                (default ∅ (SatelliteProcessor.result entry)) (now tick) d with
        | (d, Ok _) => record_entries rest (S tick) d
        | (d, Raise e) => (d, tick, Raise e)
        end
      else record_entries rest tick d
  end.

(** [image_directory] is [data.get('image_directory')]. *)
Definition batch_process_images (image_directory : option string)
    (d : App.disk) : App.disk * response :=
  match image_directory with
  | None => (d, fail 400 "Image directory not provided")
  | Some image_directory =>
      if String.eqb image_directory EmptyString
      then (d, fail 400 "Image directory not provided")
      else if negb (os_path_exists image_directory)
      then (d, fail 404 "Directory not found")
      else
        match SatelliteProcessor.batch_process image_directory with
        | Raise e => (d, fail 500 ("Batch processing failed: " ++ str e))
        | Ok batch_results =>
            match record_entries (SatelliteProcessor.results batch_results) 0 d with
            | (d, _, Raise e) =>
                (d, fail 500 ("Batch processing failed: " ++ str e))
            | (d, tick, Ok _) =>
                (d, respond "Batch processing failed: "
                      (BatchPayload "Batch processing completed" batch_results
                         (App._read_processing_stats d) (now tick)))
            end
        end
  end.

End WithEnv.

(** The [record()] call made for a recorded entry at clock reading [k]. *)
Definition call_of `{Web} (entry : SatelliteProcessor.batch_entry) (k : nat)
  : App.call :=
  (SatelliteProcessor.file entry,
   default ∅ (SatelliteProcessor.result entry), now k).

(** A record that the next call can update and save. *)
Definition healthy (d : App.disk) : Prop :=
  App.writable d = true /\
  exists h n, App.history (App._read_processing_stats d) = Some h /\
              App.total_processed (App._read_processing_stats d) = Some n /\
              0 <= n.

(** The entries the loop records. *)
Definition recorded (entries : list SatelliteProcessor.batch_entry)
  : list SatelliteProcessor.batch_entry :=
  List.filter
    (fun entry => String.eqb (SatelliteProcessor.status entry) "success"
                  && truthy (SatelliteProcessor.result entry)) entries.

End Routes.

(** ** A concrete web environment, for running the endpoints on examples *)

Module DemoWeb.

Import Py.

(** A classified result holds its two counts as numpy integers
    ([np.sum] returns [numpy.int64]); the degenerate result holds Python
    numbers only. *)
Definition numpy_counts (r : gmap string value) : bool :=
  match r !! "forest_pixels" with
  | Some _ => true
  | None => false
  end.

Definition not_serializable : exn :=
  TypeError "Object of type int64 is not JSON serializable".

(** Flask's [jsonify] raises [TypeError] on a numpy integer anywhere in
    the payload. *)
Definition jsonify (p : Routes.payload) : option exn :=
  match p with
  | Routes.ErrorPayload _ => None
  | Routes.UploadPayload _ _ _ (Routes.ResultDict r) _ _ =>
      if numpy_counts r then Some not_serializable else None
  | Routes.UploadPayload _ _ _ (Routes.ErrorDict _) _ _ => None
  | Routes.ProcessPayload _ r _ _ _ =>
      if numpy_counts r then Some not_serializable else None
  | Routes.BatchPayload _ report _ _ =>
      if existsb (fun entry =>
                    numpy_counts (default ∅ (SatelliteProcessor.result entry)))
                 (SatelliteProcessor.results report)
      then Some not_serializable else None
  end.

#[export] Instance web : Routes.Web :=
  {| Routes.os_path_exists :=
       fun p => String.eqb p "tiles"
                || String.eqb p "uploads/satellite_images/broken.bmp"
                || String.eqb p "uploads/satellite_images/forest.jpg";
     Routes.secure_filename := fun name => name;
     Routes.uuid4_hex := "0f3a";
     Routes.file_save := fun _ => Ok tt;
     Routes.jsonify_raises := jsonify;
     Routes.now := fun k => nth k ["t0"; "t1"; "t2"; "t3"]%string "t"%string |}.

End DemoWeb.

(** * Properties *)

(** ** Rounding *)

Section Rounding.
Import Py.

Example round_ties_to_even :
  round_q (5 # 2) 0 = 2%Q /\ round_q (7 # 2) 0 = 4%Q /\
  round_q (-1 # 2) 0 = 0%Q /\ round_q 0.125 2 = Qred 0.12 /\
  round_q 0.0075 2 = 0.01%Q /\ round_q 33.3333 2 = 33.33%Q.
Proof. repeat split; reflexivity. Qed.

Lemma round_half_even_comp (x y : Q) :
  (x == y)%Q -> round_half_even x = round_half_even y.
Proof.
  intros E. unfold round_half_even.
  rewrite (Qfloor_comp _ _ E).
  assert (Hc : (x - inject_Z (Qfloor y) ?= 1 # 2)%Q
               = (y - inject_Z (Qfloor y) ?= 1 # 2)%Q).
  { apply Qcompare_comp; [rewrite E|]; reflexivity. }
  rewrite Hc. reflexivity.
Qed.

Lemma round_half_even_floor (x : Q) :
  Qfloor x <= round_half_even x <= Qfloor x + 1.
Proof.
  unfold round_half_even.
  destruct (Qcompare _ _); [destruct (Z.even _)| |]; lia.
Qed.

Lemma round_half_even_inject (z : Z) : round_half_even (inject_Z z) = z.
Proof.
  unfold round_half_even. rewrite Qfloor_Z.
  assert (Hc : (inject_Z z - inject_Z z ?= 1 # 2)%Q = Lt).
  { rewrite <- Qlt_alt. lra. }
  rewrite Hc. reflexivity.
Qed.

Lemma round_half_even_mono (x y : Q) :
  (x <= y)%Q -> round_half_even x <= round_half_even y.
Proof.
  intros L.
  pose proof (Qfloor_resp_le _ _ L) as Lf.
  destruct (Z.eq_dec (Qfloor x) (Qfloor y)) as [E|N].
  - unfold round_half_even. rewrite E.
    destruct (Qcompare (x - inject_Z (Qfloor y)) (1 # 2)) eqn:Cx;
      destruct (Qcompare (y - inject_Z (Qfloor y)) (1 # 2)) eqn:Cy;
      try (destruct (Z.even (Qfloor y))); try lia; exfalso;
      try rewrite <- Qeq_alt in Cx; try rewrite <- Qlt_alt in Cx;
      try rewrite <- Qgt_alt in Cx; try rewrite <- Qeq_alt in Cy;
      try rewrite <- Qlt_alt in Cy; try rewrite <- Qgt_alt in Cy; lra.
  - pose proof (round_half_even_floor x). pose proof (round_half_even_floor y).
    lia.
Qed.

Lemma pow10_pos (n : nat) : 0 < pow10 n.
Proof. unfold pow10. apply Z.pow_pos_nonneg; lia. Qed.

Lemma inject_pow10_pos (n : nat) : (0 < inject_Z (pow10 n))%Q.
Proof.
  pose proof (pow10_pos n). unfold Qlt. simpl. lia.
Qed.

Lemma round_q_spec (x : Q) (n : nat) :
  (round_q x n ==
   inject_Z (round_half_even (x * inject_Z (pow10 n))) / inject_Z (pow10 n))%Q.
Proof. unfold round_q. apply Qred_correct. Qed.

Lemma round_q_comp (x y : Q) (n : nat) : (x == y)%Q -> round_q x n = round_q y n.
Proof.
  intros E. unfold round_q.
  rewrite (round_half_even_comp (x * inject_Z (pow10 n)) (y * inject_Z (pow10 n)));
    [reflexivity | rewrite E; reflexivity].
Qed.

(** A value with at most [n] decimals is left as it is. *)
Lemma round_q_exact (x : Q) (n : nat) :
  App.exact_at n x -> (round_q x n == x)%Q.
Proof.
  intros [z Hz]. rewrite round_q_spec.
  pose proof (inject_pow10_pos n) as P.
  rewrite (round_half_even_comp _ (inject_Z z)).
  - rewrite round_half_even_inject. rewrite Hz. reflexivity.
  - rewrite Hz. field. lra.
Qed.

(** Rounding keeps a value between two bounds that have [n] decimals. *)
Lemma round_q_between (x : Q) (n : nat) (a b : Z) :
  (inject_Z a / inject_Z (pow10 n) <= x)%Q ->
  (x <= inject_Z b / inject_Z (pow10 n))%Q ->
  (inject_Z a / inject_Z (pow10 n) <= round_q x n)%Q /\
  (round_q x n <= inject_Z b / inject_Z (pow10 n))%Q.
Proof.
  intros La Lb. pose proof (inject_pow10_pos n) as P.
  rewrite round_q_spec.
  assert (Ha : a <= round_half_even (x * inject_Z (pow10 n))).
  { apply Z.le_trans with (round_half_even (inject_Z a));
      [rewrite round_half_even_inject; lia|].
    apply round_half_even_mono.
    apply Qle_trans
      with (inject_Z a / inject_Z (pow10 n) * inject_Z (pow10 n))%Q.
    - apply Qle_lteq. right. field. lra.
    - apply Qmult_le_compat_r; lra. }
  assert (Hb : round_half_even (x * inject_Z (pow10 n)) <= b).
  { apply Z.le_trans with (round_half_even (inject_Z b));
      [|rewrite round_half_even_inject; lia].
    apply round_half_even_mono.
    apply Qle_trans
      with (inject_Z b / inject_Z (pow10 n) * inject_Z (pow10 n))%Q.
    - apply Qmult_le_compat_r; lra.
    - apply Qle_lteq. right. field. lra. }
  split; apply Qmult_le_r with (z := inject_Z (pow10 n)); try exact P;
    field_simplify; try lra; rewrite <- Zle_Qle; lia.
Qed.

End Rounding.

(** ** The statistics aggregator *)

Section Aggregator.
Import Py App Demo.

(** What a call returns and stores when the record has its [history] and
    the new total is not zero. *)
Lemma update_success filename results now d h :
  history (_read_processing_stats d) = Some h ->
  default 0 (total_processed (_read_processing_stats d)) + 1 <> 0 ->
  let s := _read_processing_stats d in
  let c : call := (filename, results, now) in
  let p := default 0 (total_processed s) in
  let s' :=
    {| total_processed := Some (p + 1);
       total_deforested_images :=
         if fge (def_pct_of c) (Fin 20)
         then Some (default 0 (total_deforested_images s) + 1)
         else total_deforested_images s;
       average_deforestation_percentage :=
         Some (round (lift2 Qdiv
                 (fadd (fmul (default (Fin 0) (average_deforestation_percentage s))
                             (of_int p)) (def_pct_of c))
                 (of_int (p + 1))) 2);
       average_confidence :=
         Some (round (lift2 Qdiv
                 (fadd (fmul (default (Fin 0) (average_confidence s))
                             (of_int p)) (conf_of c))
                 (of_int (p + 1))) 3);
       history := Some (last100 (h ++ [entry_of c])) |} in
  _update_processing_stats filename results now d
  = (_write_processing_stats s' d, Ok s').
Proof.
  intros Hh Hz. cbv zeta.
  unfold _update_processing_stats, fdiv.
  apply Z.eqb_neq in Hz. rewrite Hz. cbn [mbind result_bind bind].
  rewrite Hh. reflexivity.
Qed.

(** A call that returns went through the successful path. *)
Lemma update_returns filename results now d d' s' :
  _update_processing_stats filename results now d = (d', Ok s') ->
  exists h,
    history (_read_processing_stats d) = Some h /\
    default 0 (total_processed (_read_processing_stats d)) + 1 <> 0.
Proof.
  unfold _update_processing_stats, fdiv.
  destruct (default 0 (total_processed (_read_processing_stats d)) + 1 =? 0) eqn:Ez.
  - cbn. discriminate.
  - cbn [mbind result_bind bind].
    destruct (history (_read_processing_stats d)) as [h|]; [|discriminate].
    intros _. exists h. split; [reflexivity|]. apply Z.eqb_neq. exact Ez.
Qed.

Lemma length_last100 {A} (l : list A) : (length (last100 l) <= 100)%nat.
Proof. unfold last100. rewrite length_drop. lia. Qed.

(** Capping after every append is capping once at the end. *)
Lemma last100_snoc {A} (l : list A) (x : A) :
  last100 (last100 l ++ [x]) = last100 (l ++ [x]).
Proof.
  unfold last100.
  assert (E : drop (length l - 100) l ++ [x] = drop (length l - 100) (l ++ [x])).
  { rewrite drop_app_le by lia. reflexivity. }
  rewrite E, drop_drop. f_equal.
  rewrite length_drop, !length_app. simpl. lia.
Qed.

Lemma record_all_snoc (calls : list call) (c : call) (d : disk) :
  record_all (calls ++ [c]) d
  = (_update_processing_stats c.1.1 c.1.2 c.2 (record_all calls d)).1.
Proof. unfold record_all. rewrite foldl_app. reflexivity. Qed.

Lemma running_count (ndigits : nat) (l : list Q) :
  (foldl (fun st v => (step_average ndigits st.1 st.2 v, st.2 + 1)) (0%Q, 0) l).2
  = Z.of_nat (length l).
Proof.
  induction l as [|v l IH] using rev_ind; [reflexivity|].
  rewrite foldl_app, length_app. cbn [foldl snd length]. rewrite IH. lia.
Qed.

Lemma running_average_snoc (ndigits : nat) (l : list Q) (v : Q) :
  running_average ndigits (l ++ [v])
  = step_average ndigits (running_average ndigits l) (Z.of_nat (length l)) v.
Proof.
  unfold running_average. rewrite foldl_app. cbn [foldl fst].
  rewrite running_count. reflexivity.
Qed.

(** The state of the disk after any sequence of calls on a fresh disk. *)
Lemma record_all_fresh (calls : list call) (d : disk) :
  fresh d ->
  let s := _read_processing_stats (record_all calls d) in
  writable (record_all calls d) = true /\
  total_processed s = Some (Z.of_nat (length calls)) /\
  history s = Some (last100 (List.map entry_of calls)) /\
  (forall vs, Forall2 (fun c v => def_pct_of c = Fin v) calls vs ->
     average_deforestation_percentage s = Some (Fin (running_average 2 vs))) /\
  (forall cs, Forall2 (fun c v => conf_of c = Fin v) calls cs ->
     average_confidence s = Some (Fin (running_average 3 cs))).
Proof.
  intros [Hz Hw]. cbv zeta.
  induction calls as [|c calls IH] using rev_ind.
  - cbn. rewrite Hz. repeat split; try assumption;
      intros l Hl; inversion Hl; reflexivity.
  - destruct IH as (IHw & IHt & IHh & IHd & IHc).
    rewrite record_all_snoc.
    rewrite (update_success _ _ _ _ _ IHh) by (rewrite IHt; cbn; lia).
    cbn [fst]. unfold _write_processing_stats. rewrite IHw.
    cbn [_read_processing_stats content writable
         total_processed history average_deforestation_percentage
         average_confidence].
    rewrite IHt. cbn [default from_option id].
    split; [reflexivity|].
    split; [rewrite length_app; cbn; f_equal; lia|].
    split.
    { rewrite map_app. cbn [List.map]. rewrite last100_snoc.
      destruct c as [[f r] n]. reflexivity. }
    split.
    + intros vs Hvs. apply Forall2_app_inv_l in Hvs.
      destruct Hvs as (vs' & l & Hvs' & Hl & ->).
      inversion Hl as [|? v ? l' Hv Hnil]; subst. inversion Hnil; subst.
      rewrite (IHd _ Hvs'). cbn [default from_option id].
      rewrite running_average_snoc.
      rewrite <- (Forall2_length _ _ _ Hvs').
      destruct c as [[f r] n]. unfold def_pct_of in Hv |- *. cbn [fst snd] in *.
      rewrite Hv. reflexivity.
    + intros cs Hcs. apply Forall2_app_inv_l in Hcs.
      destruct Hcs as (cs' & l & Hcs' & Hl & ->).
      inversion Hl as [|? v ? l' Hv Hnil]; subst. inversion Hnil; subst.
      rewrite (IHc _ Hcs'). cbn [default from_option id].
      rewrite running_average_snoc.
      rewrite <- (Forall2_length _ _ _ Hcs').
      destruct c as [[f r] n]. unfold conf_of in Hv |- *. cbn [fst snd] in *.
      rewrite Hv. reflexivity.
Qed.

Lemma qsum_snoc (l : list Q) (v : Q) :
  (foldr Qplus 0 (l ++ [v]) == foldr Qplus 0 l + v)%Q.
Proof.
  induction l as [|x l IH]; cbn [foldr app].
  - ring.
  - rewrite IH. ring.
Qed.

(** Folding one more value into an exact mean gives the mean of all. *)
Lemma mean_snoc (l : list Q) (v : Q) :
  ((mean l * inject_Z (Z.of_nat (length l)) + v)
     / inject_Z (Z.of_nat (length l) + 1)
   == mean (l ++ [v]))%Q.
Proof.
  unfold mean. rewrite qsum_snoc, length_app. cbn [length].
  replace (Z.of_nat (length l + 1)) with (Z.of_nat (length l) + 1) by lia.
  rewrite inject_Z_plus.
  destruct l as [|x l].
  - cbn [foldr length Z.of_nat]. change (inject_Z 0) with 0%Q.
    setoid_replace (0 / 0)%Q with 0%Q using relation Qeq by reflexivity.
    field.
  - assert (P : (0 < inject_Z (Z.of_nat (length (x :: l))))%Q).
    { rewrite <- (Zlt_Qlt 0). cbn [length]. lia. }
    field. split; lra.
Qed.

Lemma prefix_exact_init (ndigits : nat) (l : list Q) (v : Q) :
  prefix_exact ndigits (l ++ [v]) ->
  prefix_exact ndigits l /\ (l <> [] -> exact_at ndigits (mean l)).
Proof.
  intros Hp. split.
  - intros k Hk. specialize (Hp k). rewrite length_app in Hp. cbn in Hp.
    rewrite take_app_le in Hp by lia. apply Hp. lia.
  - intros Hne. specialize (Hp (length l)). rewrite length_app in Hp.
    rewrite take_app_length in Hp. apply Hp.
    destruct l; [congruence|]. cbn. lia.
Qed.

(** When no stored average lost anything to rounding, the running average
    is the rounded mean. *)
Lemma running_average_exact (ndigits : nat) (l : list Q) :
  l <> [] -> prefix_exact ndigits l ->
  running_average ndigits l = round_q (mean l) ndigits.
Proof.
  induction l as [|v l IH] using rev_ind; [congruence|].
  intros _ Hp. rewrite running_average_snoc. unfold step_average.
  apply round_q_comp.
  destruct (prefix_exact_init _ _ _ Hp) as [Hl He].
  destruct l as [|x l].
  - rewrite <- mean_snoc. change (running_average ndigits []) with 0%Q.
    unfold mean. cbn [foldr length Z.of_nat]. change (inject_Z 0) with 0%Q.
    setoid_replace (0 / 0)%Q with 0%Q using relation Qeq by reflexivity.
    reflexivity.
  - rewrite <- mean_snoc.
    rewrite IH by (congruence || assumption).
    rewrite round_q_exact by (apply He; congruence).
    reflexivity.
Qed.

(** C1 as stated fails: after one image at 0.04 % and eight at 0 % the
    stored average is 0.01, while the mean 0.04 / 9 rounds to 0. *)
Lemma running_average_is_not_the_rounded_mean :
  let s := _read_processing_stats (record_all drifting_calls blank_disk) in
  let vs := [0.04; 0; 0; 0; 0; 0; 0; 0; 0]%Q in
  List.map def_pct_of drifting_calls = List.map Fin vs /\
  average_deforestation_percentage s = Some (Fin 0.01) /\
  round_q (mean vs) 2 = 0%Q /\
  average_deforestation_percentage s <> Some (Fin (round_q (mean vs) 2)).
Proof.
  cbv zeta. split; [reflexivity|]. split; [vm_compute; reflexivity|].
  split; [vm_compute; reflexivity|].
  intros E. vm_compute in E. discriminate E.
Qed.

(** The gap grows with the number of calls: one image at 100 % followed by
    999 at 0 % leaves 0.68 stored, against a mean of 0.1. *)
Example running_average_drift_grows :
  let calls := reading "a.png" 100 0.9 "t0"
               :: List.map (fun i => reading "b.png" 0 0.9 "t") (seq 1 999) in
  let s := _read_processing_stats (record_all calls blank_disk) in
  average_deforestation_percentage s = Some (Fin (Qred 0.68)) /\
  total_processed s = Some 1000 /\
  round_q (100 / 1000) 2 = 0.1%Q.
Proof. vm_compute. repeat split; reflexivity. Qed.

(** After any call that returns, whatever the file held, the history is the
    previous one with the new entry at the end, cut to its last 100. *)
Lemma update_history filename results now d d' s' :
  _update_processing_stats filename results now d = (d', Ok s') ->
  exists h,
    history (_read_processing_stats d) = Some h /\
    history s' = Some (last100 (h ++ [entry_of (filename, results, now)])) /\
    (length (last100 (h ++ [entry_of (filename, results, now)])) <= 100)%nat.
Proof.
  intros E. destruct (update_returns _ _ _ _ _ _ E) as (h & Hh & Hz).
  rewrite (update_success _ _ _ _ _ Hh Hz) in E.
  injection E as _ <-. exists h. cbn [history].
  split; [assumption|]. split; [reflexivity|]. apply length_last100.
Qed.

(** C2.  On a fresh disk, after any sequence of calls the history holds at
    most 100 entries: the last 100 appended ones in the order of the calls.
    A further call appends its entry at the end and cuts from the front;
    after 105 calls the first 5 entries are gone. *)
Theorem history_capped (calls : list call) (d : disk) :
  fresh d ->
  let entries := List.map entry_of calls in
  let s := _read_processing_stats (record_all calls d) in
  exists h,
    history s = Some h /\
    (length h <= 100)%nat /\
    h = last100 entries /\
    (forall c,
       history (_read_processing_stats (record_all (calls ++ [c]) d))
       = Some (last100 (h ++ [entry_of c]))) /\
    (length calls = 105%nat -> h = drop 5 entries).
Proof.
  intros Hf. cbv zeta.
  destruct (record_all_fresh calls d Hf) as (_ & _ & Hh & _).
  exists (last100 (List.map entry_of calls)).
  split; [assumption|]. split; [apply length_last100|]. split; [reflexivity|].
  split.
  - intros c.
    destruct (record_all_fresh (calls ++ [c]) d Hf) as (_ & _ & Hh' & _).
    rewrite Hh', map_app. cbn [List.map]. rewrite last100_snoc. reflexivity.
  - intros L. unfold last100. rewrite length_map, L. reflexivity.
Qed.

Lemma history_capped_witness :
  history (_read_processing_stats (record_all calls105 blank_disk))
  = Some (drop 5 (List.map entry_of calls105)) /\
  length (drop 5 (List.map entry_of calls105)) = 100%nat.
Proof.
  destruct (history_capped calls105 blank_disk) as (h & Hh & _ & _ & _ & H5).
  - split; reflexivity.
  - cbv zeta in Hh. rewrite Hh, H5 by reflexivity. split; reflexivity.
Defined.

(** C3.  A call that returns adds one to [total_processed], and adds one
    to [total_deforested_images] exactly when the recorded percentage is at
    least 20.0; below 20 (or not a number) the counter is left as it was. *)
Theorem deforested_counter filename results now d d' s' :
  _update_processing_stats filename results now d = (d', Ok s') ->
  let s := _read_processing_stats d in
  let def_pct := def_pct_of (filename, results, now) in
  total_processed s' = Some (default 0 (total_processed s) + 1) /\
  (forall v, def_pct = Fin v -> (20 <= v)%Q ->
     total_deforested_images s'
     = Some (default 0 (total_deforested_images s) + 1)) /\
  (forall v, def_pct = Fin v -> (v < 20)%Q ->
     total_deforested_images s' = total_deforested_images s) /\
  (def_pct = NaN -> total_deforested_images s' = total_deforested_images s) /\
  (default 0 (total_deforested_images s')
   = default 0 (total_deforested_images s) + 1
   <-> fge def_pct (Fin 20) = true).
Proof.
  intros E. destruct (update_returns _ _ _ _ _ _ E) as (h & Hh & Hz).
  rewrite (update_success _ _ _ _ _ Hh Hz) in E.
  injection E as _ <-. cbv zeta. cbn [total_processed total_deforested_images].
  split; [reflexivity|]. split; [|split; [|split]].
  - intros v -> Hv. cbn [fge]. apply Qle_bool_iff in Hv. rewrite Hv. reflexivity.
  - intros v -> Hv. cbn [fge].
    destruct (Qle_bool 20 v) eqn:B; [|reflexivity].
    apply Qle_bool_iff in B. lra.
  - intros ->. reflexivity.
  - destruct (fge _ _); cbn [default from_option id]; split;
      try reflexivity; try discriminate. lia.
Qed.

Lemma deforested_counter_witness :
  let r := _update_processing_stats "t.png" (reading "t.png" 20 0.9 "t").1.2
             "t" blank_disk in
  exists s', r.2 = Ok s' /\
    total_processed s' = Some 1 /\ total_deforested_images s' = Some 1.
Proof.
  cbv zeta.
  pose (s' := {| total_processed := Some 1;
                 total_deforested_images := Some 1;
                 average_deforestation_percentage := Some (Fin 20);
                 average_confidence := Some (Fin 0.9);
                 history := Some [entry_of (reading "t.png" 20 0.9 "t")] |}).
  pose (d' := {| content := Holds s'; writable := true |}).
  assert (E : _update_processing_stats "t.png" (reading "t.png" 20 0.9 "t").1.2
                "t" blank_disk = (d', Ok s')) by reflexivity.
  exists s'. split; [rewrite E; reflexivity|].
  destruct (deforested_counter _ _ _ _ _ _ E) as (Ht & Hge & _).
  split; [exact Ht|]. apply (Hge 20%Q); [reflexivity|]. unfold Qle. simpl. lia.
Defined.

(** The boundary of C3: exactly 20.0 counts, 19.99 does not. *)
Example deforested_counter_boundary :
  (total_deforested_images
     (_read_processing_stats
        (record_all [reading "a.png" 20.0 0.9 "t"] blank_disk)) = Some 1) /\
  (total_deforested_images
     (_read_processing_stats
        (record_all [reading "a.png" 19.99 0.9 "t"] blank_disk)) = Some 0).
Proof. split; reflexivity. Qed.

(** C10.  A statistics file that exists but cannot be opened or parsed is
    read as the zeroed record, like an absent file, and nothing is raised;
    the next call then starts again from zero and, when the file can be
    written, replaces what was there. *)
Theorem unreadable_stats_read_as_zero (w : bool) filename results now :
  let bad := {| content := Unreadable; writable := w |} in
  let absent := {| content := Missing; writable := w |} in
  let c : call := (filename, results, now) in
  _read_processing_stats bad = zero_stats /\
  _read_processing_stats bad = _read_processing_stats absent /\
  zero_stats = {| total_processed := Some 0;
                  total_deforested_images := Some 0;
                  average_deforestation_percentage := Some (Fin 0);
                  average_confidence := Some (Fin 0);
                  history := Some [] |} /\
  (_update_processing_stats filename results now bad).2
  = (_update_processing_stats filename results now absent).2 /\
  exists s',
    (_update_processing_stats filename results now bad).2 = Ok s' /\
    total_processed s' = Some 1 /\
    total_deforested_images s'
      = Some (if fge (def_pct_of c) (Fin 20) then 1 else 0) /\
    history s' = Some [entry_of c] /\
    (w = true ->
     content (_update_processing_stats filename results now bad).1 = Holds s').
Proof.
  cbv zeta. split; [reflexivity|]. split; [reflexivity|]. split; [reflexivity|].
  split; [reflexivity|].
  rewrite (update_success filename results now
             {| content := Unreadable; writable := w |} [])
    by (reflexivity || (cbn; lia)).
  eexists. split; [reflexivity|].
  cbn [total_processed total_deforested_images history snd fst
       _read_processing_stats content zero_stats default from_option id].
  split; [reflexivity|]. split; [destruct (fge _ _); reflexivity|].
  split; [reflexivity|].
  intros ->. reflexivity.
Qed.

End Aggregator.

(** ** Arrays *)

Section Arrays.

Lemma omap_all_some {A B} (f : A -> option B) (l : list A) :
  (forall x, x ∈ l -> is_Some (f x)) ->
  length (omap f l) = length l /\
  forall i, omap f l !! i = l !! i ≫= f.
Proof.
  induction l as [|x l IH]; intros Hs.
  - split; [reflexivity|]. intros i. reflexivity.
  - destruct (Hs x) as [y Hy]; [left|].
    destruct IH as [IHl IHi]; [intros z Hz; apply Hs; right; exact Hz|].
    cbn [omap]. unfold list_omap in *. rewrite Hy. cbn [length]. split.
    + f_equal. exact IHl.
    + intros [|i]; [cbn; symmetry; exact Hy|]. cbn. apply IHi.
Qed.

Lemma channel_index_in_range (c k n : nat) (i : nat) :
  (k < c)%nat -> (i < n / c)%nat -> (i * c + k < n)%nat.
Proof.
  intros Hk Hi.
  assert (c * (n / c) <= n)%nat by (apply Nat.Div0.mul_div_le).
  nia.
Qed.

Lemma take_channel_spec {A} (c k : nat) (d : list A) :
  (k < c)%nat ->
  length (Np.take_channel c k d) = (length d / c)%nat /\
  forall i, (i < length d / c)%nat ->
    Np.take_channel c k d !! i = d !! (i * c + k)%nat.
Proof.
  intros Hk. unfold Np.take_channel.
  destruct (omap_all_some (fun i => d !! (i * c + k)%nat)
              (seq 0 (length d / c))) as [Hl Hi].
  - intros i Hin. apply elem_of_seq in Hin.
    apply lookup_lt_is_Some. apply channel_index_in_range; lia.
  - split; [rewrite Hl, length_seq; reflexivity|].
    intros i Hlt. rewrite Hi, lookup_seq_lt by exact Hlt. reflexivity.
Qed.

(** A channel of a well-formed [h x w x c] image is a well-formed [h x w]
    array. *)
Lemma channel_shape {A} (k : nat) (image : Np.ndarray A) (h w c : nat) :
  Np.shape image = [h; w; c] -> Np.wf image -> (k < c)%nat ->
  Np.shape (Np.channel k image) = [h; w] /\
  length (Np.data (Np.channel k image)) = (h * w)%nat.
Proof.
  intros Hs Hwf Hk. unfold Np.channel. rewrite Hs. cbn [Np.shape Np.data].
  split; [reflexivity|].
  destruct (take_channel_spec c k (Np.data image) Hk) as [Hl _].
  rewrite Hl, Hwf. unfold Np.size. rewrite Hs. cbn [foldr].
  replace (h * (w * (c * 1)))%nat with (h * w * c)%nat by lia.
  apply Nat.div_mul. lia.
Qed.

Lemma zip_with_fuse {A B} (g k : A -> A -> B) (F : B -> B -> B) (m : B -> B)
    (a b : list A) :
  zip_with F (zip_with g a b) (List.map m (zip_with k a b))
  = zip_with (fun x y => F (g x y) (m (k x y))) a b.
Proof.
  revert b. induction a as [|x a IH]; intros [|y b]; cbn; try reflexivity.
  f_equal. apply IH.
Qed.

Lemma length_filter_le {A} (p : A -> bool) (l : list A) :
  (length (List.filter p l) <= length l)%nat.
Proof.
  induction l as [|x l IH]; cbn; [lia|]. destruct (p x); cbn; lia.
Qed.

Lemma filter_none {A} (p : A -> bool) (l : list A) :
  Forall (fun x => p x = false) l -> List.filter p l = [].
Proof.
  induction 1 as [|x l Hx _ IH]; cbn; [reflexivity|]. rewrite Hx. exact IH.
Qed.

(** Counting the true elements of [p(a)] is counting the elements of [a]
    that satisfy [p]. *)
Lemma sum_bool_map {A} (p : A -> bool) (a : Np.ndarray A) :
  Np.sum_bool (Np.map p a) = Z.of_nat (length (List.filter p (Np.data a))).
Proof.
  unfold Np.sum_bool, Np.map. cbn [Np.data]. f_equal.
  induction (Np.data a) as [|x l IH]; cbn; [reflexivity|].
  destruct (p x); cbn; rewrite IH; reflexivity.
Qed.

End Arrays.

(** ** Vegetation indices *)

Section Indices.
Import Py SatelliteProcessor.

Lemma length_zip_same {A B C} (f : A -> B -> C) (a : list A) (b : list B) n :
  length a = n -> length b = n -> length (zip_with f a b) = n.
Proof. intros Ha Hb. rewrite length_zip_with. lia. Qed.

(** The index set of a well-formed image with at least three channels. *)
Lemma vegetation_indices_ok (image : Np.ndarray Q) (h w c : nat) :
  Np.shape image = [h; w; c] -> (3 <= c)%nat -> Np.wf image ->
  let vi := calculate_vegetation_indices image in
  let r := Np.channel 0 image in
  let g := Np.channel 1 image in
  vi !! "NDVI"
  = Some (Np.mk [h; w]
            (zip_with (fun g r => (g - r) / (g + r + 1e-8))%Q
                      (Np.data g) (Np.data r))) /\
  vi !! "GNDVI" = vi !! "NDVI" /\
  (forall i, (i < h * w)%nat ->
     Np.data r !! i = Np.data image !! (i * c)%nat /\
     Np.data g !! i = Np.data image !! (i * c + 1)%nat) /\
  (forall name, is_Some (vi !! name) <->
     name ∈ ["NDVI"; "GNDVI"; "VARI"; "Greenness"]%string) /\
  (forall name a, vi !! name = Some a ->
     Np.shape a = [h; w] /\ Np.wf a /\ length (Np.data a) = (h * w)%nat).
Proof.
  intros Hs Hc Hwf. cbv zeta.
  destruct (channel_shape 0 image h w c Hs Hwf ltac:(lia)) as [Sr Lr].
  destruct (channel_shape 1 image h w c Hs Hwf ltac:(lia)) as [Sg Lg].
  destruct (channel_shape 2 image h w c Hs Hwf ltac:(lia)) as [Sb Lb].
  unfold calculate_vegetation_indices. rewrite Hs.
  assert (Hc' : (3 <=? c)%nat = true) by (apply Nat.leb_le; exact Hc).
  rewrite Hc'.
  unfold adiv, asub, aadd, aadd_s, Np.zip_with, Np.map. cbn [Np.shape Np.data].
  rewrite ?Sg, ?Sr.
  split; [|split; [|split; [|split]]].
  - rewrite !lookup_insert_ne by discriminate. rewrite lookup_insert_eq.
    rewrite zip_with_fuse. reflexivity.
  - rewrite !lookup_insert_ne by discriminate. rewrite !lookup_insert_eq.
    rewrite !lookup_insert_ne by discriminate. rewrite !lookup_insert_eq.
    reflexivity.
  - intros i Hi. unfold Np.channel. rewrite Hs. cbn [Np.data].
    assert (Hn : (length (Np.data image) / c = h * w)%nat).
    { rewrite Hwf. unfold Np.size. rewrite Hs. cbn [foldr].
      replace (h * (w * (c * 1)))%nat with (h * w * c)%nat by lia.
      apply Nat.div_mul. lia. }
    destruct (take_channel_spec c 0 (Np.data image) ltac:(lia)) as [_ H0].
    destruct (take_channel_spec c 1 (Np.data image) ltac:(lia)) as [_ H1].
    rewrite H0, H1 by lia. rewrite Nat.add_0_r. split; reflexivity.
  - intros name. rewrite !lookup_insert_is_Some, lookup_empty.
    rewrite !elem_of_cons, elem_of_nil.
    split.
    + intros [E|[_ [E|[_ [E|[_ [E|[_ E]]]]]]]]; subst; auto.
      destruct E as [? E]. discriminate E.
    + intros [E|[E|[E|[E|[]]]]]; subst; auto 10.
  - intros name a Ha.
    assert (Hwfa : forall d : list Q, length d = (h * w)%nat ->
              Np.wf (Np.mk [h; w] d)).
    { intros d Hd. unfold Np.wf, Np.size. cbn. lia. }
    repeat (apply lookup_insert_Some in Ha;
            destruct Ha as [[_ <-]|[_ Ha]];
            [cbn [Np.shape Np.data];
             split; [reflexivity|];
             assert (L : forall n, n = (h * w)%nat -> n = (h * w)%nat) by auto;
             match goal with
             | |- Np.wf (Np.mk _ ?d) /\ _ =>
                 assert (Hd : length d = (h * w)%nat);
                 [repeat first
                    [ apply length_zip_same | rewrite length_map
                    | exact Lr | exact Lg | exact Lb ]
                 | split; [apply Hwfa; exact Hd | exact Hd] ]
             end|]).
    rewrite lookup_empty in Ha. discriminate Ha.
Qed.

(** C6.  For a well-formed image with at least three channels the GNDVI
    array is the NDVI array, element [i] of both being
    [(G_i - R_i) / (G_i + R_i + 1e-8)] with R and G the first two
    channels; the set holds the four named indices, and each has the
    [h x w] shape of the image. *)
Theorem vegetation_indices_shape (image : Np.ndarray Q) (h w c : nat) :
  Np.shape image = [h; w; c] -> (3 <= c)%nat -> Np.wf image ->
  let vi := calculate_vegetation_indices image in
  let r := Np.channel 0 image in
  let g := Np.channel 1 image in
  vi !! "NDVI"
  = Some (Np.mk [h; w]
            (zip_with (fun g r => (g - r) / (g + r + 1e-8))%Q
                      (Np.data g) (Np.data r))) /\
  vi !! "GNDVI" = vi !! "NDVI" /\
  (forall i, (i < h * w)%nat ->
     Np.data r !! i = Np.data image !! (i * c)%nat /\
     Np.data g !! i = Np.data image !! (i * c + 1)%nat) /\
  (forall name, is_Some (vi !! name) <->
     name ∈ ["NDVI"; "GNDVI"; "VARI"; "Greenness"]%string) /\
  (forall name a, vi !! name = Some a ->
     Np.shape a = [h; w] /\ Np.wf a /\ length (Np.data a) = (h * w)%nat).
Proof. apply vegetation_indices_ok. Qed.

Lemma vegetation_indices_shape_witness :
  let image := Np.mk [1; 2; 3]%nat
                 [50 # 255; 180 # 255; 50 # 255; 200 # 255; 60 # 255; 60 # 255] in
  let vi := calculate_vegetation_indices image in
  vi !! "GNDVI" = vi !! "NDVI" /\
  (forall name a, vi !! name = Some a ->
     Np.shape a = [1; 2]%nat /\ Np.wf a /\ length (Np.data a) = 2%nat).
Proof.
  cbv zeta.
  destruct (vegetation_indices_shape
              (Np.mk [1; 2; 3]%nat
                 [50 # 255; 180 # 255; 50 # 255; 200 # 255; 60 # 255; 60 # 255])
              1 2 3) as (_ & HG & _ & _ & Hshape).
  - reflexivity.
  - lia.
  - reflexivity.
  - split; [exact HG | exact Hshape].
Defined.

End Indices.

(** ** The classifier *)

Section Classifier.
Import Py SatelliteProcessor.
Context `{Env}.

Lemma Qlt_bool_iff (x y : Q) : Qlt_bool x y = true <-> (x < y)%Q.
Proof.
  unfold Qlt_bool. rewrite negb_true_iff. split.
  - intros B. apply Qnot_le_lt. intros L. apply Qle_bool_iff in L. congruence.
  - intros L. destruct (Qle_bool y x) eqn:B; [|reflexivity].
    apply Qle_bool_iff in B. lra.
Qed.

(** The result on a set that has an NDVI array. *)
Lemma detect_with_ndvi image (vi : gmap string (Np.ndarray Q)) ndvi :
  vi !! "NDVI" = Some ndvi ->
  let forest_pixels :=
    Z.of_nat (length (List.filter (fun x => Qlt_bool forest_threshold x)
                                  (Np.data ndvi))) in
  let deforested_pixels :=
    Z.of_nat (length (List.filter (fun x => Qlt_bool x deforested_threshold)
                                  (Np.data ndvi))) in
  let total_pixels := Z.of_nat (Np.size ndvi) in
  detect_deforestation image vi
  = <["deforestation_percentage" :=
        VFloat (Py.round (fmul (true_divide deforested_pixels total_pixels)
                               (Fin 100)) 2)]>
    (<["forest_percentage" :=
        VFloat (Py.round (fmul (true_divide forest_pixels total_pixels)
                               (Fin 100)) 2)]>
    (<["confidence" :=
        VFloat (Py.round (Py.min (Fin 0.95)
                            (Py.max (Fin 0.5) (fsub (Fin 1) (np_std ndvi)))) 3)]>
    (<["total_pixels" := VInt total_pixels]>
    (<["forest_pixels" := VInt forest_pixels]>
    (<["deforested_pixels" := VInt deforested_pixels]> ∅))))).
Proof.
  intros Hn. cbv zeta. unfold detect_deforestation.
  destruct (size vi =? 0)%nat eqn:Ez.
  - apply Nat.eqb_eq, map_size_empty_iff in Ez. subst vi.
    rewrite lookup_empty in Hn. discriminate Hn.
  - rewrite Hn, !sum_bool_map. reflexivity.
Qed.

(** A count of at most [total > 0] elements, as a percentage. *)
Lemma percentage_in_range (count total : Z) :
  0 <= count <= total -> 0 < total ->
  exists p : Q,
    Py.round (fmul (true_divide count total) (Fin 100)) 2 = Fin p /\
    (0 <= p)%Q /\ (p <= 100)%Q.
Proof.
  intros Hc Ht. unfold true_divide.
  destruct (total =? 0) eqn:Ez; [apply Z.eqb_eq in Ez; lia|].
  cbn [fmul lift2 Py.round]. eexists. split; [reflexivity|].
  assert (Pt : (0 < inject_Z total)%Q) by (rewrite <- (Zlt_Qlt 0); exact Ht).
  assert (P0 : (0 <= inject_Z count)%Q) by (rewrite <- (Zle_Qle 0); lia).
  assert (P1 : (inject_Z count <= inject_Z total)%Q) by (rewrite <- Zle_Qle; lia).
  assert (Hq0 : (0 <= inject_Z count / inject_Z total)%Q).
  { apply Qle_shift_div_l; [exact Pt|]. lra. }
  assert (Hq1 : (inject_Z count / inject_Z total <= 1)%Q).
  { apply Qle_shift_div_r; [exact Pt|]. lra. }
  destruct (round_q_between (inject_Z count / inject_Z total * 100) 2 0 10000)
    as [L U].
  - change (inject_Z 0 / inject_Z (pow10 2))%Q with (0 / 100)%Q.
    setoid_replace (0 / 100)%Q with 0%Q using relation Qeq by reflexivity. lra.
  - change (inject_Z 10000 / inject_Z (pow10 2))%Q with (10000 / 100)%Q.
    setoid_replace (10000 / 100)%Q with 100%Q using relation Qeq by reflexivity.
    lra.
  - change (inject_Z 0 / inject_Z (pow10 2))%Q with (0 / 100)%Q in L.
    change (inject_Z 10000 / inject_Z (pow10 2))%Q with (10000 / 100)%Q in U.
    setoid_replace (0 / 100)%Q with 0%Q using relation Qeq in L by reflexivity.
    setoid_replace (10000 / 100)%Q with 100%Q using relation Qeq in U
      by reflexivity.
    split; assumption.
Qed.

(** Whatever [1 - std] is, also [nan], the clamp lands in [0.5, 0.95] and
    rounding to three decimals keeps it there. *)
Lemma clamp_in_range (x : float) :
  exists cf : Q,
    Py.round (Py.min (Fin 0.95) (Py.max (Fin 0.5) x)) 3 = Fin cf /\
    (0.5 <= cf)%Q /\ (cf <= 0.95)%Q.
Proof.
  assert (R : forall q : Q, (0.5 <= q)%Q -> (q <= 0.95)%Q ->
            (0.5 <= round_q q 3)%Q /\ (round_q q 3 <= 0.95)%Q).
  { intros q L U.
    destruct (round_q_between q 3 500 950) as [L' U'].
    - change (inject_Z 500 / inject_Z (pow10 3))%Q with (500 / 1000)%Q.
      setoid_replace (500 / 1000)%Q with 0.5%Q using relation Qeq by reflexivity.
      exact L.
    - change (inject_Z 950 / inject_Z (pow10 3))%Q with (950 / 1000)%Q.
      setoid_replace (950 / 1000)%Q with 0.95%Q using relation Qeq by reflexivity.
      exact U.
    - change (inject_Z 500 / inject_Z (pow10 3))%Q with (500 / 1000)%Q in L'.
      change (inject_Z 950 / inject_Z (pow10 3))%Q with (950 / 1000)%Q in U'.
      setoid_replace (500 / 1000)%Q with 0.5%Q using relation Qeq in L'
        by reflexivity.
      setoid_replace (950 / 1000)%Q with 0.95%Q using relation Qeq in U'
        by reflexivity.
      split; assumption. }
  destruct x as [q|].
  - unfold Py.max. cbn [flt].
    destruct (negb (Qle_bool q 0.5)) eqn:B1.
    + apply (Qlt_bool_iff 0.5 q) in B1.
      unfold Py.min. cbn [flt].
      destruct (negb (Qle_bool 0.95 q)) eqn:B2.
      * apply (Qlt_bool_iff q 0.95) in B2.
        eexists. split; [reflexivity|]. apply R; lra.
      * eexists. split; [reflexivity|]. apply R; lra.
    + eexists. split; [reflexivity|]. apply R; lra.
  - eexists. split; [reflexivity|]. apply R; lra.
Qed.

(** The fields of the result on a well-formed, non-empty NDVI array. *)
Lemma detect_in_range image (vi : gmap string (Np.ndarray Q)) ndvi :
  vi !! "NDVI" = Some ndvi -> Np.wf ndvi -> (0 < Np.size ndvi)%nat ->
  let res := detect_deforestation image vi in
  exists dp fp cf : Q,
    res !! "deforestation_percentage" = Some (VFloat (Fin dp)) /\
    (0 <= dp)%Q /\ (dp <= 100)%Q /\
    res !! "forest_percentage" = Some (VFloat (Fin fp)) /\
    (0 <= fp)%Q /\ (fp <= 100)%Q /\
    res !! "confidence" = Some (VFloat (Fin cf)) /\
    (0.5 <= cf)%Q /\ (cf <= 0.95)%Q /\
    Fin cf = Py.round (Py.min (Fin 0.95)
                         (Py.max (Fin 0.5) (fsub (Fin 1) (np_std ndvi)))) 3 /\
    res !! "total_pixels" = Some (VInt (Z.of_nat (Np.size ndvi))) /\
    Np.size ndvi = length (Np.data ndvi) /\
    (forall h w, Np.shape ndvi = [h; w] -> Np.size ndvi = (h * w)%nat).
Proof.
  intros Hn Hwf Hpos. cbv zeta. rewrite (detect_with_ndvi _ _ _ Hn).
  set (D := List.filter (fun x => Qlt_bool x deforested_threshold) (Np.data ndvi)).
  set (F := List.filter (fun x => Qlt_bool forest_threshold x) (Np.data ndvi)).
  assert (LD : (length D <= Np.size ndvi)%nat).
  { rewrite <- Hwf. apply length_filter_le. }
  assert (LF : (length F <= Np.size ndvi)%nat).
  { rewrite <- Hwf. apply length_filter_le. }
  destruct (percentage_in_range (Z.of_nat (length D)) (Z.of_nat (Np.size ndvi)))
    as (dp & Edp & Ldp & Udp); [lia|lia|].
  destruct (percentage_in_range (Z.of_nat (length F)) (Z.of_nat (Np.size ndvi)))
    as (fp & Efp & Lfp & Ufp); [lia|lia|].
  destruct (clamp_in_range (fsub (Fin 1) (np_std ndvi))) as (cf & Ecf & Lcf & Ucf).
  exists dp, fp, cf. rewrite Edp, Efp, Ecf.
  rewrite lookup_insert_eq.
  rewrite !(lookup_insert_ne _ "deforestation_percentage") by discriminate.
  rewrite lookup_insert_eq.
  rewrite !(lookup_insert_ne _ "forest_percentage") by discriminate.
  rewrite lookup_insert_eq.
  rewrite !(lookup_insert_ne _ "confidence") by discriminate.
  rewrite lookup_insert_eq.
  repeat (split; [first [reflexivity | assumption | symmetry; assumption]|]).
  intros h w Hs. unfold Np.size. rewrite Hs. cbn. lia.
Qed.

(** C4 (as amended).  For a set holding a well-formed, non-empty NDVI
    array both percentages lie in [0, 100], the confidence is
    [round(clamp(1 - std(NDVI), 0.5, 0.95), 3)] and lies in [0.5, 0.95],
    and [total_pixels] is the number of elements of the NDVI array. *)
Theorem classification_in_range image (vi : gmap string (Np.ndarray Q)) ndvi :
  vi !! "NDVI" = Some ndvi -> Np.wf ndvi -> (0 < Np.size ndvi)%nat ->
  let res := detect_deforestation image vi in
  exists dp fp cf : Q,
    res !! "deforestation_percentage" = Some (VFloat (Fin dp)) /\
    (0 <= dp)%Q /\ (dp <= 100)%Q /\
    res !! "forest_percentage" = Some (VFloat (Fin fp)) /\
    (0 <= fp)%Q /\ (fp <= 100)%Q /\
    res !! "confidence" = Some (VFloat (Fin cf)) /\
    (0.5 <= cf)%Q /\ (cf <= 0.95)%Q /\
    Fin cf = Py.round (Py.min (Fin 0.95)
                         (Py.max (Fin 0.5) (fsub (Fin 1) (np_std ndvi)))) 3 /\
    res !! "total_pixels" = Some (VInt (Z.of_nat (Np.size ndvi))) /\
    Np.size ndvi = length (Np.data ndvi) /\
    (forall h w, Np.shape ndvi = [h; w] -> Np.size ndvi = (h * w)%nat).
Proof. apply detect_in_range. Qed.

(** The same along the pipeline: an image of positive size with at least
    three channels always has such an NDVI array. *)
Lemma pipeline_in_range (image : Np.ndarray Q) (h w c : nat) :
  Np.shape image = [h; w; c] -> (3 <= c)%nat -> Np.wf image ->
  (0 < h)%nat -> (0 < w)%nat ->
  let res := detect_deforestation image (calculate_vegetation_indices image) in
  exists dp fp cf : Q,
    res !! "deforestation_percentage" = Some (VFloat (Fin dp)) /\
    (0 <= dp)%Q /\ (dp <= 100)%Q /\
    res !! "forest_percentage" = Some (VFloat (Fin fp)) /\
    (0 <= fp)%Q /\ (fp <= 100)%Q /\
    res !! "confidence" = Some (VFloat (Fin cf)) /\
    (0.5 <= cf)%Q /\ (cf <= 0.95)%Q /\
    res !! "total_pixels" = Some (VInt (Z.of_nat (h * w))).
Proof.
  intros Hs Hc Hwf Hh Hw. cbv zeta.
  destruct (vegetation_indices_ok image h w c Hs Hc Hwf)
    as (Hn & _ & _ & _ & Hall).
  destruct (Hall _ _ Hn) as (Sn & Wn & Ln).
  assert (Hsz : Np.size
                  (Np.mk [h; w]
                     (zip_with (fun g r => (g - r) / (g + r + 1e-8))%Q
                        (Np.data (Np.channel 1 image))
                        (Np.data (Np.channel 0 image))))
                = (h * w)%nat).
  { unfold Np.size. cbn. lia. }
  destruct (detect_in_range image _ _ Hn Wn)
    as (dp & fp & cf & H1 & H2 & H3 & H4 & H5 & H6 & H7 & H8 & H9 & _ & Ht & _).
  { rewrite Hsz. nia. }
  exists dp, fp, cf. rewrite Hsz in Ht. auto 12.
Qed.

(** C5 (as amended).  For every NDVI array [forest_pixels] counts the
    values above 0.3 and [deforested_pixels] those below 0.1, both
    strictly.  When all values lie strictly between the two thresholds
    both counts are 0; both percentages are 0 when the array is not empty,
    and [nan] when it is. *)
Theorem thresholds_leave_a_gap image (vi : gmap string (Np.ndarray Q)) ndvi :
  vi !! "NDVI" = Some ndvi ->
  let res := detect_deforestation image vi in
  res !! "forest_pixels"
  = Some (VInt (Z.of_nat (length (List.filter (fun x => Qlt_bool 0.3 x)
                                              (Np.data ndvi))))) /\
  res !! "deforested_pixels"
  = Some (VInt (Z.of_nat (length (List.filter (fun x => Qlt_bool x 0.1)
                                              (Np.data ndvi))))) /\
  (forall x, Qlt_bool 0.3 x = true <-> (0.3 < x)%Q) /\
  (forall x, Qlt_bool x 0.1 = true <-> (x < 0.1)%Q) /\
  (Forall (fun x => (0.1 < x)%Q /\ (x < 0.3)%Q) (Np.data ndvi) ->
   res !! "forest_pixels" = Some (VInt 0) /\
   res !! "deforested_pixels" = Some (VInt 0) /\
   ((0 < Np.size ndvi)%nat ->
    res !! "forest_percentage" = Some (VFloat (Fin 0)) /\
    res !! "deforestation_percentage" = Some (VFloat (Fin 0))) /\
   (Np.size ndvi = 0%nat ->
    res !! "forest_percentage" = Some (VFloat NaN) /\
    res !! "deforestation_percentage" = Some (VFloat NaN))).
Proof.
  intros Hn. cbv zeta. rewrite (detect_with_ndvi _ _ _ Hn).
  change forest_threshold with 0.3%Q. change deforested_threshold with 0.1%Q.
  rewrite !(lookup_insert_ne _ "deforestation_percentage") by discriminate.
  rewrite !(lookup_insert_ne _ "forest_percentage") by discriminate.
  rewrite !(lookup_insert_ne _ "confidence") by discriminate.
  rewrite !(lookup_insert_ne _ "total_pixels") by discriminate.
  rewrite !lookup_insert_eq.
  rewrite !(lookup_insert_ne _ "forest_pixels") by discriminate.
  rewrite !lookup_insert_eq.
  split; [reflexivity|]. split; [reflexivity|].
  split; [intros x; apply Qlt_bool_iff|].
  split; [intros x; apply Qlt_bool_iff|].
  intros Hall.
  assert (EF : List.filter (fun x => Qlt_bool 0.3 x) (Np.data ndvi) = []).
  { apply filter_none. eapply Forall_impl; [exact Hall|].
    intros x [_ Hx]. cbn beta.
    destruct (Qlt_bool 0.3 x) eqn:B; [|reflexivity].
    apply Qlt_bool_iff in B. lra. }
  assert (ED : List.filter (fun x => Qlt_bool x 0.1) (Np.data ndvi) = []).
  { apply filter_none. eapply Forall_impl; [exact Hall|].
    intros x [Hx _]. cbn beta.
    destruct (Qlt_bool x 0.1) eqn:B; [|reflexivity].
    apply Qlt_bool_iff in B. lra. }
  rewrite EF, ED. cbn [length]. change (Z.of_nat 0) with 0.
  split; [reflexivity|]. split; [reflexivity|]. split.
  - intros Hpos. unfold true_divide.
    destruct (Z.of_nat (Np.size ndvi) =? 0) eqn:Ez; [apply Z.eqb_eq in Ez; lia|].
    cbn [fmul lift2 Py.round].
    assert (Er : round_q (inject_Z 0 / inject_Z (Z.of_nat (Np.size ndvi)) * 100) 2
                 = 0%Q).
    { rewrite (round_q_comp _ 0%Q); [reflexivity|].
      change (inject_Z 0) with 0%Q. unfold Qdiv. ring. }
    rewrite Er. split; reflexivity.
  - intros Hz. rewrite Hz. split; reflexivity.
Qed.

(** C7 (as amended).  Without an NDVI array, and so for an empty set, the
    classifier returns the dict with exactly the two entries
    [deforestation_percentage: 0] and [confidence: 0]. *)
Theorem degenerate_without_ndvi image (vi : gmap string (Np.ndarray Q)) :
  vi !! "NDVI" = None ->
  let res := detect_deforestation image vi in
  res = degenerate /\
  res !! "deforestation_percentage" = Some (VInt 0) /\
  res !! "confidence" = Some (VInt 0) /\
  (forall key, key <> "deforestation_percentage"%string ->
     key <> "confidence"%string -> res !! key = None).
Proof.
  intros Hn. cbv zeta.
  assert (E : detect_deforestation image vi = degenerate).
  { unfold detect_deforestation. rewrite Hn.
    destruct (size vi =? 0)%nat; reflexivity. }
  rewrite E. unfold degenerate.
  split; [reflexivity|]. split; [reflexivity|]. split; [reflexivity|].
  intros key N1 N2. rewrite !lookup_insert_ne by congruence. apply lookup_empty.
Qed.

End Classifier.

Section ClassifierExamples.
Import Py SatelliteProcessor Demo.

Lemma classification_in_range_witness :
  let ndvi := Np.mk [1; 2]%nat [0; 0.2468]%Q in
  let res := detect_deforestation ndvi (<["NDVI" := ndvi]> ∅) in
  res !! "confidence" = Some (VFloat (Fin 0.877)) /\
  res !! "deforestation_percentage" = Some (VFloat (Fin 50)) /\
  res !! "total_pixels" = Some (VInt 2).
Proof.
  cbv zeta.
  destruct (classification_in_range
              (Np.mk [1; 2]%nat [0; 0.2468]%Q)
              (<["NDVI" := Np.mk [1; 2]%nat [0; 0.2468]%Q]> ∅)
              (Np.mk [1; 2]%nat [0; 0.2468]%Q))
    as (dp & fp & cf & _ & _ & _ & _ & _ & _ & _ & _ & _ & _ & Ht & _).
  - reflexivity.
  - reflexivity.
  - cbn. lia.
  - split; [vm_compute; reflexivity|]. split; [vm_compute; reflexivity|].
    exact Ht.
Defined.

(** C4 as stated fails on the confidence: for NDVI values 0 and 0.2468 the
    standard deviation is 0.1234 and the clamp is 0.8766, but the returned
    confidence is 0.877. *)
Lemma confidence_is_rounded_clamp :
  let ndvi := Np.mk [1; 2]%nat [0; 0.2468]%Q in
  let res := detect_deforestation ndvi (<["NDVI" := ndvi]> ∅) in
  let clamp :=
    Py.min (Fin 0.95) (Py.max (Fin 0.5) (fsub (Fin 1) (np_std ndvi))) in
  feq (np_std ndvi) (Fin 0.1234) /\
  feq clamp (Fin 0.8766) /\
  res !! "confidence" = Some (VFloat (Fin 0.877)) /\
  ~ feq (Fin 0.877) clamp.
Proof.
  cbv zeta. split; [vm_compute; reflexivity|]. split; [vm_compute; reflexivity|].
  split; [vm_compute; reflexivity|]. vm_compute. intros E. discriminate E.
Qed.

Lemma thresholds_leave_a_gap_witness :
  let ndvi := Np.mk [1; 2]%nat [0.15; 0.2]%Q in
  let res := detect_deforestation ndvi (<["NDVI" := ndvi]> ∅) in
  res !! "forest_percentage" = Some (VFloat (Fin 0)) /\
  res !! "deforestation_percentage" = Some (VFloat (Fin 0)).
Proof.
  cbv zeta.
  destruct (thresholds_leave_a_gap
              (Np.mk [1; 2]%nat [0.15; 0.2]%Q)
              (<["NDVI" := Np.mk [1; 2]%nat [0.15; 0.2]%Q]> ∅)
              (Np.mk [1; 2]%nat [0.15; 0.2]%Q))
    as (_ & _ & _ & _ & Hgap).
  - reflexivity.
  - destruct Hgap as (_ & _ & Hp & _).
    + repeat constructor.
    + apply Hp. cbn. lia.
Defined.

(** C5 as stated fails on an empty array: all of its values, there being
    none, lie strictly between the thresholds, yet both percentages are
    [nan] and not 0. *)
Lemma empty_ndvi_percentages_are_nan :
  let ndvi := Np.mk [0; 0]%nat ([] : list Q) in
  let res := detect_deforestation ndvi (<["NDVI" := ndvi]> ∅) in
  Forall (fun x => (0.1 < x)%Q /\ (x < 0.3)%Q) (Np.data ndvi) /\
  res !! "forest_percentage" = Some (VFloat NaN) /\
  res !! "deforestation_percentage" = Some (VFloat NaN) /\
  res !! "forest_percentage" <> Some (VFloat (Fin 0)) /\
  res !! "deforestation_percentage" <> Some (VFloat (Fin 0)) /\
  res !! "forest_percentage" <> Some (VInt 0) /\
  res !! "deforestation_percentage" <> Some (VInt 0).
Proof.
  cbv zeta. split; [constructor|].
  split; [vm_compute; reflexivity|]. split; [vm_compute; reflexivity|].
  repeat split; intros E; vm_compute in E; discriminate E.
Qed.

Lemma degenerate_without_ndvi_witness :
  let image := Np.mk [1; 1; 1]%nat [0.5]%Q in
  detect_deforestation image (calculate_vegetation_indices image) = degenerate.
Proof.
  cbv zeta.
  apply (degenerate_without_ndvi (Np.mk [1; 1; 1]%nat [0.5]%Q)
           (calculate_vegetation_indices (Np.mk [1; 1; 1]%nat [0.5]%Q))).
  reflexivity.
Defined.

(** C7 as stated fails on the other fields: the degenerate result has no
    [forest_percentage], [total_pixels], [forest_pixels] or
    [deforested_pixels] entry, rather than zeros. *)
Lemma degenerate_omits_other_fields :
  let image := Np.mk [1; 1; 1]%nat [0.5]%Q in
  let res := detect_deforestation image ∅ in
  res !! "forest_percentage" = None /\
  res !! "total_pixels" = None /\
  res !! "forest_pixels" = None /\
  res !! "deforested_pixels" = None /\
  res !! "forest_percentage" <> Some (VInt 0) /\
  res !! "forest_percentage" <> Some (VFloat (Fin 0)).
Proof.
  cbv zeta. repeat split; try (vm_compute; reflexivity);
    intros E; vm_compute in E; discriminate E.
Qed.

(** The two constant-image scenarios. *)
Example constant_forest_image :
  let image := Np.mk [1; 1; 3]%nat [50 # 255; 180 # 255; 50 # 255] in
  let res := detect_deforestation image (calculate_vegetation_indices image) in
  res !! "forest_percentage" = Some (VFloat (Fin 100)) /\
  res !! "deforestation_percentage" = Some (VFloat (Fin 0)).
Proof. split; vm_compute; reflexivity. Qed.

Example constant_cleared_image :
  let image := Np.mk [1; 1; 3]%nat [200 # 255; 60 # 255; 60 # 255] in
  let res := detect_deforestation image (calculate_vegetation_indices image) in
  res !! "forest_percentage" = Some (VFloat (Fin 0)) /\
  res !! "deforestation_percentage" = Some (VFloat (Fin 100)).
Proof. split; vm_compute; reflexivity. Qed.

End ClassifierExamples.

(** ** The preprocessor *)

Section Preprocessor.
Import Py SatelliteProcessor.
Context `{Env}.
Hypothesis resize_ok : Cv2.resize_contract cv2_resize.

Lemma normalized_unit_range (l : list Z) :
  Forall Cv2.uint8 l ->
  Forall (fun x => (0 <= x)%Q /\ (x <= 1)%Q)
         (List.map (fun v => inject_Z v / 255)%Q l).
Proof.
  intros Hl. apply Forall_map. eapply Forall_impl; [exact Hl|].
  intros v [L U]. cbn beta.
  assert (P0 : (0 <= inject_Z v)%Q) by (rewrite <- (Zle_Qle 0); exact L).
  assert (P1 : (inject_Z v <= 255)%Q) by (unfold Qle; cbn; lia).
  split.
  - apply Qle_shift_div_l; lra.
  - apply Qle_shift_div_r; lra.
Qed.

(** The preprocessor on a well-formed image, step by step. *)
Lemma preprocess_ok (image : Np.ndarray Z) (target_size : nat * nat) :
  Cv2.raw_wf image -> (0 < target_size.1)%nat -> (0 < target_size.2)%nat ->
  exists resized out,
    cv2_resize image target_size = Ok resized /\
    preprocess_image image target_size = Ok out /\
    take 2 (Np.shape out) = [target_size.2; target_size.1] /\
    Np.wf out /\
    Np.data out = List.map (fun v => inject_Z v / 255)%Q (Np.data resized) /\
    Forall (fun x => (0 <= x)%Q /\ (x <= 1)%Q) (Np.data out) /\
    (Np.ndim image = 2%nat ->
       out = Np.map (fun v => inject_Z v / 255)%Q (Np.expand_dims_last resized) /\
       Np.shape out = [target_size.2; target_size.1; 1%nat]) /\
    (forall h w c, Np.shape image = [h; w; c] -> (2 <= c)%nat ->
       Np.shape out = [target_size.2; target_size.1; c]).
Proof.
  intros Hraw Hw Hh.
  destruct (resize_ok image target_size Hraw Hw Hh) as (resized & Er & Sr & Wr & Ur).
  pose proof Hraw as (Hshape & _ & _).
  unfold preprocess_image.
  destruct (Np.shape image) as [|h [|w [|c [|? ?]]]] eqn:Es;
    try discriminate Hshape.
  - (* two dimensions *)
    assert (En : (Np.ndim image =? 3)%nat = false).
    { unfold Np.ndim. rewrite Es. reflexivity. }
    rewrite En, Er. cbn [mbind result_bind bind mret result_ret].
    exists resized. eexists. split; [reflexivity|]. split; [reflexivity|].
    unfold Np.map, Np.expand_dims_last. cbn [Np.shape Np.data].
    cbn [Cv2.resized_shape] in Sr. rewrite Sr.
    split; [reflexivity|].
    split.
    { unfold Np.wf, Np.size in *. cbn [Np.shape Np.data] in *.
      rewrite length_map, Wr, Sr. cbn. lia. }
    split; [reflexivity|].
    split; [apply normalized_unit_range; exact Ur|].
    split.
    + intros _. split; reflexivity.
    + intros h' w' c' E. discriminate E.
  - (* three dimensions *)
    assert (En : (Np.ndim image =? 3)%nat = true).
    { unfold Np.ndim. rewrite Es. reflexivity. }
    rewrite En, Er. cbn [mbind result_bind bind mret result_ret].
    exists resized. eexists. split; [reflexivity|]. split; [reflexivity|].
    unfold Np.map. cbn [Np.shape Np.data].
    cbn [Cv2.resized_shape] in Sr.
    split; [rewrite Sr; destruct (c =? 1)%nat; reflexivity|].
    split.
    { unfold Np.wf, Np.size in *. cbn [Np.shape Np.data] in *.
      rewrite length_map. exact Wr. }
    split; [reflexivity|].
    split; [apply normalized_unit_range; exact Ur|].
    split.
    + unfold Np.ndim. rewrite Es. discriminate.
    + intros h' w' c' E Hc. injection E as -> -> ->.
      rewrite Sr. destruct (c' =? 1)%nat eqn:E1; [|reflexivity].
      apply Nat.eqb_eq in E1. lia.
Qed.

(** C8 (as amended).  For a well-formed image and a positive target size
    [(width, height)] the preprocessor returns an array whose two leading
    dimensions are [height] and [width], whose values are the resized
    samples divided by 255 and lie in [0, 1].  An image with two or more
    channels keeps them; a two-dimensional image is resized first and gets
    its channel axis after the resize. *)
Theorem preprocess_normalizes (image : Np.ndarray Z) (target_size : nat * nat) :
  Cv2.raw_wf image -> (0 < target_size.1)%nat -> (0 < target_size.2)%nat ->
  exists resized out,
    cv2_resize image target_size = Ok resized /\
    preprocess_image image target_size = Ok out /\
    take 2 (Np.shape out) = [target_size.2; target_size.1] /\
    Np.wf out /\
    Np.data out = List.map (fun v => inject_Z v / 255)%Q (Np.data resized) /\
    Forall (fun x => (0 <= x)%Q /\ (x <= 1)%Q) (Np.data out) /\
    (Np.ndim image = 2%nat ->
       out = Np.map (fun v => inject_Z v / 255)%Q (Np.expand_dims_last resized) /\
       Np.shape out = [target_size.2; target_size.1; 1%nat]) /\
    (forall h w c, Np.shape image = [h; w; c] -> (2 <= c)%nat ->
       Np.shape out = [target_size.2; target_size.1; c]).
Proof. apply preprocess_ok. Qed.

(** At the default size the result is 512 by 512. *)
Lemma preprocess_default_size (image : Np.ndarray Z) :
  Cv2.raw_wf image ->
  exists out,
    preprocess_image image default_target_size = Ok out /\
    take 2 (Np.shape out) = [512; 512]%nat.
Proof.
  intros Hraw.
  destruct (preprocess_ok image default_target_size Hraw)
    as (resized & out & _ & Eo & Hs & _); [cbn; lia|cbn; lia|].
  exists out. split; [exact Eo | exact Hs].
Qed.

End Preprocessor.

Section PreprocessorExamples.
Import Py SatelliteProcessor Demo.

Lemma resize_nearest_contract : Cv2.resize_contract resize_nearest.
Proof.
  intros image [tw th] (Hs & Hwf & Hu) Htw Hth. cbn [fst snd] in *.
  unfold resize_nearest. cbn [fst snd]. rewrite Hs.
  apply Nat.ltb_lt in Htw, Hth. rewrite Htw, Hth. cbn [andb].
  eexists. split; [reflexivity|]. cbn [Np.shape Np.data].
  split; [reflexivity|]. split.
  - unfold Np.wf, Np.size. cbn [Np.shape Np.data].
    rewrite length_map, length_seq.
    destruct (Np.shape image) as [|h [|w [|c [|? ?]]]];
      try discriminate Hs; cbn [Cv2.resized_shape nth fst snd].
    + cbn. lia.
    + destruct (c =? 1)%nat eqn:E1; cbn; [apply Nat.eqb_eq in E1|]; lia.
  - apply Forall_map, Forall_forall. intros i _.
    match goal with
    | |- Cv2.uint8 (nth ?n ?l 0) => destruct (nth_in_or_default n l 0) as [Hin| ->]
    end.
    + rewrite Forall_forall in Hu. apply Hu, list_elem_of_In, Hin.
    + unfold Cv2.uint8. lia.
Qed.

Lemma preprocess_normalizes_witness :
  let image := Np.mk [1; 2]%nat [255; 0] in
  exists out,
    preprocess_image image (3, 2)%nat = Ok out /\
    Np.shape out = [2; 3; 1]%nat /\
    Forall (fun x => (0 <= x)%Q /\ (x <= 1)%Q) (Np.data out).
Proof.
  cbv zeta.
  destruct (@preprocess_normalizes env resize_nearest_contract
              (Np.mk [1; 2]%nat [255; 0]) (3, 2)%nat)
    as (resized & out & _ & Eo & _ & _ & _ & Hr & H2 & _).
  - split; [reflexivity|]. split; [reflexivity|].
    repeat constructor; unfold Cv2.uint8; lia.
  - cbn. lia.
  - cbn. lia.
  - exists out. split; [exact Eo|]. split; [|exact Hr].
    apply H2. reflexivity.
Defined.

(** C8 as stated fails on the order of the steps: appending the channel
    axis before the resize gives an array without a channel axis, since
    the resize drops an axis of length one; the code resizes first and
    returns a [2 x 3 x 1] array. *)
Lemma channel_axis_is_appended_after_resize :
  let image := Np.mk [1; 2]%nat [255; 0] in
  (Np.shape <$> match preprocess_image image (3, 2)%nat with
                | Ok out => Some out | Raise _ => None end)
  = Some [2; 3; 1]%nat /\
  (Np.shape <$> match preprocess_axis_first image (3, 2)%nat with
                | Ok out => Some out | Raise _ => None end)
  = Some [2; 3]%nat /\
  preprocess_image image (3, 2)%nat <> preprocess_axis_first image (3, 2)%nat.
Proof.
  cbv zeta. split; [reflexivity|]. split; [reflexivity|].
  intros E. vm_compute in E. discriminate E.
Qed.

End PreprocessorExamples.

(** ** Paths *)

Section Paths.
Import Py.

Lemma basename_no_slash (p : string) : has_slash p = false -> basename p = p.
Proof.
  destruct p as [|c r]; [reflexivity|]. cbn [has_slash basename].
  intros Hs. apply orb_false_iff in Hs. destruct Hs as [Hc Hr].
  rewrite Hc, Hr. reflexivity.
Qed.

Lemma has_slash_app (a b : string) : has_slash (a ++ String "/" b) = true.
Proof.
  induction a as [|c a IH]; [reflexivity|].
  change (String c a ++ String "/" b)%string
    with (String c (a ++ String "/" b)).
  cbn [has_slash]. rewrite IH. apply orb_true_r.
Qed.

Lemma basename_app_slash (a b : string) :
  basename (a ++ String "/" b) = basename b.
Proof.
  induction a as [|c a IH]; [reflexivity|].
  change (String c a ++ String "/" b)%string
    with (String c (a ++ String "/" b)).
  cbn [basename]. rewrite has_slash_app, IH.
  destruct (Ascii.eqb c "/"); reflexivity.
Qed.

Lemma append_assoc (a b c : string) :
  ((a ++ b) ++ c = a ++ (b ++ c))%string.
Proof.
  induction a as [|x a IH]; [reflexivity|].
  change (String x ((a ++ b) ++ c) = String x (a ++ (b ++ c)))%string.
  rewrite IH. reflexivity.
Qed.

Lemma endswith_slash (a : string) :
  endswith a "/" = true -> exists a', a = (a' ++ "/")%string.
Proof.
  unfold endswith. cbn [String.length].
  induction a as [|c r IH]; [discriminate|].
  intros Hs. apply andb_true_iff in Hs. destruct Hs as [_ Hs].
  apply String.eqb_eq in Hs. cbn [String.length] in Hs.
  replace (S (String.length r) - 1)%nat with (String.length r) in Hs by lia.
  destruct r as [|c' r'].
  - cbn in Hs. injection Hs as ->. exists EmptyString. reflexivity.
  - cbn [String.length substring] in Hs.
    destruct IH as [a' Ea].
    + cbn [String.length]. apply andb_true_iff. split; [reflexivity|].
      apply String.eqb_eq.
      replace (S (String.length r') - 1)%nat with (String.length r') by lia.
      exact Hs.
    + exists (String c a').
      change (String c a' ++ "/")%string with (String c (a' ++ "/")).
      rewrite <- Ea. reflexivity.
Qed.

(** The [file] of a batch entry is the listed name. *)
Lemma basename_path_join (directory name : string) :
  has_slash name = false -> basename (path_join directory name) = name.
Proof.
  intros Hs. unfold path_join, startswith.
  assert (Hp : String.prefix "/" name = false).
  { destruct name as [|c r]; [reflexivity|]. cbn [has_slash] in Hs.
    apply orb_false_iff in Hs. destruct Hs as [Hc _].
    cbn [String.prefix]. apply Ascii.eqb_neq in Hc.
    destruct (ascii_dec "/" c) as [E|_]; [subst c; congruence|reflexivity]. }
  rewrite Hp.
  destruct (String.eqb directory EmptyString) eqn:Ee.
  - apply String.eqb_eq in Ee. subst directory. cbn [orb].
    change (EmptyString ++ name)%string with name.
    apply basename_no_slash, Hs.
  - cbn [orb]. destruct (endswith directory "/") eqn:Es.
    + destruct (endswith_slash _ Es) as [a' ->].
      rewrite append_assoc.
      change ("/" ++ name)%string with (String "/" name).
      rewrite basename_app_slash. apply basename_no_slash, Hs.
    + change ("/" ++ name)%string with (String "/" name).
      rewrite basename_app_slash. apply basename_no_slash, Hs.
Qed.

End Paths.

(** ** Batch processing *)

Section Batch.
Import Py SatelliteProcessor.
Context `{Env}.

Lemma lookup_map {A B} (f : A -> B) (l : list A) (i : nat) :
  List.map f l !! i = f <$> l !! i.
Proof.
  revert i. induction l as [|x l IH]; intros [|i]; cbn; try reflexivity.
  apply IH.
Qed.

(** A file name is picked up when its lower-cased form ends in one of the
    four extensions. *)
Lemma is_supported_spec (filename : string) :
  is_supported filename = true <->
  exists fmt, In fmt [".jpg"; ".jpeg"; ".png"; ".bmp"]%string /\
              endswith (lower filename) fmt = true.
Proof. unfold is_supported, supported_formats. apply existsb_exists. Qed.

(** What the entry of one file looks like, by the outcome of its run. *)
Lemma process_entry_spec (file_path : string) :
  let entry := process_entry file_path in
  file entry = basename file_path /\
  match process_satellite_image file_path with
  | Ok (res, _, _) =>
      status entry = "success"%string /\ result entry = Some res /\
      error entry = None
  | Raise e =>
      status entry = "error"%string /\ result entry = None /\
      error entry = Some (str e)
  end.
Proof.
  cbv zeta. unfold process_entry.
  destruct (process_satellite_image file_path) as [[[res mask] indices]|e];
    cbn; auto.
Qed.

(** C9.  When the directory can be listed, batch processing returns a
    report: [total_files] is the number of listed names with a supported
    extension in any letter case, [results] has one entry per such file in
    listing order, and a file whose processing raises gets a
    [status: error] entry carrying the error text while the other files
    are processed all the same. *)
Theorem batch_isolates_failures (directory_path : string) (names : list string) :
  os_listdir directory_path = Ok names ->
  let found := List.filter is_supported names in
  exists report,
    batch_process directory_path = Ok report /\
    total_files report = length found /\
    length (results report) = total_files report /\
    results report
    = List.map (fun name => process_entry (path_join directory_path name)) found /\
    (forall name, In name found <->
       In name names /\
       exists fmt, In fmt [".jpg"; ".jpeg"; ".png"; ".bmp"]%string /\
                   endswith (lower name) fmt = true) /\
    (forall i name, found !! i = Some name ->
       exists entry,
         results report !! i = Some entry /\
         file entry = basename (path_join directory_path name) /\
         match process_satellite_image (path_join directory_path name) with
         | Ok (res, _, _) =>
             status entry = "success"%string /\ result entry = Some res /\
             error entry = None
         | Raise e =>
             status entry = "error"%string /\ result entry = None /\
             error entry = Some (str e)
         end).
Proof.
  intros Hl. cbv zeta. unfold batch_process. rewrite Hl.
  cbn [mbind result_bind bind mret result_ret].
  eexists. split; [reflexivity|]. cbn [total_files results].
  split; [apply length_map|].
  split; [rewrite !length_map; reflexivity|].
  split; [rewrite map_map; reflexivity|].
  split.
  - intros name. rewrite filter_In, is_supported_spec. reflexivity.
  - intros i name Hi. rewrite map_map, lookup_map, Hi. cbn.
    eexists. split; [reflexivity|]. apply process_entry_spec.
Qed.

(** An image that decodes to three 8-bit channels is processed without an
    exception. *)
Lemma swap_rb_spec (P : Z -> Prop) (n : nat) (d : list Z) :
  length d = (3 * n)%nat ->
  length (swap_rb d) = (3 * n)%nat /\ (Forall P d -> Forall P (swap_rb d)).
Proof.
  revert d. induction n as [|n IH]; intros d Hd.
  - destruct d; [|discriminate Hd]. split; [reflexivity|]. intros _. constructor.
  - destruct d as [|b [|g [|r rest]]]; try (cbn in Hd; lia).
    destruct (IH rest) as [Hl Hf]; [cbn in Hd; lia|].
    cbn [swap_rb length]. split; [lia|].
    intros Hall. inversion Hall as [|? ? Pb H1]; subst.
    inversion H1 as [|? ? Pg H2]; subst. inversion H2 as [|? ? Pr H3]; subst.
    repeat constructor; auto.
Qed.

Lemma process_decodable (path : string) (image : Np.ndarray Z) (h w : nat) :
  Cv2.resize_contract cv2_resize ->
  cv2_imread path = Some image ->
  Cv2.raw_wf image -> Np.shape image = [h; w; 3%nat] ->
  exists r, process_satellite_image path = Ok r.
Proof.
  intros Hc Hr (Hs & Hwf & Hu) Es.
  unfold process_satellite_image, load_image, cvtColor_BGR2RGB.
  rewrite Hr, Es. cbn [mbind result_bind bind].
  destruct (swap_rb_spec Cv2.uint8 (h * w) (Np.data image)) as [Ll Lf].
  { rewrite Hwf. unfold Np.size. rewrite Es. cbn. lia. }
  destruct (preprocess_ok Hc
              (Np.mk [h; w; 3%nat] (swap_rb (Np.data image)))
              default_target_size) as (resized & out & _ & Eo & _).
  - rewrite Es in Hs. split; [exact Hs|]. split; [|apply Lf; exact Hu].
    unfold Np.wf, Np.size. cbn [Np.shape Np.data foldr]. rewrite Ll. lia.
  - cbn. lia.
  - cbn. lia.
  - rewrite Eo. cbn [mbind result_bind bind mret result_ret].
    eexists. reflexivity.
Qed.

End Batch.

Section BatchExamples.
Import Py SatelliteProcessor Demo.

Example extension_case_insensitive :
  is_supported "CLEARED.PNG" = true /\ is_supported "forest.jpg" = true /\
  is_supported "scan.JpEg" = true /\ is_supported "notes.txt" = false /\
  is_supported "map.tif" = false.
Proof. repeat split; reflexivity. Qed.

Lemma batch_isolates_failures_witness :
  exists report,
    batch_process "tiles" = Ok report /\
    total_files report = 3%nat /\
    List.map file (results report)
    = ["forest.jpg"; "CLEARED.PNG"; "broken.bmp"]%string /\
    List.map status (results report)
    = ["success"; "success"; "error"]%string /\
    List.map error (results report)
    = [None; None; Some "Could not load image: tiles/broken.bmp"%string].
Proof.
  destruct (batch_isolates_failures "tiles"
              ["forest.jpg"; "notes.txt"; "CLEARED.PNG"; "broken.bmp"]%string)
    as (report & Eb & Et & _ & Er & _).
  - reflexivity.
  - exists report. split; [exact Eb|]. split; [exact Et|].
    rewrite Er.
    change (List.filter is_supported
              ["forest.jpg"; "notes.txt"; "CLEARED.PNG"; "broken.bmp"]%string)
      with ["forest.jpg"; "CLEARED.PNG"; "broken.bmp"]%string.
    cbn [List.map].
    change (path_join "tiles" "forest.jpg") with "tiles/forest.jpg"%string.
    change (path_join "tiles" "CLEARED.PNG") with "tiles/CLEARED.PNG"%string.
    change (path_join "tiles" "broken.bmp") with "tiles/broken.bmp"%string.
    destruct (@process_decodable env "tiles/forest.jpg" (pixel 50 180 50) 1 1
                resize_nearest_contract) as [r1 E1].
    { reflexivity. }
    { split; [reflexivity|]. split; [reflexivity|].
      repeat constructor; unfold Cv2.uint8; lia. }
    { reflexivity. }
    destruct (@process_decodable env "tiles/CLEARED.PNG" (pixel 60 60 200) 1 1
                resize_nearest_contract) as [r2 E2].
    { reflexivity. }
    { split; [reflexivity|]. split; [reflexivity|].
      repeat constructor; unfold Cv2.uint8; lia. }
    { reflexivity. }
    assert (E3 : process_satellite_image "tiles/broken.bmp"
                 = Raise (ValueError "Could not load image: tiles/broken.bmp"))
      by reflexivity.
    unfold process_entry. rewrite E1, E2, E3.
    destruct r1 as [[? ?] ?], r2 as [[? ?] ?]. cbn.
    repeat split; reflexivity.
Defined.

End BatchExamples.

(** ** More on the statistics aggregator *)

Section AggregatorEdges.
Import Py App Demo.



Lemma update_read_back filename results now d d' s' :
  writable d = true ->
  _update_processing_stats filename results now d = (d', Ok s') ->
  _read_processing_stats d' = s' /\ content d' = Holds s' /\ writable d' = true.
Proof.
  intros Hw E. destruct (update_returns _ _ _ _ _ _ E) as (h & Hh & Hz).
  rewrite (update_success _ _ _ _ _ Hh Hz) in E.
  injection E as <- <-. unfold _write_processing_stats. rewrite Hw.
  repeat split; reflexivity.
Qed.

(** What a call returns is what the next read finds, when the file can be
    written. *)
Theorem update_then_read filename results now d d' s' :
  writable d = true ->
  _update_processing_stats filename results now d = (d', Ok s') ->
  _read_processing_stats d' = s' /\ content d' = Holds s' /\ writable d' = true.
Proof. apply update_read_back. Qed.

Lemma update_then_read_witness :
  let r := _update_processing_stats "t.png" (reading "t.png" 35 0.9 "t").1.2
             "t" blank_disk in
  exists s', r.2 = Ok s' /\ _read_processing_stats r.1 = s'.
Proof.
  cbv zeta.
  pose (s' := {| total_processed := Some 1;
                 total_deforested_images := Some 1;
                 average_deforestation_percentage := Some (Fin 35);
                 average_confidence := Some (Fin 0.9);
                 history := Some [entry_of (reading "t.png" 35 0.9 "t")] |}).
  pose (d' := {| content := Holds s'; writable := true |}).
  assert (E : _update_processing_stats "t.png" (reading "t.png" 35 0.9 "t").1.2
                "t" blank_disk = (d', Ok s')) by reflexivity.
  exists s'. rewrite E. split; [reflexivity|].
  apply (update_then_read "t.png" (reading "t.png" 35 0.9 "t").1.2 "t"
           blank_disk d' s'); [reflexivity | exact E].
Defined.



End AggregatorEdges.

Section AggregatorInvariants.
Import Py App Demo.

(** On a fresh disk [total_deforested_images] is the number of calls so
    far whose percentage was at least 20, hence never above
    [total_processed], which is the number of calls. *)
Theorem deforested_count_invariant (calls : list call) (d : disk) :
  fresh d ->
  let s := _read_processing_stats (record_all calls d) in
  let over := List.filter (fun c => fge (def_pct_of c) (Fin 20)) calls in
  total_processed s = Some (Z.of_nat (length calls)) /\
  total_deforested_images s = Some (Z.of_nat (length over)) /\
  (length over <= length calls)%nat.
Proof.
  intros Hf. cbv zeta.
  split; [apply (record_all_fresh calls d Hf)|].
  split; [|apply length_filter_le].
  induction calls as [|c calls IH] using rev_ind.
  - destruct Hf as [Hz _]. cbn. rewrite Hz. reflexivity.
  - destruct (record_all_fresh calls d Hf) as (Hw & Ht & Hh & _).
    rewrite record_all_snoc.
    rewrite (update_success _ _ _ _ _ Hh) by (rewrite Ht; cbn; lia).
    cbn [fst]. unfold _write_processing_stats. rewrite Hw.
    cbn [_read_processing_stats content total_deforested_images].
    rewrite IH, List.filter_app, length_app.
    cbn [List.filter default from_option id].
    destruct c as [[f r] n]. cbn [fst snd].
    destruct (fge (def_pct_of (f, r, n)) (Fin 20)); cbn [length]; f_equal; lia.
Qed.

Lemma deforested_count_invariant_witness :
  let calls := [reading "a.png" 25 0.9 "t0"; reading "b.png" 19.99 0.9 "t1";
                reading "c.png" 20 0.9 "t2"] in
  let s := _read_processing_stats (record_all calls blank_disk) in
  total_processed s = Some 3 /\ total_deforested_images s = Some 2.
Proof.
  cbv zeta.
  destruct (deforested_count_invariant
              [reading "a.png" 25 0.9 "t0"; reading "b.png" 19.99 0.9 "t1";
               reading "c.png" 20 0.9 "t2"] blank_disk) as (Ht & Hd & _).
  - split; reflexivity.
  - split; [exact Ht | exact Hd].
Defined.

(** One step of the incremental formula stays between two bounds that have
    [ndigits] decimals. *)
Lemma step_average_between (ndigits : nat) (a b : Z) (avg : Q) (n : Z) (v : Q) :
  0 <= n ->
  let lo := (inject_Z a / inject_Z (pow10 ndigits))%Q in
  let hi := (inject_Z b / inject_Z (pow10 ndigits))%Q in
  (lo <= avg)%Q -> (avg <= hi)%Q -> (lo <= v)%Q -> (v <= hi)%Q ->
  (lo <= step_average ndigits avg n v)%Q /\
  (step_average ndigits avg n v <= hi)%Q.
Proof.
  intros Hn lo hi L1 U1 L2 U2. unfold step_average.
  assert (N0 : (0 <= inject_Z n)%Q) by (rewrite <- (Zle_Qle 0); exact Hn).
  assert (E1 : (inject_Z (n + 1) == inject_Z n + 1)%Q)
    by (rewrite inject_Z_plus; reflexivity).
  assert (P1 : (0 < inject_Z (n + 1))%Q) by (rewrite E1; lra).
  apply round_q_between; fold lo; fold hi.
  - apply Qle_shift_div_l; [exact P1|]. rewrite E1. nra.
  - apply Qle_shift_div_r; [exact P1|]. rewrite E1. nra.
Qed.

Lemma running_average_between (ndigits : nat) (a b : Z) (l : list Q) :
  let lo := (inject_Z a / inject_Z (pow10 ndigits))%Q in
  let hi := (inject_Z b / inject_Z (pow10 ndigits))%Q in
  (lo <= 0)%Q -> (0 <= hi)%Q ->
  Forall (fun v => (lo <= v)%Q /\ (v <= hi)%Q) l ->
  (lo <= running_average ndigits l)%Q /\ (running_average ndigits l <= hi)%Q.
Proof.
  intros lo hi L0 U0. induction l as [|v l IH] using rev_ind; intros Hall.
  - split; assumption.
  - apply Forall_app in Hall. destruct Hall as [Hl Hv].
    inversion Hv as [|? ? [Lv Uv] _]; subst.
    destruct (IH Hl) as [La Ua].
    rewrite running_average_snoc.
    apply step_average_between; try assumption. lia.
Qed.

(** Percentages in [0, 100] and confidences in [0, 1] keep the stored
    averages in [0, 100] and [0, 1], whatever the rounding does. *)
Theorem stored_averages_bounded (calls : list call) (vs cs : list Q) (d : disk) :
  fresh d ->
  Forall2 (fun c v => def_pct_of c = Fin v) calls vs ->
  Forall2 (fun c k => conf_of c = Fin k) calls cs ->
  Forall (fun v => (0 <= v)%Q /\ (v <= 100)%Q) vs ->
  Forall (fun k => (0 <= k)%Q /\ (k <= 1)%Q) cs ->
  let s := _read_processing_stats (record_all calls d) in
  exists a k : Q,
    average_deforestation_percentage s = Some (Fin a) /\
    (0 <= a)%Q /\ (a <= 100)%Q /\
    average_confidence s = Some (Fin k) /\
    (0 <= k)%Q /\ (k <= 1)%Q.
Proof.
  intros Hf Hvs Hcs Bv Bc. cbv zeta.
  destruct (record_all_fresh calls d Hf) as (_ & _ & _ & Hd & Hc).
  exists (running_average 2 vs), (running_average 3 cs).
  rewrite (Hd _ Hvs), (Hc _ Hcs).
  assert (Qv : (inject_Z 0 / inject_Z (pow10 2) == 0)%Q) by reflexivity.
  assert (Qv' : (inject_Z 10000 / inject_Z (pow10 2) == 100)%Q) by reflexivity.
  assert (Qc : (inject_Z 0 / inject_Z (pow10 3) == 0)%Q) by reflexivity.
  assert (Qc' : (inject_Z 1000 / inject_Z (pow10 3) == 1)%Q) by reflexivity.
  destruct (running_average_between 2 0 10000 vs) as [L1 U1].
  { rewrite Qv. lra. }
  { rewrite Qv'. lra. }
  { eapply Forall_impl; [exact Bv|]. intros v [? ?]. cbn beta.
    rewrite Qv, Qv'. split; assumption. }
  destruct (running_average_between 3 0 1000 cs) as [L2 U2].
  { rewrite Qc. lra. }
  { rewrite Qc'. lra. }
  { eapply Forall_impl; [exact Bc|]. intros v [? ?]. cbn beta.
    rewrite Qc, Qc'. split; assumption. }
  rewrite Qv in L1. rewrite Qv' in U1. rewrite Qc in L2. rewrite Qc' in U2.
  repeat split; assumption.
Qed.

Lemma stored_averages_bounded_witness :
  let calls := [reading "a.png" 100 1 "t0"; reading "b.png" 0 0.5 "t1";
                reading "c.png" 33.33 0.95 "t2"] in
  let s := _read_processing_stats (record_all calls blank_disk) in
  exists a k : Q,
    average_deforestation_percentage s = Some (Fin a) /\
    (0 <= a)%Q /\ (a <= 100)%Q /\
    average_confidence s = Some (Fin k) /\
    (0 <= k)%Q /\ (k <= 1)%Q.
Proof.
  cbv zeta.
  apply (stored_averages_bounded _ [100; 0; 33.33]%Q [1; 0.5; 0.95]%Q).
  - split; reflexivity.
  - repeat constructor.
  - repeat constructor.
  - repeat constructor; unfold Qle; cbn; lia.
  - repeat constructor; unfold Qle; cbn; lia.
Defined.

End AggregatorInvariants.

Section AggregatorDrift.
Import Py App Demo.

Lemma round_half_even_error (x : Q) :
  (inject_Z (round_half_even x) - x <= 1 # 2)%Q /\
  (x - inject_Z (round_half_even x) <= 1 # 2)%Q.
Proof.
  pose proof (Qfloor_le x) as Lf. pose proof (Qlt_floor x) as Uf.
  rewrite inject_Z_plus in Uf. change (inject_Z 1) with 1%Q in Uf.
  unfold round_half_even.
  destruct (Qcompare (x - inject_Z (Qfloor x)) (1 # 2)) eqn:C.
  - apply Qeq_alt in C.
    destruct (Z.even (Qfloor x)); [|rewrite inject_Z_plus;
                                    change (inject_Z 1) with 1%Q]; lra.
  - apply Qlt_alt in C. lra.
  - apply Qgt_alt in C. rewrite inject_Z_plus. change (inject_Z 1) with 1%Q. lra.
Qed.

(** Rounding to [ndigits] decimals moves a value by at most half a unit of
    the last decimal. *)
Lemma round_q_error (x : Q) (ndigits : nat) :
  (round_q x ndigits - x <= 1 / (2 * inject_Z (pow10 ndigits)))%Q /\
  (x - round_q x ndigits <= 1 / (2 * inject_Z (pow10 ndigits)))%Q.
Proof.
  pose proof (inject_pow10_pos ndigits) as P.
  destruct (round_half_even_error (x * inject_Z (pow10 ndigits))) as [U L].
  rewrite round_q_spec.
  set (p := inject_Z (pow10 ndigits)) in *.
  set (r := inject_Z (round_half_even (x * p))) in *.
  assert (E : (1 / (2 * p) == (1 # 2) / p)%Q) by (field; lra).
  rewrite E. split.
  - apply Qle_shift_div_l; [exact P|].
    setoid_replace ((r / p - x) * p)%Q with (r - x * p)%Q using relation Qeq
      by (field; lra).
    exact U.
  - apply Qle_shift_div_l; [exact P|].
    setoid_replace ((x - r / p) * p)%Q with (x * p - r)%Q using relation Qeq
      by (field; lra).
    exact L.
Qed.

(** The gap between [n] times the running average and the sum of the
    values grows by at most [n] half-units at the [n]-th step. *)
Lemma running_average_gap (ndigits : nat) (l : list Q) :
  let n := inject_Z (Z.of_nat (length l)) in
  let e := (1 / (2 * inject_Z (pow10 ndigits)))%Q in
  (n * running_average ndigits l - foldr Qplus 0 l <= n * (n + 1) / 2 * e)%Q /\
  (foldr Qplus 0 l - n * running_average ndigits l <= n * (n + 1) / 2 * e)%Q.
Proof.
  cbv zeta.
  assert (E0 : (0 < 1 / (2 * inject_Z (pow10 ndigits)))%Q).
  { pose proof (inject_pow10_pos ndigits). apply Qlt_shift_div_l; lra. }
  induction l as [|v l IH] using rev_ind.
  - change (inject_Z (Z.of_nat (length (@nil Q)))) with 0%Q.
    change (running_average ndigits []) with 0%Q.
    change (foldr Qplus 0%Q []) with 0%Q.
    set (e := (1 / (2 * inject_Z (pow10 ndigits)))%Q) in *.
    assert (Z0 : (0 * (0 + 1) / 2 * e == 0)%Q) by (unfold Qdiv; ring).
    rewrite Z0. split; lra.
  - destruct IH as [IU IL].
    rewrite running_average_snoc, qsum_snoc, length_app. cbn [length].
    replace (Z.of_nat (length l + 1)) with (Z.of_nat (length l) + 1) by lia.
    unfold step_average.
    set (N := inject_Z (Z.of_nat (length l))) in *.
    assert (EN : (inject_Z (Z.of_nat (length l) + 1) == N + 1)%Q)
      by (rewrite inject_Z_plus; reflexivity).
    assert (N0 : (0 <= N)%Q).
    { unfold N. rewrite <- (Zle_Qle 0). lia. }
    set (r := running_average ndigits l) in *.
    set (s := foldr Qplus 0%Q l) in *.
    set (x := ((r * N + v) / inject_Z (Z.of_nat (length l) + 1))%Q).
    destruct (round_q_error x ndigits) as [RU RL].
    set (r' := round_q x ndigits) in *.
    set (e := (1 / (2 * inject_Z (pow10 ndigits)))%Q) in *.
    assert (Ex : ((N + 1) * x == r * N + v)%Q).
    { unfold x. rewrite EN. field. lra. }
    rewrite EN. split.
    + assert (H1 : ((N + 1) * r' - (s + v)
                    == (N + 1) * (r' - x) + (N * r - s))%Q).
      { setoid_replace ((N + 1) * (r' - x))%Q
          with ((N + 1) * r' - (N + 1) * x)%Q using relation Qeq by ring.
        rewrite Ex. ring. }
      rewrite H1.
      assert (H2 : ((N + 1) * (r' - x) <= (N + 1) * e)%Q)
        by (apply Qmult_le_l; lra).
      setoid_replace ((N + 1) * (N + 1 + 1) / 2 * e)%Q
        with ((N + 1) * e + N * (N + 1) / 2 * e)%Q using relation Qeq
        by (field).
      lra.
    + assert (H1 : (s + v - (N + 1) * r'
                    == (N + 1) * (x - r') + (s - N * r))%Q).
      { setoid_replace ((N + 1) * (x - r'))%Q
          with ((N + 1) * x - (N + 1) * r')%Q using relation Qeq by ring.
        rewrite Ex. ring. }
      rewrite H1.
      assert (H2 : ((N + 1) * (x - r') <= (N + 1) * e)%Q)
        by (apply Qmult_le_l; lra).
      setoid_replace ((N + 1) * (N + 1 + 1) / 2 * e)%Q
        with ((N + 1) * e + N * (N + 1) / 2 * e)%Q using relation Qeq
        by (field).
      lra.
Qed.

(** After [n >= 1] values the running average is within [(n + 1) / 2]
    half-units of the last decimal of the mean. *)
Lemma running_average_drift (ndigits : nat) (l : list Q) :
  l <> [] ->
  let n := inject_Z (Z.of_nat (length l)) in
  let e := (1 / (2 * inject_Z (pow10 ndigits)))%Q in
  (running_average ndigits l - mean l <= (n + 1) / 2 * e)%Q /\
  (mean l - running_average ndigits l <= (n + 1) / 2 * e)%Q.
Proof.
  intros Hne. cbv zeta.
  destruct (running_average_gap ndigits l) as [GU GL].
  unfold mean.
  set (N := inject_Z (Z.of_nat (length l))) in *.
  assert (NP : (0 < N)%Q).
  { unfold N. rewrite <- (Zlt_Qlt 0). destruct l; [congruence|]. cbn. lia. }
  set (r := running_average ndigits l) in *.
  set (s := foldr Qplus 0%Q l) in *.
  set (e := (1 / (2 * inject_Z (pow10 ndigits)))%Q) in *.
  split.
  - apply Qmult_le_l with (z := N); [exact NP|].
    setoid_replace (N * (r - s / N))%Q with (N * r - s)%Q using relation Qeq
      by (field; lra).
    setoid_replace (N * ((N + 1) / 2 * e))%Q with (N * (N + 1) / 2 * e)%Q
      using relation Qeq by field.
    exact GU.
  - apply Qmult_le_l with (z := N); [exact NP|].
    setoid_replace (N * (s / N - r))%Q with (s - N * r)%Q using relation Qeq
      by (field; lra).
    setoid_replace (N * ((N + 1) / 2 * e))%Q with (N * (N + 1) / 2 * e)%Q
      using relation Qeq by field.
    exact GL.
Qed.

(** C1 (as amended).  On a fresh disk, after [n] calls with finite values
    a further call stores
    [round((old_avg * prev_total + new_value) / (prev_total + 1), dp)] with
    [prev_total = n] and [old_avg] the stored, already rounded average, at
    two decimals for the deforestation percentage and three for the
    confidence.  The value of the formula is given for a new value of at
    most [dp] decimals, as the classifier returns it, and a quotient that
    is not half-way between two numbers of [dp] decimals.  The stored
    average is within [(n + 2) / 400], respectively [(n + 2) / 4000], of
    the mean of the [n + 1] values; it is [round(mean, dp)] when the mean
    of every proper prefix has at most [dp] decimals and the mean is not
    half-way, in particular after the first call. *)
Theorem running_average_incremental
    (calls : list call) (c : call) (vs cs : list Q) (v k : Q) (d : disk) :
  fresh d ->
  Forall2 (fun c v => def_pct_of c = Fin v) calls vs ->
  Forall2 (fun c k => conf_of c = Fin k) calls cs ->
  def_pct_of c = Fin v ->
  conf_of c = Fin k ->
  let n := Z.of_nat (length calls) in
  let s0 := _read_processing_stats (record_all calls d) in
  let s1 := _read_processing_stats (record_all (calls ++ [c]) d) in
  exists a0 k0 a1 k1 : Q,
    total_processed s0 = Some n /\
    average_deforestation_percentage s0 = Some (Fin a0) /\
    average_confidence s0 = Some (Fin k0) /\
    total_processed s1 = Some (n + 1) /\
    average_deforestation_percentage s1 = Some (Fin a1) /\
    average_confidence s1 = Some (Fin k1) /\
    (exact_at 2 v ->
     is_tie 2 ((a0 * inject_Z n + v) / inject_Z (n + 1)) = false ->
     a1 = round_q ((a0 * inject_Z n + v) / inject_Z (n + 1)) 2) /\
    (exact_at 3 k ->
     is_tie 3 ((k0 * inject_Z n + k) / inject_Z (n + 1)) = false ->
     k1 = round_q ((k0 * inject_Z n + k) / inject_Z (n + 1)) 3) /\
    (a1 - mean (vs ++ [v]) <= (inject_Z n + 2) / 400)%Q /\
    (mean (vs ++ [v]) - a1 <= (inject_Z n + 2) / 400)%Q /\
    (k1 - mean (cs ++ [k]) <= (inject_Z n + 2) / 4000)%Q /\
    (mean (cs ++ [k]) - k1 <= (inject_Z n + 2) / 4000)%Q /\
    (exact_at 2 v -> prefix_exact 2 (vs ++ [v]) ->
     is_tie 2 (mean (vs ++ [v])) = false ->
     a1 = round_q (mean (vs ++ [v])) 2) /\
    (exact_at 3 k -> prefix_exact 3 (cs ++ [k]) ->
     is_tie 3 (mean (cs ++ [k])) = false ->
     k1 = round_q (mean (cs ++ [k])) 3).
Proof.
  intros Hf Hvs Hcs Hv Hk. cbv zeta.
  destruct (record_all_fresh calls d Hf) as (_ & Ht0 & _ & Hd0 & Hc0).
  destruct (record_all_fresh (calls ++ [c]) d Hf) as (_ & Ht1 & _ & Hd1 & Hc1).
  assert (Hvs1 : Forall2 (fun c v => def_pct_of c = Fin v) (calls ++ [c]) (vs ++ [v])).
  { apply Forall2_app; [assumption|]. constructor; [assumption|constructor]. }
  assert (Hcs1 : Forall2 (fun c k => conf_of c = Fin k) (calls ++ [c]) (cs ++ [k])).
  { apply Forall2_app; [assumption|]. constructor; [assumption|constructor]. }
  exists (running_average 2 vs), (running_average 3 cs),
         (running_average 2 (vs ++ [v])), (running_average 3 (cs ++ [k])).
  rewrite Ht0, (Hd0 _ Hvs), (Hc0 _ Hcs), Ht1, (Hd1 _ Hvs1), (Hc1 _ Hcs1).
  assert (Nv : vs ++ [v] <> []).
  { intros E. apply app_eq_nil in E. destruct E; discriminate. }
  assert (Nk : cs ++ [k] <> []).
  { intros E. apply app_eq_nil in E. destruct E; discriminate. }
  destruct (running_average_drift 2 (vs ++ [v]) Nv) as [U1 L1].
  destruct (running_average_drift 3 (cs ++ [k]) Nk) as [U2 L2].
  assert (Lv : Z.of_nat (length (vs ++ [v])) = Z.of_nat (length calls) + 1).
  { rewrite length_app, <- (Forall2_length _ _ _ Hvs). cbn. lia. }
  assert (Lk : Z.of_nat (length (cs ++ [k])) = Z.of_nat (length calls) + 1).
  { rewrite length_app, <- (Forall2_length _ _ _ Hcs). cbn. lia. }
  rewrite Lv in U1, L1. rewrite Lk in U2, L2.
  rewrite inject_Z_plus in U1, L1, U2, L2.
  change (inject_Z 1) with 1%Q in U1, L1, U2, L2.
  set (n := inject_Z (Z.of_nat (length calls))) in *.
  assert (E2 : ((n + 1 + 1) / 2 * (1 / (2 * inject_Z (pow10 2))) == (n + 2) / 400)%Q).
  { change (inject_Z (pow10 2)) with 100%Q. field. }
  assert (E3 : ((n + 1 + 1) / 2 * (1 / (2 * inject_Z (pow10 3))) == (n + 2) / 4000)%Q).
  { change (inject_Z (pow10 3)) with 1000%Q. field. }
  rewrite E2 in U1, L1. rewrite E3 in U2, L2.
  split; [reflexivity|]. split; [reflexivity|]. split; [reflexivity|].
  split; [rewrite length_app; cbn; f_equal; lia|].
  split; [reflexivity|]. split; [reflexivity|].
  split.
  { intros _ _. rewrite running_average_snoc, <- (Forall2_length _ _ _ Hvs).
    reflexivity. }
  split.
  { intros _ _. rewrite running_average_snoc, <- (Forall2_length _ _ _ Hcs).
    reflexivity. }
  split; [exact U1|]. split; [exact L1|]. split; [exact U2|]. split; [exact L2|].
  split; intros _ Hp _; apply running_average_exact; assumption.
Qed.

Lemma running_average_incremental_witness :
  let calls := [reading "a.png" 10 0.6 "t0"; reading "b.png" 20 0.7 "t1";
                reading "c.png" 30 0.8 "t2"] in
  let s := _read_processing_stats (record_all calls blank_disk) in
  average_deforestation_percentage s = Some (Fin 20) /\
  average_confidence s = Some (Fin 0.7).
Proof.
  destruct (running_average_incremental
              [reading "a.png" 10 0.6 "t0"; reading "b.png" 20 0.7 "t1"]
              (reading "c.png" 30 0.8 "t2") [10; 20]%Q [0.6; 0.7]%Q 30 0.8
              blank_disk)
    as (a0 & k0 & a1 & k1 & _ & _ & _ & _ & Ha & Hk & _ & _ & _ & _ & _ & _
        & Hd & Hc).
  - split; reflexivity.
  - repeat constructor.
  - repeat constructor.
  - reflexivity.
  - reflexivity.
  - cbv zeta. simpl app in Ha, Hk, Hd, Hc. rewrite Ha, Hk. split.
    + rewrite Hd; [reflexivity | exists 3000; reflexivity | | reflexivity].
      intros j Hj. cbn in Hj.
      destruct j as [|[|[|j]]]; try lia;
        [exists 1000 | exists 1500]; reflexivity.
    + rewrite Hc; [reflexivity | exists 800; reflexivity | | reflexivity].
      intros j Hj. cbn in Hj.
      destruct j as [|[|[|j]]]; try lia;
        [exists 600 | exists 650]; reflexivity.
Defined.

(** On a fresh disk, after [n >= 1] calls with finite values the stored
    average percentage is within [(n + 1) / 400] of the mean and the
    stored average confidence within [(n + 1) / 4000]. *)
Theorem stored_average_drift_bound
    (calls : list call) (vs cs : list Q) (d : disk) :
  fresh d -> calls <> [] ->
  Forall2 (fun c v => def_pct_of c = Fin v) calls vs ->
  Forall2 (fun c k => conf_of c = Fin k) calls cs ->
  let s := _read_processing_stats (record_all calls d) in
  let n := inject_Z (Z.of_nat (length calls)) in
  exists a k : Q,
    average_deforestation_percentage s = Some (Fin a) /\
    (a - mean vs <= (n + 1) / 400)%Q /\ (mean vs - a <= (n + 1) / 400)%Q /\
    average_confidence s = Some (Fin k) /\
    (k - mean cs <= (n + 1) / 4000)%Q /\ (mean cs - k <= (n + 1) / 4000)%Q.
Proof.
  intros Hf Hne Hvs Hcs. cbv zeta.
  destruct (record_all_fresh calls d Hf) as (_ & _ & _ & Hd & Hc).
  exists (running_average 2 vs), (running_average 3 cs).
  rewrite (Hd _ Hvs), (Hc _ Hcs).
  assert (Nv : vs <> []).
  { intros ->. apply Forall2_length in Hvs. destruct calls; [congruence|].
    discriminate Hvs. }
  assert (Nc : cs <> []).
  { intros ->. apply Forall2_length in Hcs. destruct calls; [congruence|].
    discriminate Hcs. }
  destruct (running_average_drift 2 vs Nv) as [U1 L1].
  destruct (running_average_drift 3 cs Nc) as [U2 L2].
  rewrite <- (Forall2_length _ _ _ Hvs) in U1, L1.
  rewrite <- (Forall2_length _ _ _ Hcs) in U2, L2.
  set (n := inject_Z (Z.of_nat (length calls))) in *.
  assert (E2 : ((n + 1) / 2 * (1 / (2 * inject_Z (pow10 2))) == (n + 1) / 400)%Q).
  { change (inject_Z (pow10 2)) with 100%Q. field. }
  assert (E3 : ((n + 1) / 2 * (1 / (2 * inject_Z (pow10 3))) == (n + 1) / 4000)%Q).
  { change (inject_Z (pow10 3)) with 1000%Q. field. }
  rewrite E2 in U1, L1. rewrite E3 in U2, L2.
  repeat split; assumption.
Qed.

Lemma stored_average_drift_bound_witness :
  let s := _read_processing_stats (record_all drifting_calls blank_disk) in
  exists a : Q,
    average_deforestation_percentage s = Some (Fin a) /\
    (a - mean [0.04; 0; 0; 0; 0; 0; 0; 0; 0] <= 10 / 400)%Q.
Proof.
  cbv zeta.
  destruct (stored_average_drift_bound drifting_calls
              [0.04; 0; 0; 0; 0; 0; 0; 0; 0]%Q
              [0.9; 0.9; 0.9; 0.9; 0.9; 0.9; 0.9; 0.9; 0.9]%Q blank_disk)
    as (a & k & Ha & Ua & _).
  - split; reflexivity.
  - discriminate.
  - repeat constructor.
  - repeat constructor.
  - exists a. split; [exact Ha|]. exact Ua.
Defined.

End AggregatorDrift.

(** ** Upload validation *)

Section UploadValidation.
Import Py SatelliteProcessor Uploads.

Lemma append_cons (c : ascii) (a b : string) :
  (String c a ++ b = String c (a ++ b))%string.
Proof. reflexivity. Qed.

Lemma append_nil_l (b : string) : (EmptyString ++ b = b)%string.
Proof. reflexivity. Qed.

Lemma length_append (a b : string) :
  String.length (a ++ b) = (String.length a + String.length b)%nat.
Proof.
  induction a as [|c a IH]; [reflexivity|].
  rewrite append_cons. cbn [String.length]. rewrite IH. reflexivity.
Qed.

Lemma substring_all (s : string) : substring 0 (String.length s) s = s.
Proof. induction s as [|c s IH]; cbn; [reflexivity|]. rewrite IH. reflexivity. Qed.

(** A string that ends with [suffix] is something followed by [suffix]. *)
Lemma endswith_inv (s suffix : string) :
  endswith s suffix = true -> exists p, s = (p ++ suffix)%string.
Proof.
  unfold endswith. induction s as [|c r IH]; intros Hs;
    apply andb_true_iff in Hs; destruct Hs as [Hl He];
    apply Nat.leb_le in Hl; apply String.eqb_eq in He.
  - cbn [String.length] in *. exists EmptyString.
    destruct suffix; [reflexivity | cbn in Hl; lia].
  - cbn [String.length] in *.
    destruct (Nat.eq_dec (String.length suffix) (S (String.length r))) as [E|N].
    + exists EmptyString. rewrite E, Nat.sub_diag in He.
      change (S (String.length r)) with (String.length (String c r)) in He.
      rewrite substring_all in He. rewrite append_nil_l. exact He.
    + assert (Hm : (S (String.length r) - String.length suffix
                    = S (String.length r - String.length suffix))%nat) by lia.
      rewrite Hm in He. cbn [substring] in He.
      destruct IH as [p Ep].
      * apply andb_true_iff. split; [apply Nat.leb_le; lia|].
        apply String.eqb_eq. exact He.
      * exists (String c p). rewrite append_cons, <- Ep. reflexivity.
Qed.

Lemma lower_ascii_dot (c : ascii) :
  Ascii.eqb (lower_ascii c) "." = Ascii.eqb c ".".
Proof. destruct c as [[] [] [] [] [] [] [] []]; reflexivity. Qed.

Lemma has_dot_lower (s : string) : has_dot (lower s) = has_dot s.
Proof.
  induction s as [|c s IH]; [reflexivity|].
  cbn [lower has_dot]. rewrite lower_ascii_dot, IH. reflexivity.
Qed.

Lemma lower_app_inv (s a b : string) :
  lower s = (a ++ b)%string ->
  exists a' b', s = (a' ++ b')%string /\ lower a' = a /\ lower b' = b.
Proof.
  revert s. induction a as [|x a IH]; intros s E.
  - exists EmptyString, s. rewrite append_nil_l in E. auto.
  - rewrite append_cons in E. destruct s as [|c s]; [discriminate E|].
    cbn [lower] in E. injection E as Ec Es.
    destruct (IH s Es) as (a' & b' & -> & Ha & Hb).
    exists (String c a'), b'. rewrite append_cons. cbn [lower].
    rewrite Ec, Ha. auto.
Qed.

Lemma has_dot_app (a b : string) :
  has_dot (a ++ b) = has_dot a || has_dot b.
Proof.
  induction a as [|c a IH]; [reflexivity|].
  rewrite append_cons. cbn [has_dot]. rewrite IH. apply orb_assoc.
Qed.

Lemma split_last_dot_none (s : string) :
  has_dot s = false -> split_last_dot s = None.
Proof.
  induction s as [|c s IH]; [reflexivity|]. cbn [has_dot split_last_dot].
  intros H. apply orb_false_iff in H. destruct H as [Hc Hs].
  rewrite (IH Hs), Hc. reflexivity.
Qed.

Lemma split_last_dot_app (stem ext : string) :
  has_dot ext = false ->
  split_last_dot (stem ++ String "." ext) = Some (stem, ext).
Proof.
  intros He. induction stem as [|c stem IH].
  - rewrite append_nil_l. cbn [split_last_dot].
    rewrite (split_last_dot_none _ He). reflexivity.
  - rewrite append_cons. cbn [split_last_dot]. rewrite IH. reflexivity.
Qed.

Lemma allowed_file_split (stem ext : string) :
  has_dot ext = false ->
  allowed_file (stem ++ "." ++ ext)
  = existsb (String.eqb (lower ext)) ALLOWED_EXTENSIONS /\
  allowed_file ext = false.
Proof.
  intros He. split.
  - unfold allowed_file, rsplit_dot.
    change ("." ++ ext)%string with (String "." ext).
    rewrite split_last_dot_app by exact He.
    rewrite has_dot_app. cbn [has_dot Ascii.eqb]. cbn.
    rewrite orb_true_r. reflexivity.
  - unfold allowed_file. rewrite He. reflexivity.
Qed.

(** Only what follows the last dot decides, in any letter case; a name
    without a dot is refused. *)
Theorem allowed_file_by_last_extension (stem ext : string) :
  has_dot ext = false ->
  allowed_file (stem ++ "." ++ ext)
  = existsb (String.eqb (lower ext)) ALLOWED_EXTENSIONS /\
  allowed_file ext = false.
Proof. apply allowed_file_split. Qed.

Lemma allowed_file_by_last_extension_witness :
  allowed_file "archive.tar.PNG" = true /\ allowed_file "PNG" = false.
Proof.
  destruct (allowed_file_by_last_extension "archive.tar" "PNG" eq_refl)
    as [H1 H2].
  split; [exact H1 | exact H2].
Defined.

Example allowed_file_edges :
  allowed_file "photo.png.exe" = false /\ allowed_file ".png" = true /\
  allowed_file "photo." = false /\ allowed_file "" = false /\
  allowed_file "scan.TIFF" = true.
Proof. repeat split; reflexivity. Qed.

Lemma supported_extension_allowed (s fmt : string) :
  In fmt [".jpg"; ".jpeg"; ".png"; ".bmp"]%string ->
  endswith (lower s) fmt = true -> allowed_file s = true.
Proof.
  intros Hin He. destruct (endswith_inv _ _ He) as [p Ep].
  destruct (lower_app_inv _ _ _ Ep) as (stem & tail & -> & _ & Ht).
  assert (Hcase : exists e,
            fmt = String "." e /\ has_dot e = false /\
            existsb (String.eqb e) ALLOWED_EXTENSIONS = true).
  { cbn in Hin.
    destruct Hin as [<-|[<-|[<-|[<-|[]]]]]; eexists; repeat split; reflexivity. }
  destruct Hcase as (e & -> & Hd & Hall).
  destruct tail as [|c ext]; [discriminate Ht|].
  cbn [lower] in Ht. injection Ht as Hc Hext.
  assert (Ec : c = "."%char).
  { apply Ascii.eqb_eq. rewrite <- lower_ascii_dot, Hc. reflexivity. }
  subst c.
  destruct (allowed_file_split stem ext) as [Ha _].
  { rewrite <- has_dot_lower, Hext. exact Hd. }
  change (stem ++ String "." ext)%string with (stem ++ "." ++ ext)%string.
  rewrite Ha, Hext. exact Hall.
Qed.

Lemma append_suffix_inj (a b c d : string) :
  String.length b = String.length d ->
  (a ++ b = c ++ d)%string -> b = d.
Proof.
  intros Hl. revert c. induction a as [|x a IH]; intros c E.
  - rewrite append_nil_l in E. destruct c as [|y c].
    + rewrite append_nil_l in E. exact E.
    + apply (f_equal String.length) in E. rewrite length_append in E.
      cbn [String.length] in E. lia.
  - destruct c as [|y c].
    + rewrite append_nil_l in E. apply (f_equal String.length) in E.
      rewrite length_append in E. cbn [String.length] in E. lia.
    + rewrite !append_cons in E. injection E as _ E. apply (IH c E).
Qed.

Lemma lower_app (a b : string) : lower (a ++ b) = (lower a ++ lower b)%string.
Proof.
  induction a as [|c a IH]; [reflexivity|].
  rewrite append_cons. cbn [lower]. rewrite append_cons, IH. reflexivity.
Qed.

(** Every name batch processing picks up passes the upload check; the
    converse fails: [.tif] and [.tiff] names are accepted for upload and
    skipped by batch processing. *)
Theorem supported_implies_allowed (filename stem : string) :
  (is_supported filename = true -> allowed_file filename = true) /\
  allowed_file (stem ++ ".tif") = true /\
  is_supported (stem ++ ".tif") = false /\
  allowed_file (stem ++ ".tiff") = true /\
  is_supported (stem ++ ".tiff") = false.
Proof.
  assert (Hno : forall tail, (String.length tail = 4)%nat \/ (String.length tail = 5)%nat ->
            lower tail = tail ->
            (forall pre fmt, In fmt [".jpg"; ".jpeg"; ".png"; ".bmp"]%string ->
               forall k, (k ++ tail = pre ++ fmt)%string -> False) ->
            is_supported (stem ++ tail) = false).
  { intros tail _ Hlow Hdiff.
    destruct (is_supported (stem ++ tail)) eqn:B; [|reflexivity].
    apply is_supported_spec in B. destruct B as (fmt & Hin & He).
    destruct (endswith_inv _ _ He) as [p Ep].
    rewrite lower_app, Hlow in Ep.
    exfalso. exact (Hdiff p fmt Hin _ Ep). }
  split; [|split; [|split; [|split]]].
  - intros Hs. apply is_supported_spec in Hs. destruct Hs as (fmt & Hin & He).
    exact (supported_extension_allowed _ _ Hin He).
  - apply (allowed_file_split stem "tif" eq_refl).
  - apply Hno; [left; reflexivity | reflexivity |].
    intros pre fmt Hin k E. cbn in Hin.
    destruct Hin as [<-|[<-|[<-|[<-|[]]]]].
    + apply append_suffix_inj in E; [discriminate E | reflexivity].
    + change (pre ++ ".jpeg")%string with (pre ++ ("." ++ "jpeg"))%string in E.
      rewrite <- append_assoc in E.
      apply append_suffix_inj in E; [discriminate E | reflexivity].
    + apply append_suffix_inj in E; [discriminate E | reflexivity].
    + apply append_suffix_inj in E; [discriminate E | reflexivity].
  - apply (allowed_file_split stem "tiff" eq_refl).
  - apply Hno; [right; reflexivity | reflexivity |].
    intros pre fmt Hin k E. cbn in Hin.
    destruct Hin as [<-|[<-|[<-|[<-|[]]]]].
    + change (k ++ ".tiff")%string with (k ++ ("." ++ "tiff"))%string in E.
      rewrite <- append_assoc in E.
      apply append_suffix_inj in E; [discriminate E | reflexivity].
    + apply append_suffix_inj in E; [discriminate E | reflexivity].
    + change (k ++ ".tiff")%string with (k ++ ("." ++ "tiff"))%string in E.
      rewrite <- append_assoc in E.
      apply append_suffix_inj in E; [discriminate E | reflexivity].
    + change (k ++ ".tiff")%string with (k ++ ("." ++ "tiff"))%string in E.
      rewrite <- append_assoc in E.
      apply append_suffix_inj in E; [discriminate E | reflexivity].
Qed.

End UploadValidation.

(** ** The real-time feed *)

Section Feed.
Import Py Realtime.

Lemma update_is_last50 (r : draws) (now : string) (cs : list coordinate) :
  (real_time_update r now cs).1 = last50 (cs ++ [created (r, now)]).
Proof.
  unfold created, real_time_update, last50. cbn [fst snd].
  destruct (50 <? length (cs ++ _))%nat eqn:B; [reflexivity|].
  apply Nat.ltb_ge in B.
  match goal with
  | |- _ = drop ?n _ => replace n with 0%nat by lia
  end.
  reflexivity.
Qed.

Lemma last50_snoc {A} (l : list A) (x : A) :
  last50 (last50 l ++ [x]) = last50 (l ++ [x]).
Proof.
  unfold last50.
  assert (E : drop (length l - 50) l ++ [x] = drop (length l - 50) (l ++ [x])).
  { rewrite drop_app_le by lia. reflexivity. }
  rewrite E, drop_drop. f_equal.
  rewrite length_drop, !length_app. simpl. lia.
Qed.

(** Each request puts its coordinate at the end of the shared list and
    keeps the last 50; [total_coordinates] is the resulting length, at
    most 50 whatever the list held before.  Served from start-up, [k]
    requests leave the last 50 of the five sample coordinates followed by
    the [k] new ones. *)
Theorem feed_keeps_last_50 (r : draws) (now : string) (cs : list coordinate)
    (requests : list (draws * string)) :
  let out := real_time_update r now cs in
  out.1 = last50 (cs ++ [out.2.1]) /\
  last out.1 = Some out.2.1 /\
  out.2.2 = length out.1 /\
  out.2.2 = Nat.min (length cs + 1) 50 /\
  serve requests initial_coordinates
  = last50 (initial_coordinates ++ List.map created requests) /\
  length (serve requests initial_coordinates)
  = Nat.min (5 + length requests) 50.
Proof.
  cbv zeta.
  assert (Hc : (real_time_update r now cs).2.1 = created (r, now)) by reflexivity.
  assert (H1 : (real_time_update r now cs).1
               = last50 (cs ++ [(real_time_update r now cs).2.1])).
  { rewrite Hc. apply update_is_last50. }
  assert (Hlen : length (real_time_update r now cs).1
                 = Nat.min (length cs + 1) 50).
  { rewrite update_is_last50. unfold last50.
    rewrite length_drop, length_app. cbn [length]. lia. }
  assert (Hs : forall reqs, serve reqs initial_coordinates
               = last50 (initial_coordinates ++ List.map created reqs)).
  { induction reqs as [|q reqs IH] using rev_ind; [reflexivity|].
    unfold serve in *. rewrite foldl_app. cbn [foldl]. rewrite IH.
    destruct q as [r' n']. cbn [fst snd]. rewrite update_is_last50.
    rewrite last50_snoc, map_app, app_assoc. reflexivity. }
  split; [exact H1|]. split.
  - rewrite H1. unfold last50. rewrite Hc.
    rewrite drop_app_le by (rewrite length_app; cbn; lia).
    apply last_snoc.
  - split; [reflexivity|]. split; [exact Hlen|].
    split; [apply Hs|].
    rewrite Hs. unfold last50.
    rewrite length_drop, length_app, length_map. cbn [length initial_coordinates].
    lia.
Qed.

(** With draws in the ranges asked of [random], the new coordinate lies in
    the box [-23.6, -23.4] x [-46.7, -46.5], its severity is one of the
    three levels and its confidence, rounded to two decimals, stays in
    [0.6, 0.98]. *)
Theorem created_coordinate_in_range (r : draws) (now : string) :
  in_range r ->
  let c := created (r, now) in
  (-23.6 <= lat c)%Q /\ (lat c <= -23.4)%Q /\
  (-46.7 <= lng c)%Q /\ (lng c <= -46.5)%Q /\
  In (severity c) ["high"; "medium"; "low"]%string /\
  (0.6 <= confidence c)%Q /\ (confidence c <= 0.98)%Q /\
  timestamp c = now.
Proof.
  intros (L1 & U1 & L2 & U2 & Hp & L3 & U3). cbv zeta.
  unfold created, real_time_update. cbn [fst snd lat lng severity confidence timestamp].
  destruct (round_q_between (u_conf r) 2 60 98) as [Lc Uc].
  { setoid_replace (inject_Z 60 / inject_Z (pow10 2))%Q with 0.6%Q
      using relation Qeq by reflexivity. exact L3. }
  { setoid_replace (inject_Z 98 / inject_Z (pow10 2))%Q with 0.98%Q
      using relation Qeq by reflexivity. exact U3. }
  setoid_replace (inject_Z 60 / inject_Z (pow10 2))%Q with 0.6%Q
    using relation Qeq in Lc by reflexivity.
  setoid_replace (inject_Z 98 / inject_Z (pow10 2))%Q with 0.98%Q
    using relation Qeq in Uc by reflexivity.
  repeat split; try assumption; lra.
Qed.

Lemma created_coordinate_in_range_witness :
  let r := {| u_lat := 0.1; u_lng := -0.1; picked := "low"; u_conf := 0.976 |} in
  let c := created (r, "2024-02-01T00:00:00"%string) in
  (lat c <= -23.4)%Q /\ (-46.7 <= lng c)%Q /\ (confidence c <= 0.98)%Q.
Proof.
  cbv zeta.
  destruct (created_coordinate_in_range
              {| u_lat := 0.1; u_lng := -0.1; picked := "low"; u_conf := 0.976 |}
              "2024-02-01T00:00:00")
    as (_ & U1 & L2 & _ & _ & _ & U3 & _).
  - unfold in_range. cbn.
    repeat split; try (unfold Qle; cbn; lia). right. right. left. reflexivity.
  - repeat split; assumption.
Defined.

End Feed.

(** ** More on the classifier *)

Section ClassifierMore.
Import Py SatelliteProcessor.
Context `{Env}.

Lemma filter_all {A} (p : A -> bool) (l : list A) :
  Forall (fun x => p x = true) l -> List.filter p l = l.
Proof.
  induction 1 as [|x l Hx _ IH]; cbn; [reflexivity|]. rewrite Hx, IH. reflexivity.
Qed.

Lemma filter_disjoint_length {A} (p q : A -> bool) (l : list A) :
  (forall x, p x = true -> q x = false) ->
  (length (List.filter p l) + length (List.filter q l) <= length l)%nat.
Proof.
  intros Hpq. induction l as [|x l IH]; cbn; [lia|].
  destruct (p x) eqn:Px.
  - rewrite (Hpq x Px). cbn. lia.
  - destruct (q x); cbn; lia.
Qed.

(** The six entries of a classification result. *)
Lemma result_entries (a b c d e f : value) :
  let res :=
    <["deforestation_percentage" := a]>
    (<["forest_percentage" := b]>
    (<["confidence" := c]>
    (<["total_pixels" := d]>
    (<["forest_pixels" := e]>
    (<["deforested_pixels" := f]> (∅ : gmap string value)))))) in
  res !! "deforestation_percentage" = Some a /\
  res !! "forest_percentage" = Some b /\
  res !! "confidence" = Some c /\
  res !! "total_pixels" = Some d /\
  res !! "forest_pixels" = Some e /\
  res !! "deforested_pixels" = Some f.
Proof.
  cbv zeta. repeat split;
    repeat first [ rewrite lookup_insert_eq; reflexivity
                 | rewrite lookup_insert_ne by discriminate ].
Qed.

(** No pixel is counted twice: a value above 0.3 is not below 0.1, so the
    two counts together never exceed [total_pixels]. *)
Theorem counts_do_not_overlap image (vi : gmap string (Np.ndarray Q)) ndvi :
  vi !! "NDVI" = Some ndvi -> Np.wf ndvi ->
  let res := detect_deforestation image vi in
  exists f d t : Z,
    res !! "forest_pixels" = Some (VInt f) /\
    res !! "deforested_pixels" = Some (VInt d) /\
    res !! "total_pixels" = Some (VInt t) /\
    0 <= f /\ 0 <= d /\ f + d <= t.
Proof.
  intros Hn Hwf. cbv zeta. rewrite (detect_with_ndvi _ _ _ Hn).
  match goal with
  | |- context [<["deforestation_percentage" := ?a]>
                (<["forest_percentage" := ?b]>
                (<["confidence" := ?c]>
                (<["total_pixels" := ?d]>
                (<["forest_pixels" := ?e]>
                (<["deforested_pixels" := ?f]> ∅)))))] =>
      destruct (result_entries a b c d e f) as (_ & _ & _ & Lt & Lf & Ld)
  end.
  do 3 eexists. rewrite Lt, Lf, Ld.
  split; [reflexivity|]. split; [reflexivity|]. split; [reflexivity|].
  split; [lia|]. split; [lia|].
  rewrite <- Hwf.
  pose proof (filter_disjoint_length
                (fun x => Qlt_bool forest_threshold x)
                (fun x => Qlt_bool x deforested_threshold) (Np.data ndvi)) as Hd.
  assert (Hpq : forall x, Qlt_bool forest_threshold x = true ->
                          Qlt_bool x deforested_threshold = false).
  { intros x Hx. apply Qlt_bool_iff in Hx.
    destruct (Qlt_bool x deforested_threshold) eqn:B; [|reflexivity].
    apply Qlt_bool_iff in B. unfold forest_threshold, deforested_threshold in *.
    lra. }
  specialize (Hd Hpq). lia.
Qed.

(** A uniform scene: when every NDVI value exceeds 0.3 the result is 100 %
    forest and 0 % deforestation, and when every value is below 0.1 it is
    the reverse. *)
Theorem uniform_scene image (vi : gmap string (Np.ndarray Q)) ndvi :
  vi !! "NDVI" = Some ndvi -> Np.wf ndvi -> (0 < Np.size ndvi)%nat ->
  let res := detect_deforestation image vi in
  (Forall (fun x => (0.3 < x)%Q) (Np.data ndvi) ->
   res !! "forest_percentage" = Some (VFloat (Fin 100)) /\
   res !! "deforestation_percentage" = Some (VFloat (Fin 0)) /\
   res !! "forest_pixels" = res !! "total_pixels") /\
  (Forall (fun x => (x < 0.1)%Q) (Np.data ndvi) ->
   res !! "forest_percentage" = Some (VFloat (Fin 0)) /\
   res !! "deforestation_percentage" = Some (VFloat (Fin 100)) /\
   res !! "deforested_pixels" = res !! "total_pixels").
Proof.
  intros Hn Hwf Hpos. cbv zeta. rewrite (detect_with_ndvi _ _ _ Hn).
  change forest_threshold with 0.3%Q. change deforested_threshold with 0.1%Q.
  match goal with
  | |- context [<["deforestation_percentage" := ?a]>
                (<["forest_percentage" := ?b]>
                (<["confidence" := ?c]>
                (<["total_pixels" := ?d]>
                (<["forest_pixels" := ?e]>
                (<["deforested_pixels" := ?f]> ∅)))))] =>
      destruct (result_entries a b c d e f) as (Lp & Lq & _ & Lt & Lf & Ld)
  end.
  rewrite Lp, Lq, Lt, Lf, Ld. clear Lp Lq Lt Lf Ld.
  assert (Ez : (Z.of_nat (Np.size ndvi) =? 0) = false) by (apply Z.eqb_neq; lia).
  assert (Np0 : (0 < inject_Z (Z.of_nat (Np.size ndvi)))%Q).
  { rewrite <- (Zlt_Qlt 0). lia. }
  assert (R100 : round_q (inject_Z (Z.of_nat (Np.size ndvi))
                          / inject_Z (Z.of_nat (Np.size ndvi)) * 100) 2 = 100%Q).
  { rewrite (round_q_comp _ 100%Q); [reflexivity|]. field. lra. }
  assert (R0 : round_q (inject_Z 0 / inject_Z (Z.of_nat (Np.size ndvi)) * 100) 2
               = 0%Q).
  { rewrite (round_q_comp _ 0%Q); [reflexivity|].
    change (inject_Z 0) with 0%Q. unfold Qdiv. ring. }
  split; intros Hall.
  - assert (EF : List.filter (fun x => Qlt_bool 0.3 x) (Np.data ndvi)
                 = Np.data ndvi).
    { apply filter_all. eapply Forall_impl; [exact Hall|].
      intros x Hx. cbn beta in *. apply Qlt_bool_iff. exact Hx. }
    assert (ED : List.filter (fun x => Qlt_bool x 0.1) (Np.data ndvi) = []).
    { apply filter_none. eapply Forall_impl; [exact Hall|].
      intros x Hx. cbn beta in *. destruct (Qlt_bool x 0.1) eqn:B; [|reflexivity].
      apply Qlt_bool_iff in B. lra. }
    rewrite EF, ED, Hwf. cbn [length]. change (Z.of_nat 0) with 0.
    unfold true_divide. rewrite Ez. cbn [fmul lift2 Py.round].
    rewrite R100, R0. repeat split; reflexivity.
  - assert (ED : List.filter (fun x => Qlt_bool x 0.1) (Np.data ndvi)
                 = Np.data ndvi).
    { apply filter_all. eapply Forall_impl; [exact Hall|].
      intros x Hx. cbn beta in *. apply Qlt_bool_iff. exact Hx. }
    assert (EF : List.filter (fun x => Qlt_bool 0.3 x) (Np.data ndvi) = []).
    { apply filter_none. eapply Forall_impl; [exact Hall|].
      intros x Hx. cbn beta in *. destruct (Qlt_bool 0.3 x) eqn:B; [|reflexivity].
      apply Qlt_bool_iff in B. lra. }
    rewrite EF, ED, Hwf. cbn [length]. change (Z.of_nat 0) with 0.
    unfold true_divide. rewrite Ez. cbn [fmul lift2 Py.round].
    rewrite R100, R0. repeat split; reflexivity.
Qed.

End ClassifierMore.

Section ClassifierMoreExamples.
Import Py SatelliteProcessor Demo.

Lemma counts_do_not_overlap_witness :
  let ndvi := Np.mk [1; 4]%nat [0.5; 0.05; 0.2; 0.31]%Q in
  let res := detect_deforestation ndvi (<["NDVI" := ndvi]> ∅) in
  exists f d t : Z,
    res !! "forest_pixels" = Some (VInt f) /\
    res !! "deforested_pixels" = Some (VInt d) /\
    res !! "total_pixels" = Some (VInt t) /\
    0 <= f /\ 0 <= d /\ f + d <= t.
Proof.
  cbv zeta.
  apply (counts_do_not_overlap
           (Np.mk [1; 4]%nat [0.5; 0.05; 0.2; 0.31]%Q)
           (<["NDVI" := Np.mk [1; 4]%nat [0.5; 0.05; 0.2; 0.31]%Q]> ∅)
           (Np.mk [1; 4]%nat [0.5; 0.05; 0.2; 0.31]%Q)); reflexivity.
Defined.

Lemma uniform_scene_witness :
  let ndvi := Np.mk [1; 2]%nat [0.5; 0.9]%Q in
  let res := detect_deforestation ndvi (<["NDVI" := ndvi]> ∅) in
  res !! "forest_percentage" = Some (VFloat (Fin 100)) /\
  res !! "deforestation_percentage" = Some (VFloat (Fin 0)).
Proof.
  cbv zeta.
  destruct (uniform_scene
              (Np.mk [1; 2]%nat [0.5; 0.9]%Q)
              (<["NDVI" := Np.mk [1; 2]%nat [0.5; 0.9]%Q]> ∅)
              (Np.mk [1; 2]%nat [0.5; 0.9]%Q)) as [Hf _].
  - reflexivity.
  - reflexivity.
  - cbn. lia.
  - destruct Hf as (H1 & H2 & _).
    + repeat constructor.
    + split; [exact H1 | exact H2].
Defined.

End ClassifierMoreExamples.

(** ** More on the indices *)

Section IndicesMore.
Import Py SatelliteProcessor.

Lemma take_channel_Forall {A} (P : A -> Prop) (c k : nat) (d : list A) :
  Forall P d -> Forall P (Np.take_channel c k d).
Proof.
  intros Hd. unfold Np.take_channel.
  induction (seq 0 (length d / c)) as [|i l IH]; [constructor|].
  cbn [omap list_omap]. unfold omap in IH.
  destruct (d !! (i * c + k)%nat) as [x|] eqn:E; [|exact IH].
  constructor; [|exact IH].
  rewrite Forall_forall in Hd. apply Hd. eapply list_elem_of_lookup_2. exact E.
Qed.

Lemma channel_Forall {A} (P : A -> Prop) (k : nat) (a : Np.ndarray A) :
  Forall P (Np.data a) -> Forall P (Np.data (Np.channel k a)).
Proof.
  intros Hd. unfold Np.channel.
  destruct (Np.shape a) as [|h [|w [|c [|? ?]]]]; try exact Hd.
  cbn [Np.data]. apply take_channel_Forall. exact Hd.
Qed.

Lemma Forall_zip_with {A B} (P : A -> Prop) (R : B -> Prop) (f : A -> A -> B)
    (a b : list A) :
  (forall x y, P x -> P y -> R (f x y)) ->
  Forall P a -> Forall P b -> Forall R (zip_with f a b).
Proof.
  intros Hf Ha. revert b. induction Ha as [|x a Hx _ IH]; intros b Hb.
  - constructor.
  - destruct Hb as [|y b Hy Hb]; cbn; constructor; auto.
Qed.

(** On an image without negative samples every NDVI value lies between
    -1 and 1, both included, and GNDVI with it. *)
Theorem ndvi_in_unit_interval (image : Np.ndarray Q) (h w c : nat) :
  Np.shape image = [h; w; c] -> (3 <= c)%nat -> Np.wf image ->
  Forall (fun x => (0 <= x)%Q) (Np.data image) ->
  let vi := calculate_vegetation_indices image in
  exists ndvi,
    vi !! "NDVI" = Some ndvi /\ vi !! "GNDVI" = Some ndvi /\
    Forall (fun x => (-1 <= x)%Q /\ (x <= 1)%Q) (Np.data ndvi).
Proof.
  intros Hs Hc Hwf Hpos. cbv zeta.
  destruct (vegetation_indices_ok image h w c Hs Hc Hwf) as (Hn & Hg & _).
  eexists. split; [exact Hn|]. split; [rewrite Hg; exact Hn|].
  cbn [Np.data].
  apply (Forall_zip_with (fun x => (0 <= x)%Q)); try (apply channel_Forall; exact Hpos).
  intros g r Hg0 Hr0.
  assert (D : (0 < g + r + 1e-8)%Q).
  { assert (0 < 1e-8)%Q by reflexivity. lra. }
  split.
  - apply Qle_shift_div_l; [exact D|].
    assert (0 < 1e-8)%Q by reflexivity. lra.
  - apply Qle_shift_div_r; [exact D|].
    assert (0 < 1e-8)%Q by reflexivity. lra.
Qed.

Lemma ndvi_in_unit_interval_witness :
  let image := Np.mk [1; 2; 3]%nat [1; 0; 0; 0; 1; 0]%Q in
  exists ndvi,
    calculate_vegetation_indices image !! "NDVI" = Some ndvi /\
    Forall (fun x => (-1 <= x)%Q /\ (x <= 1)%Q) (Np.data ndvi).
Proof.
  cbv zeta.
  destruct (ndvi_in_unit_interval (Np.mk [1; 2; 3]%nat [1; 0; 0; 0; 1; 0]%Q) 1 2 3)
    as (ndvi & Hn & _ & Hall).
  - reflexivity.
  - lia.
  - reflexivity.
  - repeat constructor; unfold Qle; cbn; lia.
  - exists ndvi. split; [exact Hn | exact Hall].
Defined.

End IndicesMore.

(** ** More on the pipeline *)

Section PipelineMore.
Import Py SatelliteProcessor.
Context `{Env}.

Lemma swap_rb_lookup (n : nat) (d : list Z) (i : nat) :
  length d = (3 * n)%nat -> (i < n)%nat ->
  swap_rb d !! (i * 3)%nat = d !! (i * 3 + 2)%nat /\
  swap_rb d !! (i * 3 + 1)%nat = d !! (i * 3 + 1)%nat /\
  swap_rb d !! (i * 3 + 2)%nat = d !! (i * 3)%nat.
Proof.
  revert d i. induction n as [|n IH]; intros d i Hd Hi; [lia|].
  destruct d as [|b [|g [|r rest]]]; try (cbn in Hd; lia).
  cbn [swap_rb]. destruct i as [|i].
  - cbn. auto.
  - replace (S i * 3)%nat with (S (S (S (i * 3)))) by lia.
    replace (S (S (S (i * 3))) + 1)%nat with (S (S (S (i * 3 + 1)))) by lia.
    replace (S (S (S (i * 3))) + 2)%nat with (S (S (S (i * 3 + 2)))) by lia.
    cbn [lookup list_lookup]. apply IH; [cbn in Hd; lia | lia].
Qed.

Lemma take_channel_swap (n : nat) (d : list Z) :
  length d = (3 * n)%nat ->
  Np.take_channel 3 0 (swap_rb d) = Np.take_channel 3 2 d /\
  Np.take_channel 3 1 (swap_rb d) = Np.take_channel 3 1 d /\
  Np.take_channel 3 2 (swap_rb d) = Np.take_channel 3 0 d.
Proof.
  intros Hd.
  destruct (swap_rb_spec (fun _ => True) n d Hd) as [Hs _].
  assert (Hn : (length d / 3 = n)%nat).
  { rewrite Hd, Nat.mul_comm. apply Nat.div_mul. lia. }
  assert (Hn' : (length (swap_rb d) / 3 = n)%nat).
  { rewrite Hs, Nat.mul_comm. apply Nat.div_mul. lia. }
  assert (Hgen : forall k k', (k < 3)%nat -> (k' < 3)%nat ->
            (forall i, (i < n)%nat ->
               swap_rb d !! (i * 3 + k)%nat = d !! (i * 3 + k')%nat) ->
            Np.take_channel 3 k (swap_rb d) = Np.take_channel 3 k' d).
  { intros k k' Hk Hk' Hlk.
    destruct (take_channel_spec 3 k (swap_rb d) Hk) as [L1 I1].
    destruct (take_channel_spec 3 k' d Hk') as [L2 I2].
    apply list_eq. intros i. destruct (Nat.lt_ge_cases i n) as [Hi|Hi].
    - rewrite I1, I2 by lia. apply Hlk, Hi.
    - rewrite !lookup_ge_None_2 by lia. reflexivity. }
  split; [|split]; apply Hgen; try lia; intros i Hi;
    destruct (swap_rb_lookup n d i Hd Hi) as (E0 & E1 & E2);
    rewrite ?Nat.add_0_r; assumption.
Qed.

(** [load_image] raises [ValueError] naming the path when the file does
    not decode; otherwise it returns the decoded image with the same
    shape and its first and third channels exchanged, red first. *)
Theorem load_image_rgb (image_path : string) :
  (cv2_imread image_path = None ->
   load_image image_path
   = Raise (ValueError ("Could not load image: " ++ image_path))) /\
  (forall image h w,
     cv2_imread image_path = Some image ->
     Np.shape image = [h; w; 3%nat] -> Np.wf image ->
     exists rgb,
       load_image image_path = Ok rgb /\
       Np.shape rgb = [h; w; 3%nat] /\ Np.wf rgb /\
       Np.channel 0 rgb = Np.channel 2 image /\
       Np.channel 1 rgb = Np.channel 1 image /\
       Np.channel 2 rgb = Np.channel 0 image).
Proof.
  split.
  - intros E. unfold load_image. rewrite E. reflexivity.
  - intros image h w E Hs Hwf. unfold load_image, cvtColor_BGR2RGB.
    rewrite E, Hs. eexists. split; [reflexivity|].
    assert (Hd : length (Np.data image) = (3 * (h * w))%nat).
    { rewrite Hwf. unfold Np.size. rewrite Hs. cbn. lia. }
    destruct (swap_rb_spec (fun _ => True) (h * w) (Np.data image) Hd) as [Hl _].
    destruct (take_channel_swap (h * w) (Np.data image) Hd) as (C0 & C1 & C2).
    split; [reflexivity|]. split.
    { unfold Np.wf, Np.size. cbn [Np.shape Np.data foldr]. rewrite Hl. lia. }
    unfold Np.channel. cbn [Np.shape Np.data]. rewrite Hs, C0, C1, C2.
    repeat split; reflexivity.
Qed.

(** A file that decodes to a well-formed three-channel image is processed
    without an exception: the result has its percentages in [0, 100], its
    confidence in [0.5, 0.95] and [total_pixels] = 512 * 512; the mask is
    512 by 512 and all 255; every index array is 512 by 512. *)
Theorem process_decodable_result (path : string) (image : Np.ndarray Z)
    (h w : nat) :
  Cv2.resize_contract cv2_resize ->
  cv2_imread path = Some image ->
  Cv2.raw_wf image -> Np.shape image = [h; w; 3%nat] ->
  exists results mask indices (dp fp cf : Q),
    process_satellite_image path = Ok (results, mask, indices) /\
    results !! "deforestation_percentage" = Some (VFloat (Fin dp)) /\
    (0 <= dp)%Q /\ (dp <= 100)%Q /\
    results !! "forest_percentage" = Some (VFloat (Fin fp)) /\
    (0 <= fp)%Q /\ (fp <= 100)%Q /\
    results !! "confidence" = Some (VFloat (Fin cf)) /\
    (0.5 <= cf)%Q /\ (cf <= 0.95)%Q /\
    results !! "total_pixels" = Some (VInt 262144) /\
    Np.shape mask = [512; 512]%nat /\
    Forall (fun v => v = 255) (Np.data mask) /\
    Z.of_nat (length (Np.data mask)) = 262144 /\
    (forall name, is_Some (indices !! name) <->
       name ∈ ["NDVI"; "GNDVI"; "VARI"; "Greenness"]%string) /\
    (forall name a, indices !! name = Some a -> Np.shape a = [512; 512]%nat).
Proof.
  intros Hc Hr (Hs & Hwf & Hu) Es.
  unfold process_satellite_image, load_image, cvtColor_BGR2RGB.
  rewrite Hr, Es. cbn [mbind result_bind bind].
  destruct (swap_rb_spec Cv2.uint8 (h * w) (Np.data image)) as [Ll Lf].
  { rewrite Hwf. unfold Np.size. rewrite Es. cbn. lia. }
  destruct (preprocess_ok Hc
              (Np.mk [h; w; 3%nat] (swap_rb (Np.data image)))
              default_target_size)
    as (resized & out & _ & Eo & _ & Wo & _ & _ & _ & Hsh).
  - rewrite Es in Hs. split; [exact Hs|]. split; [|apply Lf; exact Hu].
    unfold Np.wf, Np.size. cbn [Np.shape Np.data foldr]. rewrite Ll. lia.
  - unfold default_target_size. cbn [fst]. lia.
  - unfold default_target_size. cbn [snd]. lia.
  - specialize (Hsh h w 3%nat eq_refl ltac:(lia)).
    unfold default_target_size in Hsh. cbn [fst snd] in Hsh.
    rewrite Eo. cbn [mbind result_bind bind mret result_ret].
    destruct (pipeline_in_range out 512 512 3 Hsh ltac:(lia) Wo ltac:(lia) ltac:(lia))
      as (dp & fp & cf & H1 & H2 & H3 & H4 & H5 & H6 & H7 & H8 & H9 & Ht).
    destruct (vegetation_indices_ok out 512 512 3 Hsh ltac:(lia) Wo)
      as (_ & _ & _ & Hkeys & Hall).
    do 3 eexists. exists dp, fp, cf. split; [reflexivity|].
    rewrite Hsh. cbn [take].
    assert (E512 : Z.of_nat (512 * 512) = 262144) by lia.
    rewrite E512 in Ht.
    repeat (split; [assumption|]).
    split; [reflexivity|].
    unfold Np.full. cbn [Np.data foldr].
    split; [apply Forall_replicate; reflexivity|].
    split; [rewrite length_replicate; lia|].
    split; [exact Hkeys|].
    intros name a Ha. apply (Hall name a Ha).
Qed.

(** A two-dimensional (grayscale) image comes out of the preprocessor with
    one channel, gets no vegetation index and so the degenerate result:
    it is never classified. *)
Theorem grayscale_not_classified (image : Np.ndarray Z) (target_size : nat * nat) :
  Cv2.resize_contract cv2_resize ->
  Cv2.raw_wf image -> Np.ndim image = 2%nat ->
  (0 < target_size.1)%nat -> (0 < target_size.2)%nat ->
  exists out,
    preprocess_image image target_size = Ok out /\
    Np.shape out = [target_size.2; target_size.1; 1%nat] /\
    calculate_vegetation_indices out = ∅ /\
    detect_deforestation out (calculate_vegetation_indices out) = degenerate.
Proof.
  intros Hc Hraw Hd Hw Hh.
  destruct (preprocess_ok Hc image target_size Hraw Hw Hh)
    as (resized & out & _ & Eo & _ & _ & _ & _ & H2 & _).
  destruct (H2 Hd) as [_ Hs].
  exists out. split; [exact Eo|]. split; [exact Hs|].
  assert (Ec : calculate_vegetation_indices out = ∅).
  { unfold calculate_vegetation_indices. rewrite Hs. reflexivity. }
  split; [exact Ec|]. rewrite Ec. reflexivity.
Qed.

(** The entries of a batch report carry the listed names, in listing
    order: joining a name to the directory and taking the base name gives
    the name back. *)
Theorem batch_files_are_listed_names (directory_path : string)
    (names : list string) :
  os_listdir directory_path = Ok names ->
  Forall (fun name => has_slash name = false) names ->
  exists report,
    batch_process directory_path = Ok report /\
    List.map file (results report) = List.filter is_supported names.
Proof.
  intros Hl Hn. unfold batch_process. rewrite Hl.
  cbn [mbind result_bind bind mret result_ret].
  eexists. split; [reflexivity|]. cbn [results].
  rewrite !map_map.
  assert (Hf : Forall (fun name => has_slash name = false)
                 (List.filter is_supported names)).
  { rewrite Forall_forall in Hn |- *. intros x Hx.
    apply list_elem_of_In, filter_In in Hx. destruct Hx as [Hx _].
    apply Hn, list_elem_of_In, Hx. }
  induction Hf as [|x l Hx _ IH]; [reflexivity|].
  cbn [List.map]. rewrite IH. f_equal.
  destruct (process_entry_spec (path_join directory_path x)) as [E _].
  rewrite E. apply basename_path_join, Hx.
Qed.

End PipelineMore.

Section PipelineMoreExamples.
Import Py SatelliteProcessor Demo.

Example load_image_unreadable :
  load_image "tiles/broken.bmp"
  = Raise (ValueError "Could not load image: tiles/broken.bmp") /\
  (Np.data <$> match load_image "tiles/forest.jpg" with
               | Ok a => Some a | Raise _ => None end)
  = Some [50; 180; 50].
Proof. split; reflexivity. Qed.

Lemma process_decodable_result_witness :
  exists results mask indices,
    process_satellite_image "tiles/forest.jpg" = Ok (results, mask, indices) /\
    results !! "total_pixels" = Some (VInt 262144) /\
    Np.shape mask = [512; 512]%nat.
Proof.
  destruct (@process_decodable_result env "tiles/forest.jpg" (pixel 50 180 50) 1 1
              resize_nearest_contract)
    as (results & mask & indices & dp & fp & cf & E & _ & _ & _ & _ & _ & _ & _
        & _ & _ & Ht & Hm & _).
  - reflexivity.
  - split; [reflexivity|]. split; [reflexivity|].
    repeat constructor; unfold Cv2.uint8; lia.
  - reflexivity.
  - exists results, mask, indices. auto.
Defined.

Lemma grayscale_not_classified_witness :
  exists out,
    preprocess_image (Np.mk [1; 2]%nat [255; 0]) (3, 2)%nat = Ok out /\
    detect_deforestation out (calculate_vegetation_indices out) = degenerate.
Proof.
  destruct (@grayscale_not_classified env (Np.mk [1; 2]%nat [255; 0]) (3, 2)%nat
              resize_nearest_contract)
    as (out & Eo & _ & _ & Hd).
  - split; [reflexivity|]. split; [reflexivity|].
    repeat constructor; unfold Cv2.uint8; lia.
  - reflexivity.
  - cbn. lia.
  - cbn. lia.
  - exists out. split; [exact Eo | exact Hd].
Defined.

Lemma batch_files_are_listed_names_witness :
  exists report,
    batch_process "tiles" = Ok report /\
    List.map file (results report)
    = ["forest.jpg"; "CLEARED.PNG"; "broken.bmp"]%string.
Proof.
  destruct (batch_files_are_listed_names "tiles"
              ["forest.jpg"; "notes.txt"; "CLEARED.PNG"; "broken.bmp"]%string)
    as (report & Eb & Ef).
  - reflexivity.
  - repeat constructor.
  - exists report. split; [exact Eb|]. rewrite Ef. reflexivity.
Defined.

End PipelineMoreExamples.

(** ** The satellite endpoints *)

Section Endpoints.
Import Py SatelliteProcessor App Routes.
Context `{Env} `{Web}.

(** The classifier never returns an empty dict. *)
Lemma detect_nonempty image (vi : gmap string (Np.ndarray Q)) :
  size (detect_deforestation image vi) <> 0%nat.
Proof.
  intros E. apply map_size_empty_iff in E.
  assert (Hc : is_Some (detect_deforestation image vi !! "confidence")).
  { unfold detect_deforestation.
    destruct (size vi =? 0)%nat; [eexists; reflexivity|].
    destruct (vi !! "NDVI") as [ndvi|]; [|eexists; reflexivity].
    cbv zeta.
    match goal with
    | |- context [<["deforestation_percentage" := ?a]>
                  (<["forest_percentage" := ?b]>
                  (<["confidence" := ?c]>
                  (<["total_pixels" := ?d]>
                  (<["forest_pixels" := ?e]>
                  (<["deforested_pixels" := ?f]> ∅)))))] =>
        destruct (result_entries a b c d e f) as (_ & _ & Lc & _)
    end.
    rewrite Lc. eexists. reflexivity. }
  rewrite E, lookup_empty in Hc. destruct Hc as [? Hc]. discriminate Hc.
Qed.

Lemma process_result_truthy path r m i :
  SatelliteProcessor.process_satellite_image path = Ok (r, m, i) ->
  truthy (Some r) = true.
Proof.
  unfold SatelliteProcessor.process_satellite_image.
  destruct (load_image path) as [image|e]; [|discriminate].
  cbn [mbind result_bind bind].
  destruct (preprocess_image image default_target_size) as [out|e]; [|discriminate].
  cbn [mbind result_bind bind mret result_ret].
  intros E. injection E as <- _ _. unfold truthy.
  apply negb_true_iff, Nat.eqb_neq, detect_nonempty.
Qed.


Lemma healthy_update filename results t d :
  healthy d ->
  exists d' s',
    _update_processing_stats filename results t d = (d', Ok s') /\ healthy d'.
Proof.
  intros (Hw & h & n & Hh & Hn & Hp).
  do 2 eexists. split.
  - apply (update_success _ _ _ _ _ Hh). rewrite Hn. cbn. lia.
  - unfold _write_processing_stats. rewrite Hw. split; [reflexivity|].
    cbn [_read_processing_stats content history total_processed].
    do 2 eexists. split; [reflexivity|]. split; [reflexivity|].
    rewrite Hn. cbn. lia.
Qed.

Lemma fresh_healthy d : fresh d -> healthy d.
Proof.
  intros [Hz Hw]. split; [exact Hw|]. rewrite Hz.
  exists [], 0. repeat split; reflexivity || lia.
Qed.

Lemma record_all_cons (c : call) (calls : list call) (d : disk) :
  record_all (c :: calls) d
  = record_all calls (_update_processing_stats c.1.1 c.1.2 c.2 d).1.
Proof. reflexivity. Qed.

(** On a healthy record the loop goes through: it makes one call per
    recorded entry, in order. *)
Lemma record_entries_healthy entries tick d :
  healthy d ->
  exists calls,
    record_entries entries tick d
    = (record_all calls d, (tick + length calls)%nat, Ok tt) /\
    List.map (fun c : call => c.1) calls
    = List.map (fun e => (file e, default ∅ (result e))) (recorded entries).
Proof.
  revert tick d. induction entries as [|entry rest IH]; intros tick d Hd.
  - exists []. cbn. rewrite Nat.add_0_r. auto.
  - cbn [record_entries recorded List.filter].
    destruct (String.eqb (status entry) "success" && truthy (result entry)) eqn:B.
    + destruct (healthy_update (file entry) (default ∅ (result entry))
                  (now tick) d Hd) as (d' & s' & Eu & Hd').
      rewrite Eu. destruct (IH (S tick) d' Hd') as (calls & Er & Ec).
      exists ((file entry, default ∅ (result entry), now tick) :: calls).
      rewrite record_all_cons. cbn [fst snd]. rewrite Eu. cbn [fst].
      rewrite Er. cbn [length List.map]. unfold recorded in Ec. rewrite Ec.
      replace (tick + S (length calls))%nat with (S tick + length calls)%nat
        by lia.
      split; reflexivity.
    + apply IH, Hd.
Qed.

Lemma last100_map {A B} (f : A -> B) (l : list A) :
  last100 (List.map f l) = List.map f (last100 l).
Proof. unfold last100. rewrite length_map. apply skipn_map. Qed.

Lemma recorded_entries (paths : list string) :
  let ok := List.filter
              (fun p => match SatelliteProcessor.process_satellite_image p with
                        | Ok _ => true | Raise _ => false end) paths in
  List.map file (recorded (List.map process_entry paths))
  = List.map basename ok /\
  length (recorded (List.map process_entry paths)) = length ok.
Proof.
  cbv zeta. induction paths as [|p paths [IH1 IH2]]; [split; reflexivity|].
  cbn [List.map List.filter recorded]. unfold recorded in IH1, IH2.
  destruct (SatelliteProcessor.process_satellite_image p)
    as [[[r m] i]|e] eqn:Ep.
  - assert (Epe : process_entry p
                  = {| file := basename p; result := Some r;
                       status := "success"; error := None |}).
    { unfold process_entry. rewrite Ep. reflexivity. }
    rewrite Epe. cbn [status result].
    rewrite (process_result_truthy _ _ _ _ Ep).
    change ("success" =? "success")%string with true. cbn [andb].
    cbn [List.map length file]. rewrite IH1, IH2. split; reflexivity.
  - assert (Epe : process_entry p
                  = {| file := basename p; result := None;
                       status := "error"; error := Some (str e) |}).
    { unfold process_entry. rewrite Ep. reflexivity. }
    rewrite Epe. cbn [status result].
    change ("error" =? "success")%string with false.
    cbn [andb]. split; assumption.
Qed.

(** The batch endpoint on a fresh record: the statistics count exactly the
    supported files whose processing returned, and the history lists
    their names in listing order (the last 100); files that failed are in
    the report but not in the statistics. *)
Theorem batch_endpoint_records_successes (directory : string)
    (names : list string) (d : disk) :
  fresh d ->
  directory <> EmptyString ->
  os_path_exists directory = true ->
  os_listdir directory = Ok names ->
  let out := batch_process_images (Some directory) d in
  let paths := List.map (path_join directory) (List.filter is_supported names) in
  let ok := List.filter
              (fun p => match SatelliteProcessor.process_satellite_image p with
                        | Ok _ => true | Raise _ => false end) paths in
  total_processed (_read_processing_stats out.1)
  = Some (Z.of_nat (length ok)) /\
  (exists h, history (_read_processing_stats out.1) = Some h /\
             List.map filename h = last100 (List.map basename ok)) /\
  (status_code out.2 = 200%nat \/ status_code out.2 = 500%nat).
Proof.
  intros Hf Hne He Hl. cbv zeta.
  unfold batch_process_images.
  assert (Eb : String.eqb directory EmptyString = false)
    by (apply String.eqb_neq; exact Hne).
  rewrite Eb, He. cbn [negb].
  unfold batch_process. rewrite Hl.
  cbn [mbind result_bind bind mret result_ret results].
  set (paths := List.map (path_join directory) (List.filter is_supported names)).
  destruct (record_entries_healthy (List.map process_entry paths) 0 d
              (fresh_healthy d Hf)) as (calls & Er & Ec).
  rewrite Er. cbn [fst snd].
  destruct (recorded_entries paths) as [Rf Rl].
  destruct (record_all_fresh calls d Hf) as (_ & Ht & Hh & _).
  assert (Elen : length calls = length (recorded (List.map process_entry paths))).
  { rewrite <- (length_map (fun c : call => c.1) calls), Ec, length_map.
    reflexivity. }
  split; [rewrite Ht, Elen, Rl; reflexivity|].
  split.
  - eexists. split; [exact Hh|].
    rewrite <- last100_map, map_map. f_equal.
    rewrite <- Rf.
    transitivity (List.map fst (List.map (fun c : call => c.1) calls)).
    + rewrite map_map. apply map_ext. intros [[f r] t]. reflexivity.
    + rewrite Ec, map_map. reflexivity.
  - unfold respond. destruct (jsonify_raises _); cbn; auto.
Qed.


(** When the processor raises on the file, neither single-image endpoint
    touches the statistics.  The process endpoint then never answers 200;
    the upload endpoint, once the file is accepted and saved, answers
    with the error text in [results] and status 200 unless [jsonify]
    raises. *)
Theorem failed_processing_not_recorded (name : string) (d : disk) (e : exn) :
  (SatelliteProcessor.process_satellite_image (satellite_path name) = Raise e ->
   (Routes.process_satellite_image (Some name) d).1 = d /\
   status_code (Routes.process_satellite_image (Some name) d).2 <> 200%nat) /\
  (let unique := (uuid4_hex ++ "_" ++ secure_filename name)%string in
   SatelliteProcessor.process_satellite_image (satellite_path unique) = Raise e ->
   (upload_satellite_image (Some name) d).1 = d /\
   (name <> EmptyString -> Uploads.allowed_file name = true ->
    file_save (satellite_path unique) = Ok tt ->
    (upload_satellite_image (Some name) d).2
    = respond "Upload failed: "
        (UploadPayload "Image uploaded and processed successfully" unique
           (satellite_path unique) (ErrorDict (str e))
           (_read_processing_stats d) (now 0)))).
Proof.
  split.
  - intros Ep. unfold Routes.process_satellite_image.
    destruct (String.eqb name EmptyString); [split; [reflexivity|discriminate]|].
    destruct (negb _); [split; [reflexivity|discriminate]|].
    rewrite Ep. split; [reflexivity|discriminate].
  - cbv zeta. intros Ep. unfold upload_satellite_image. split.
    + destruct (String.eqb name EmptyString); [reflexivity|].
      destruct (Uploads.allowed_file name); [|reflexivity].
      destruct (file_save _); [|reflexivity].
      rewrite Ep. reflexivity.
    + intros Hn Ha Hs. apply String.eqb_neq in Hn. rewrite Hn, Ha, Hs, Ep.
      reflexivity.
Qed.

End Endpoints.

Section EndpointExamples.
Import Py SatelliteProcessor App Routes Demo DemoWeb.

Lemma batch_endpoint_records_successes_witness :
  let out := batch_process_images (Some "tiles"%string) blank_disk in
  total_processed (_read_processing_stats out.1) = Some 2 /\
  (exists h, history (_read_processing_stats out.1) = Some h /\
             List.map filename h = ["forest.jpg"; "CLEARED.PNG"]%string).
Proof.
  cbv zeta.
  destruct (@batch_endpoint_records_successes env web "tiles"
              ["forest.jpg"; "notes.txt"; "CLEARED.PNG"; "broken.bmp"]%string
              blank_disk) as (Ht & (h & Hh & Hn) & _).
  - split; reflexivity.
  - discriminate.
  - reflexivity.
  - reflexivity.
  - cbv zeta in Ht, Hn.
    change (List.filter is_supported
              ["forest.jpg"; "notes.txt"; "CLEARED.PNG"; "broken.bmp"]%string)
      with ["forest.jpg"; "CLEARED.PNG"; "broken.bmp"]%string in Ht, Hn.
    cbn [List.map] in Ht, Hn.
    change (path_join "tiles" "forest.jpg") with "tiles/forest.jpg"%string in Ht, Hn.
    change (path_join "tiles" "CLEARED.PNG") with "tiles/CLEARED.PNG"%string in Ht, Hn.
    change (path_join "tiles" "broken.bmp") with "tiles/broken.bmp"%string in Ht, Hn.
    destruct (@process_decodable env "tiles/forest.jpg" (pixel 50 180 50) 1 1
                resize_nearest_contract) as [r1 E1].
    { reflexivity. }
    { split; [reflexivity|]. split; [reflexivity|].
      repeat constructor; unfold Cv2.uint8; lia. }
    { reflexivity. }
    destruct (@process_decodable env "tiles/CLEARED.PNG" (pixel 60 60 200) 1 1
                resize_nearest_contract) as [r2 E2].
    { reflexivity. }
    { split; [reflexivity|]. split; [reflexivity|].
      repeat constructor; unfold Cv2.uint8; lia. }
    { reflexivity. }
    assert (E3 : SatelliteProcessor.process_satellite_image "tiles/broken.bmp"
                 = Raise (ValueError "Could not load image: tiles/broken.bmp"))
      by reflexivity.
    cbn [List.filter] in Ht, Hn. rewrite E1, E2, E3 in Ht, Hn.
    cbn [List.filter length List.map] in Ht, Hn.
    split; [exact Ht|]. exists h. split; [exact Hh|]. rewrite Hn. reflexivity.
Defined.


(** A file that does not decode: the process endpoint answers 500, the
    upload endpoint 200 with the error in [results]; the statistics stay
    as they were. *)
Example undecodable_file_at_both_endpoints :
  Routes.process_satellite_image (Some "broken.bmp"%string) blank_disk
  = (blank_disk,
     {| body := ErrorPayload
                  "Processing failed: Could not load image: uploads/satellite_images/broken.bmp";
        status_code := 500 |}) /\
  upload_satellite_image (Some "broken.bmp"%string) blank_disk
  = (blank_disk,
     {| body := UploadPayload "Image uploaded and processed successfully"
                  "0f3a_broken.bmp" "uploads/satellite_images/0f3a_broken.bmp"
                  (ErrorDict
                     "Could not load image: uploads/satellite_images/0f3a_broken.bmp")
                  zero_stats "t0";
        status_code := 200 |}) /\
  upload_satellite_image (Some "notes.txt"%string) blank_disk
  = (blank_disk,
     {| body := ErrorPayload "Invalid file type"; status_code := 400 |}).
Proof. repeat split; reflexivity. Qed.

End EndpointExamples.

(** ** Unclassifiable images in the statistics *)

Section DegenerateRecorded.
Import Py SatelliteProcessor App Demo.

Lemma running_average_zeros (ndigits n : nat) :
  running_average ndigits (replicate n 0%Q) = 0%Q.
Proof.
  induction n as [|n IH]; [reflexivity|].
  rewrite replicate_S_end, running_average_snoc, IH. unfold step_average.
  rewrite (round_q_comp _ 0%Q).
  - unfold round_q.
    assert (E : round_half_even (0 * inject_Z (pow10 ndigits)) = 0).
    { rewrite (round_half_even_comp _ (inject_Z 0)) by (change (inject_Z 0) with 0%Q; ring).
      apply round_half_even_inject. }
    rewrite E. reflexivity.
  - unfold Qdiv. ring.
Qed.

Lemma all_zero_values (g : call -> float) (l : list call) :
  Forall (fun c => g c = Fin (inject_Z 0)) l ->
  Forall2 (fun c v => g c = Fin v) l (replicate (length l) 0%Q).
Proof.
  induction 1 as [|c l Hc _ IH]; [constructor|].
  cbn [length replicate]. constructor; [exact Hc | exact IH].
Qed.

(** The degenerate result is recorded like an image with 0 % and
    confidence 0: it counts in [total_processed], never in
    [total_deforested_images], and a record fed only such results keeps
    both averages at 0. *)
Theorem degenerate_results_count_as_zero (calls : list call) (d : disk) :
  fresh d ->
  Forall (fun c : call => c.1.2 = degenerate) calls ->
  let s := _read_processing_stats (record_all calls d) in
  total_processed s = Some (Z.of_nat (length calls)) /\
  total_deforested_images s = Some 0 /\
  average_deforestation_percentage s = Some (Fin 0) /\
  average_confidence s = Some (Fin 0) /\
  Forall (fun c => def_pct_of c = Fin (inject_Z 0) /\ conf_of c = Fin (inject_Z 0))
         calls.
Proof.
  intros Hf Hall. cbv zeta.
  assert (Hv : Forall (fun c => def_pct_of c = Fin (inject_Z 0)
                                /\ conf_of c = Fin (inject_Z 0)) calls).
  { eapply Forall_impl; [exact Hall|]. intros [[f r] t] E. cbn [fst snd] in E.
    subst r. split; reflexivity. }
  destruct (record_all_fresh calls d Hf) as (_ & Ht & _ & Hd & Hc).
  split; [exact Ht|].
  split.
  - clear Hd Hc Ht.
    induction calls as [|c calls IH] using rev_ind.
    + destruct Hf as [Hz _]. cbn. rewrite Hz. reflexivity.
    + apply Forall_app in Hall. destruct Hall as [Hl Hc].
      apply Forall_app in Hv. destruct Hv as [Hvl Hvc].
      inversion Hvc as [|? ? [Hdc _] _]; subst.
      destruct (record_all_fresh calls d Hf) as (Hw & Ht & Hh & _).
      rewrite record_all_snoc.
      rewrite (update_success _ _ _ _ _ Hh) by (rewrite Ht; cbn; lia).
      cbn [fst]. unfold _write_processing_stats. rewrite Hw.
      cbn [_read_processing_stats content total_deforested_images].
      destruct c as [[f r] t]. cbn [fst snd]. rewrite Hdc.
      cbn [fge]. change (Qle_bool 20 (inject_Z 0)) with false.
      cbn iota. apply (IH Hl Hvl).
  - rewrite (Hd (replicate (length calls) 0%Q)), (Hc (replicate (length calls) 0%Q)).
    + rewrite !running_average_zeros. repeat split; try reflexivity. exact Hv.
    + apply (all_zero_values conf_of). eapply Forall_impl; [exact Hv|]. intros c [_ E]. exact E.
    + apply (all_zero_values def_pct_of). eapply Forall_impl; [exact Hv|]. intros c [E _]. exact E.
Qed.

Lemma degenerate_results_count_as_zero_witness :
  let calls := [("gray1.png"%string, degenerate, "t0"%string);
                ("gray2.png"%string, degenerate, "t1"%string)] in
  let s := _read_processing_stats (record_all calls blank_disk) in
  total_processed s = Some 2 /\ total_deforested_images s = Some 0 /\
  average_confidence s = Some (Fin 0).
Proof.
  cbv zeta.
  destruct (degenerate_results_count_as_zero
              [("gray1.png"%string, degenerate, "t0"%string);
               ("gray2.png"%string, degenerate, "t1"%string)] blank_disk)
    as (Ht & Hd & _ & Hc & _).
  - split; reflexivity.
  - repeat constructor.
  - auto.
Defined.

End DegenerateRecorded.
